(** * NetDimm protocol driver (netboot/netboot.py): a shallow embedding

    The driver is embedded as a state-and-exception monad over an explicit
    model of the TCP socket.  Python integers are [Z], byte strings are
    [list byte], exceptions are an inductive type, [while] loops take fuel. *)

From Stdlib Require Import String Ascii DecimalString ZArith List Lia Bool.
From Stdlib.Strings Require Import Byte.
Import ListNotations.
Local Open Scope Z_scope.

(** ** Bytes, slices and [struct] *)

Definition bytes := list byte.

(** Python's [len]. *)
Definition len {A : Type} (l : list A) : Z := Z.of_nat (length l).

Definition byte_val (b : byte) : Z := Z.of_N (Byte.to_N b).

Definition byte_of (z : Z) : byte :=
  match Byte.of_N (Z.to_N (Z.land z 0xFF)) with
  | Some b => b
  | None => x00
  end.

(** [l[a:b]] for [0 <= a]. *)
Definition slice {A : Type} (l : list A) (a b : Z) : list A :=
  firstn (Z.to_nat (b - a)) (skipn (Z.to_nat a) l).

(** The [n] low bytes of [v], least significant first. *)
Definition le_bytes (n : nat) (v : Z) : bytes :=
  map (fun i => byte_of (Z.shiftr v (8 * Z.of_nat i))) (seq 0 n).

Definition le_value (bs : bytes) : Z :=
  fold_right (fun b acc => byte_val b + 256 * acc) 0 bs.

(** [struct.pack("<I", v)] and [struct.pack("<H", v)]; [None] is [struct.error]. *)
Definition struct_pack_I (v : Z) : option bytes :=
  if (0 <=? v) && (v <? 2 ^ 32) then Some (le_bytes 4 v) else None.

Definition struct_pack_H (v : Z) : option bytes :=
  if (0 <=? v) && (v <? 2 ^ 16) then Some (le_bytes 2 v) else None.

Definition struct_pack_II (a b : Z) : option bytes :=
  match struct_pack_I a, struct_pack_I b with
  | Some x, Some y => Some (x ++ y)
  | _, _ => None
  end.

Definition struct_pack_III (a b c : Z) : option bytes :=
  match struct_pack_I a, struct_pack_I b, struct_pack_I c with
  | Some x, Some y, Some z => Some (x ++ y ++ z)
  | _, _, _ => None
  end.

Definition struct_pack_IIH (a b c : Z) : option bytes :=
  match struct_pack_I a, struct_pack_I b, struct_pack_H c with
  | Some x, Some y, Some z => Some (x ++ y ++ z)
  | _, _, _ => None
  end.

(** [struct.unpack("<I", bs)[0]]. *)
Definition struct_unpack_I (bs : bytes) : option Z :=
  if (length bs =? 4)%nat then Some (le_value bs) else None.

(** [struct.unpack("<HHHHI", bs)]. *)
Definition struct_unpack_HHHHI (bs : bytes) : option (Z * Z * Z * Z * Z) :=
  if (length bs =? 12)%nat then
    Some (le_value (slice bs 0 2), le_value (slice bs 2 4),
          le_value (slice bs 4 6), le_value (slice bs 6 8),
          le_value (slice bs 8 12))
  else None.

(** [struct.unpack("<IIH", bs)]. *)
Definition struct_unpack_IIH (bs : bytes) : option (Z * Z * Z) :=
  if (length bs =? 10)%nat then
    Some (le_value (slice bs 0 4), le_value (slice bs 4 8),
          le_value (slice bs 8 10))
  else None.

(** ** [zlib.crc32]

    The IEEE 802.3 CRC, bit by bit with the reflected polynomial; the running
    value is taken modulo 2^32 as zlib does. *)

Definition crc_shift (c : Z) : Z :=
  if Z.testbit c 0 then Z.lxor (Z.shiftr c 1) 0xEDB88320 else Z.shiftr c 1.

Definition crc_byte (c : Z) (b : byte) : Z :=
  Nat.iter 8 crc_shift (Z.lxor c (byte_val b)).

Definition zlib_crc32 (data : bytes) (value : Z) : Z :=
  Z.lxor (fold_left crc_byte data (Z.lxor (Z.land value 0xFFFFFFFF) 0xFFFFFFFF))
         0xFFFFFFFF.

(** ** Enumerations and records *)

Inductive TargetEnum : Type :=
| TARGET_CHIHIRO
| TARGET_NAOMI
| TARGET_TRIFORCE.

Inductive TargetVersionEnum : Type :=
| TARGET_VERSION_UNKNOWN
| TARGET_VERSION_1_07
| TARGET_VERSION_2_03
| TARGET_VERSION_2_15
| TARGET_VERSION_3_01
| TARGET_VERSION_4_01
| TARGET_VERSION_4_02.

Definition TargetVersionEnum_eqb (a b : TargetVersionEnum) : bool :=
  match a, b with
  | TARGET_VERSION_UNKNOWN, TARGET_VERSION_UNKNOWN
  | TARGET_VERSION_1_07, TARGET_VERSION_1_07
  | TARGET_VERSION_2_03, TARGET_VERSION_2_03
  | TARGET_VERSION_2_15, TARGET_VERSION_2_15
  | TARGET_VERSION_3_01, TARGET_VERSION_3_01
  | TARGET_VERSION_4_01, TARGET_VERSION_4_01
  | TARGET_VERSION_4_02, TARGET_VERSION_4_02 => true
  | _, _ => false
  end.

Definition TargetEnum_eqb (a b : TargetEnum) : bool :=
  match a, b with
  | TARGET_CHIHIRO, TARGET_CHIHIRO
  | TARGET_NAOMI, TARGET_NAOMI
  | TARGET_TRIFORCE, TARGET_TRIFORCE => true
  | _, _ => false
  end.

(** [TargetVersionEnum(s)]: the member whose value is [s]; [None] is
    [ValueError]. *)
Definition TargetVersionEnum_of_value (s : string) : option TargetVersionEnum :=
  if String.eqb s "UNKNOWN" then Some TARGET_VERSION_UNKNOWN
  else if String.eqb s "1.07" then Some TARGET_VERSION_1_07
  else if String.eqb s "2.03" then Some TARGET_VERSION_2_03
  else if String.eqb s "2.15" then Some TARGET_VERSION_2_15
  else if String.eqb s "3.01" then Some TARGET_VERSION_3_01
  else if String.eqb s "4.01" then Some TARGET_VERSION_4_01
  else if String.eqb s "4.02" then Some TARGET_VERSION_4_02
  else None.

Record NetDimmInfo : Type := mkNetDimmInfo {
  current_game_crc : Z;
  memory_size : Z;
  firmware_version : TargetVersionEnum;
  available_game_memory : Z
}.

Record NetDimmPacket : Type := mkNetDimmPacket {
  pktid : Z;
  flags : Z;
  data : bytes
}.

Definition length_ (p : NetDimmPacket) : Z := len (data p).

(** [f"{n}"] and [f"{n:02}"] for a non-negative integer. *)
Definition format_d (n : Z) : string :=
  NilEmpty.string_of_uint (N.to_uint (Z.to_N n)).

Definition format_02 (n : Z) : string :=
  let s := format_d n in
  if (String.length s <? 2)%nat then String.append "0" s else s.

Definition version_str (version : Z) : string :=
  String.append (format_d (Z.land (Z.shiftr version 8) 0xFF))
    (String.append "." (format_02 (Z.land version 0xFF))).

(** ** Exceptions *)

Inductive Exn : Type :=
| NetDimmException (msg : string)
| SocketError      (* socket.timeout and the other OSErrors of a socket *)
| StructError      (* struct.error *)
| ValueError       (* raised by Crypto.Cipher.DES *)
| AttributeError   (* a method called on None *)
| CallbackError.   (* whatever a progress callback raises *)

(** ** The socket and the network behind it

    The peer and the kernel are a script the driver consumes.  [rx] lists what
    arrives: a segment of data or an error (a timeout, a reset); once it is
    exhausted the peer has closed and [recv] returns [b""].  [tx] lists how
    each [send] call fares: [None] raises, [Some k] takes [k] bytes of the
    buffer (at least one, at most all of it); once it is exhausted every
    [send] takes its whole buffer.  [events] records every call, oldest
    first. *)

Inductive RxEvent : Type :=
| RxData (bs : bytes)
| RxError.

Inductive Event : Type :=
| EvSocket (id : nat)
| EvConnect (id : nat) (ok : bool)
| EvSend (id : nat) (buf : bytes) (accepted : Z)
| EvSendFail (id : nat) (buf : bytes)
| EvRecv (id : nat) (bufsize : Z) (res : option bytes)
| EvClose (id : nat)
| EvProgress (cur tot : Z).

Record Network : Type := mkNetwork {
  connect_ok : bool;
  rx : list RxEvent;
  tx : list (option Z);
  next_id : nat;
  events : list Event
}.

Record NetDimm : Type := mkNetDimm {
  ip : string;
  sock : option nat;
  quiet : bool;
  target : TargetEnum;
  version : TargetVersionEnum
}.

Record State : Type := mkState {
  self : NetDimm;
  net : Network
}.

(** [NetDimm.__init__] *)
Definition NetDimm_init (ip : string) (target : option TargetEnum)
    (version : option TargetVersionEnum) (quiet : bool) : NetDimm :=
  mkNetDimm ip None quiet
    (match target with Some t => t | None => TARGET_NAOMI end)
    (match version with Some v => v | None => TARGET_VERSION_UNKNOWN end).

Definition with_sock (st : State) (s : option nat) : State :=
  mkState (mkNetDimm (ip (self st)) s (quiet (self st)) (target (self st))
             (version (self st)))
          (net st).

Definition log_event (n : Network) (e : Event) : Network :=
  mkNetwork (connect_ok n) (rx n) (tx n) (next_id n) (events n ++ [e]).

Definition with_net (st : State) (n : Network) : State := mkState (self st) n.

(** What one [recv(bufsize)] returns and what is left of the script. *)
Fixpoint rx_recv (bufsize : nat) (script : list RxEvent)
    : option bytes * list RxEvent :=
  match script with
  | [] => (Some [], [])
  | RxError :: rest => (None, rest)
  | RxData [] :: rest => rx_recv bufsize rest
  | RxData bs :: rest =>
      (Some (firstn bufsize bs),
       match skipn bufsize bs with
       | [] => rest
       | later => RxData later :: rest
       end)
  end.

(** How many bytes of [buf] a [send] takes when the script says [k]. *)
Definition tx_accept (k : Z) (buf : bytes) : Z := Z.min (Z.max k 1) (len buf).

(** ** The monad: state, exceptions and fuel *)

Inductive Outcome (A : Type) : Type :=
| Ok (a : A) (st : State)
| Raise (e : Exn) (st : State)
| OutOfFuel.
Arguments Ok {A} a st.
Arguments Raise {A} e st.
Arguments OutOfFuel {A}.

Definition M (A : Type) : Type := State -> Outcome A.

Definition ret {A : Type} (a : A) : M A := fun st => Ok a st.

Definition bind {A B : Type} (m : M A) (f : A -> M B) : M B :=
  fun st =>
    match m st with
    | Ok a st' => f a st'
    | Raise e st' => Raise e st'
    | OutOfFuel => OutOfFuel
    end.

Definition raise {A : Type} (e : Exn) : M A := fun st => Raise e st.

Definition out_of_fuel {A : Type} : M A := fun _ => OutOfFuel.

Notation "x <- m ;; k" := (bind m (fun x => k))
  (at level 61, m at next level, right associativity).
Notation "m ;; k" := (bind m (fun _ => k))
  (at level 61, right associativity).

(** [try: m  except Exception as e: h e] *)
Definition try_except {A : Type} (m : M A) (h : Exn -> M A) : M A :=
  fun st =>
    match m st with
    | Raise e st' => h e st'
    | o => o
    end.

(** [try: m  finally: fin] *)
Definition try_finally {A : Type} (m : M A) (fin : M unit) : M A :=
  fun st =>
    match m st with
    | Ok a st' =>
        match fin st' with
        | Ok _ st'' => Ok a st''
        | Raise e st'' => Raise e st''
        | OutOfFuel => OutOfFuel
        end
    | Raise e st' =>
        match fin st' with
        | Ok _ st'' => Raise e st''
        | Raise e' st'' => Raise e' st''
        | OutOfFuel => OutOfFuel
        end
    | OutOfFuel => OutOfFuel
    end.

(** The result of a [struct] call, [struct.error] when there is none. *)
Definition of_struct {A : Type} (o : option A) : M A :=
  match o with
  | Some a => ret a
  | None => raise StructError
  end.

(** The result of a DES call, [ValueError] when there is none. *)
Definition of_crypto {A : Type} (o : option A) : M A :=
  match o with
  | Some a => ret a
  | None => raise ValueError
  end.

Definition get_sock : M (option nat) := fun st => Ok (sock (self st)) st.

Definition set_sock (s : option nat) : M unit := fun st => Ok tt (with_sock st s).

(** ** The [socket] module *)

(** [socket.socket(...)]: a fresh socket; creating one is taken to succeed. *)
Definition socket_socket : M nat :=
  fun st =>
    let n := net st in
    let id := next_id n in
    Ok id (with_net st (mkNetwork (connect_ok n) (rx n) (tx n) (S id)
                          (events n ++ [EvSocket id]))).

(** Timeouts are not modelled as time: they show as [RxError] and as a failing
    [send] or [connect]. *)
Definition socket_settimeout (id : nat) (seconds : Z) : M unit := ret tt.

Definition socket_connect (id : nat) : M unit :=
  fun st =>
    let n := net st in
    if connect_ok n then Ok tt (with_net st (log_event n (EvConnect id true)))
    else Raise SocketError (with_net st (log_event n (EvConnect id false))).

Definition socket_send (id : nat) (buf : bytes) : M Z :=
  fun st =>
    let n := net st in
    match tx n with
    | [] =>
        Ok (len buf)
           (with_net st (log_event n (EvSend id buf (len buf))))
    | Some k :: later =>
        Ok (tx_accept k buf)
           (with_net st (mkNetwork (connect_ok n) (rx n) later (next_id n)
                           (events n ++ [EvSend id buf (tx_accept k buf)])))
    | None :: later =>
        Raise SocketError
           (with_net st (mkNetwork (connect_ok n) (rx n) later (next_id n)
                           (events n ++ [EvSendFail id buf])))
    end.

Definition socket_recv (id : nat) (bufsize : Z) : M bytes :=
  fun st =>
    let n := net st in
    let '(res, later) := rx_recv (Z.to_nat bufsize) (rx n) in
    let st' := with_net st (mkNetwork (connect_ok n) later (tx n) (next_id n)
                              (events n ++ [EvRecv id bufsize res])) in
    match res with
    | Some bs => Ok bs st'
    | None => Raise SocketError st'
    end.

Definition socket_close (id : nat) : M unit :=
  fun st => Ok tt (with_net st (log_event (net st) (EvClose id))).

(** ** The driver *)

Section Driver.

(** [Crypto.Cipher.DES]: the cipher on one 8-byte block, [des_block key block],
    is left open; the engine around it is the library's: a key of 8 bytes, ECB
    over consecutive blocks, [ValueError] (here [None]) for a key of another
    size or for data that is not a whole number of blocks. *)
Variable des_block : bytes -> bytes -> bytes.

Definition DES_new (key : bytes) : option bytes :=
  if (length key =? 8)%nat then Some key else None.

Fixpoint ecb_blocks (fuel : nat) (key plaintext : bytes) : bytes :=
  match fuel with
  | O => []
  | S fuel' =>
      match plaintext with
      | [] => []
      | _ => des_block key (firstn 8 plaintext)
               ++ ecb_blocks fuel' key (skipn 8 plaintext)
      end
  end.

Definition DES_encrypt (des : bytes) (plaintext : bytes) : option bytes :=
  if len plaintext mod 8 =? 0
  then Some (ecb_blocks (length plaintext) des plaintext)
  else None.

(** A progress callback returns ([true]) or raises ([false]). *)
Definition Callback : Type := Z -> Z -> bool.

Definition call_progress (cb : Callback) (cur tot : Z) : M unit :=
  fun st =>
    let st' := with_net st (log_event (net st) (EvProgress cur tot)) in
    if cb cur tot then Ok tt st' else Raise CallbackError st'.

(** [NetDimm.__print]: what goes to the console is not part of the state. *)
Definition print_ : M unit := ret tt.

(** [bool(key)] for an optional byte string. *)
Definition truthy (key : option bytes) : bool :=
  match key with
  | Some (_ :: _) => true
  | _ => false
  end.

(** [NetDimm.crc] *)
Definition crc (data : bytes) : Z :=
  let crc := 0 in
  let crc := zlib_crc32 data crc in
  Z.land (Z.lnot crc) 0xFFFFFFFF.

(** [NetDimm.__read] *)
Fixpoint read_loop (fuel : nat) (id : nat) (left : Z) (res : list bytes)
    : M (list bytes) :=
  match fuel with
  | O => out_of_fuel
  | S fuel' =>
      if 0 <? left then
        r <- socket_recv id left ;;
        read_loop fuel' id (left - len r) (res ++ [r])
      else ret res
  end.

Definition read (fuel : nat) (num : Z) : M bytes :=
  s <- get_sock ;;
  match s with
  | None => raise (NetDimmException "Not connected to NetDimm")
  | Some id =>
      res <- read_loop fuel id num [] ;;
      ret (concat res)
  end.

(** The header word and the frame of a packet. *)
Definition header_word (packet : NetDimmPacket) : Z :=
  Z.lor (Z.lor (Z.shiftl (Z.land (pktid packet) 0xFF) 24)
               (Z.shiftl (Z.land (flags packet) 0xFF) 16))
        (Z.land (length_ packet) 0xFFFF).

Definition frame (packet : NetDimmPacket) : bytes :=
  le_bytes 4 (header_word packet) ++ data packet.

(** [NetDimm.__send_packet] *)
Definition send_packet (packet : NetDimmPacket) : M unit :=
  s <- get_sock ;;
  match s with
  | None => raise (NetDimmException "Not connected to NetDimm")
  | Some id =>
      header <- of_struct (struct_pack_I (header_word packet)) ;;
      _ <- socket_send id (header ++ data packet) ;;
      ret tt
  end.

(** [NetDimm.__recv_packet] *)
Definition recv_packet (fuel : nat) : M NetDimmPacket :=
  header <- read fuel 4 ;;
  headerbytes <- of_struct (struct_unpack_I header) ;;
  let packet :=
    mkNetDimmPacket (Z.land (Z.shiftr headerbytes 24) 0xFF)
                    (Z.land (Z.shiftr headerbytes 16) 0xFF) [] in
  let length := Z.land headerbytes 0xFFFF in
  if 0 <? length then
    data <- read fuel length ;;
    ret (mkNetDimmPacket (pktid packet) (flags packet) data)
  else ret packet.

(** [NetDimm.__startup] *)
Definition startup : M unit := send_packet (mkNetDimmPacket 0x01 0x00 []).

(** [NetDimm.__connection], around the body of the [with] statement. *)
Definition connection {A : Type} (body : M A) : M A :=
  try_except
    (s <- socket_socket ;;
     set_sock (Some s) ;;
     socket_settimeout s 1 ;;
     socket_connect s ;;
     socket_settimeout s 10)
    (fun e => raise (NetDimmException "Could not connect to NetDimm")) ;;
  try_finally
    (startup ;; body)
    (s <- get_sock ;;
     match s with
     | None => raise AttributeError
     | Some id => socket_close id
     end ;;
     set_sock None).

(** [NetDimm.__host_poke4] *)
Definition host_poke4 (addr data : Z) : M unit :=
  payload <- of_struct (struct_pack_III addr 0 data) ;;
  send_packet (mkNetDimmPacket 0x11 0x00 payload).

(** [NetDimm.__exchange_host_mode] *)
Definition exchange_host_mode (fuel : nat) (mask_bits set_bits : Z) : M Z :=
  payload <- of_struct (struct_pack_I
               (Z.lor (Z.shiftl (Z.land mask_bits 0xFF) 8) (Z.land set_bits 0xFF))) ;;
  send_packet (mkNetDimmPacket 0x07 0x00 payload) ;;
  response <- recv_packet fuel ;;
  if negb (pktid response =? 0x07) then
    raise (NetDimmException "Unexpected data returned from set host mode packet!")
  else if negb (length_ response =? 4) then
    raise (NetDimmException "Unexpected data length returned from set host mode packet!")
  else
    v <- of_struct (struct_unpack_I (data response)) ;;
    ret (Z.land v 0xFF).

(** [NetDimm.__set_host_mode] *)
Definition set_host_mode (fuel : nat) (mode : Z) : M unit :=
  _ <- exchange_host_mode fuel 0 mode ;;
  ret tt.

(** [NetDimm.__get_host_mode] *)
Definition get_host_mode (fuel : nat) : M Z := exchange_host_mode fuel 0xFF 0.

(** [NetDimm.__exchange_dimm_mode] *)
Definition exchange_dimm_mode (fuel : nat) (mask_bits set_bits : Z) : M Z :=
  payload <- of_struct (struct_pack_I
               (Z.lor (Z.shiftl (Z.land mask_bits 0xFF) 8) (Z.land set_bits 0xFF))) ;;
  send_packet (mkNetDimmPacket 0x08 0x00 payload) ;;
  response <- recv_packet fuel ;;
  if negb (pktid response =? 0x08) then
    raise (NetDimmException "Unexpected data returned from set dimm mode packet!")
  else if negb (length_ response =? 4) then
    raise (NetDimmException "Unexpected data length returned from set dimm mode packet!")
  else
    v <- of_struct (struct_unpack_I (data response)) ;;
    ret (Z.land v 0xFF).

(** [NetDimm.__set_dimm_mode] *)
Definition set_dimm_mode (fuel : nat) (mode : Z) : M unit :=
  _ <- exchange_dimm_mode fuel 0 mode ;;
  ret tt.

(** [NetDimm.__get_dimm_mode] *)
Definition get_dimm_mode (fuel : nat) : M Z := exchange_dimm_mode fuel 0xFF 0.

(** [NetDimm.__set_key_code] *)
Definition set_key_code (keydata : bytes) : M unit :=
  if negb (len keydata =? 8) then
    raise (NetDimmException "Key code must by 8 bytes in length")
  else send_packet (mkNetDimmPacket 0x7F 0x00 keydata).

(** [NetDimm.__upload] *)
Definition upload (sequence addr : Z) (data : bytes) (last_chunk : bool) : M unit :=
  prefix <- of_struct (struct_pack_IIH sequence addr 0) ;;
  send_packet (mkNetDimmPacket 0x04 (if last_chunk then 0x81 else 0x80)
                 (prefix ++ data)).

(** The [while True] loop of [NetDimm.__download]. *)
Fixpoint download_loop (fuel : nat) (read_fuel : nat) (data_ : bytes) : M bytes :=
  match fuel with
  | O => out_of_fuel
  | S fuel' =>
      chunk <- recv_packet read_fuel ;;
      if negb (pktid chunk =? 0x04) then
        raise (NetDimmException "Unexpected data returned from download packet!")
      else if length_ chunk <=? 10 then
        raise (NetDimmException "Unexpected data length returned from download packet!")
      else
        fields <- of_struct (struct_unpack_IIH (slice (data chunk) 0 10)) ;;
        let '(_chunksequence, chunkaddr, _) := fields in
        let data_ := data_ ++ slice (data chunk) 10 (length_ chunk) in
        if negb (Z.land (flags chunk) 0x1 =? 0) then ret data_
        else download_loop fuel' read_fuel data_
  end.

(** [NetDimm.__download] *)
Definition download (fuel : nat) (addr size : Z) : M bytes :=
  payload <- of_struct (struct_pack_II addr size) ;;
  send_packet (mkNetDimmPacket 0x05 0x00 payload) ;;
  download_loop fuel fuel [].

(** [NetDimm.__get_information] *)
Definition get_information (fuel : nat) : M NetDimmInfo :=
  send_packet (mkNetDimmPacket 0x18 0x00 []) ;;
  response <- recv_packet fuel ;;
  if negb (pktid response =? 0x18) then
    raise (NetDimmException "Unexpected data returned from get info packet!")
  else if negb (length_ response =? 12) then
    raise (NetDimmException "Unexpected data length returned from get info packet!")
  else
    fields <- of_struct (struct_unpack_HHHHI (data response)) ;;
    let '(unknown, version, game_memory, dimm_memory, crc) := fields in
    let version_str := version_str version in
    let firmware_version :=
      match TargetVersionEnum_of_value version_str with
      | Some v => v
      | None => TARGET_VERSION_UNKNOWN
      end in
    ret (mkNetDimmInfo crc dimm_memory firmware_version (Z.shiftl game_memory 20)).

(** [NetDimm.__set_information] *)
Definition set_information (crc length : Z) : M unit :=
  payload <- of_struct (struct_pack_III (Z.land crc 0xFFFFFFFF) length 0) ;;
  send_packet (mkNetDimmPacket 0x19 0x00 payload).

(** [__encrypt], the closure of [NetDimm.__upload_file]; [None] is the
    engine's [ValueError]. *)
Definition encrypt (des : option bytes) (chunk : bytes) : option bytes :=
  match des with
  | None => Some chunk
  | Some engine =>
      match DES_encrypt engine (rev chunk) with
      | Some c => Some (rev c)
      | None => None
      end
  end.

(** The [while addr < total] loop of [NetDimm.__upload_file]; it returns the
    final [crc] and [addr]. *)
Fixpoint upload_loop (fuel : nat) (data : bytes) (total : Z) (des : option bytes)
    (progress_callback : option Callback) (crc addr sequence : Z) : M (Z * Z) :=
  match fuel with
  | O => out_of_fuel
  | S fuel' =>
      if addr <? total then
        print_ ;;
        match progress_callback with
        | Some cb => call_progress cb addr total
        | None => ret tt
        end ;;
        let current := slice data addr (addr + 0x8000) in
        let curlen := len current in
        let last_packet := addr + curlen =? total in
        current <- of_crypto (encrypt des current) ;;
        upload sequence addr current last_packet ;;
        let crc := zlib_crc32 current crc in
        upload_loop fuel' data total des progress_callback
          crc (addr + curlen) (sequence + 1)
      else ret (crc, addr)
  end.

(** [NetDimm.__upload_file] *)
Definition upload_file (fuel : nat) (data : bytes) (key : option bytes)
    (progress_callback : option Callback) : M unit :=
  let crc := 0 in
  let addr := 0 in
  let total := len data in
  des <- match key with
         | Some k =>
             if truthy key then
               engine <- of_crypto (DES_new (rev k)) ;;
               ret (Some engine)
             else ret None
         | None => ret None
         end ;;
  let sequence := 1 in
  r <- upload_loop fuel data total des progress_callback crc addr sequence ;;
  let '(crc, addr) := r in
  let crc := Z.land (Z.lnot crc) 0xFFFFFFFF in
  print_ ;;
  set_information crc addr.

(** [NetDimm.__close] *)
Definition close : M unit := send_packet (mkNetDimmPacket 0x09 0x00 []).

(** [NetDimm.__restart] *)
Definition restart : M unit := send_packet (mkNetDimmPacket 0x0A 0x00 []).

(** [NetDimm.__set_time_limit] *)
Definition set_time_limit (minutes : Z) : M unit :=
  payload <- of_struct (struct_pack_I minutes) ;;
  send_packet (mkNetDimmPacket 0x17 0x00 payload).

(** The address table of [NetDimm.__patch_boot_id_check]. *)
Definition patch_addr (v : TargetVersionEnum) : option Z :=
  match v with
  | TARGET_VERSION_1_07 => Some 0x8000d8a0
  | TARGET_VERSION_2_03 => Some 0x8000CC6C
  | TARGET_VERSION_2_15 => Some 0x8000CC6C
  | TARGET_VERSION_3_01 => Some 0x8000dc5c
  | _ => None
  end.

(** [NetDimm.__patch_boot_id_check] *)
Definition patch_boot_id_check : M unit :=
  fun st =>
    match patch_addr (version (self st)) with
    | None => ret tt st
    | Some addr =>
        if TargetVersionEnum_eqb (version (self st)) TARGET_VERSION_3_01 then
          host_poke4 (addr + 0) 0x4800001C st
        else
          (host_poke4 (addr + 0) 0x4e800020 ;;
           host_poke4 (addr + 4) 0x38600000 ;;
           host_poke4 (addr + 8) 0x4e800020 ;;
           host_poke4 (addr + 12) 0x60000000) st
    end.

(** [NetDimm.info] *)
Definition info (fuel : nat) : M NetDimmInfo :=
  connection (get_information fuel).

(** [NetDimm.send] *)
Definition send (fuel : nat) (data : bytes) (key : option bytes)
    (progress_callback : option Callback) : M unit :=
  connection
    (match progress_callback with
     | Some cb => call_progress cb 0 (len data)
     | None => ret tt
     end ;;
     set_host_mode fuel 1 ;;
     match key with
     | Some k =>
         if truthy key then set_key_code k
         else set_key_code (repeat x00 8)
     | None => set_key_code (repeat x00 8)
     end ;;
     upload_file fuel data key
       (Some (match progress_callback with
              | Some cb => cb
              | None => fun _cur _tot => true
              end))).

(** [NetDimm.reboot] *)
Definition reboot : M unit :=
  connection
    (restart ;;
     set_time_limit 10 ;;
     fun st =>
       if TargetEnum_eqb (target (self st)) TARGET_TRIFORCE
       then patch_boot_id_check st
       else ret tt st).

(** ** Vocabulary of the statements *)

(** The packets of the protocol, as the commands build them. *)
Definition startup_packet : NetDimmPacket := mkNetDimmPacket 0x01 0x00 [].

Definition restart_packet : NetDimmPacket := mkNetDimmPacket 0x0A 0x00 [].

Definition get_info_packet : NetDimmPacket := mkNetDimmPacket 0x18 0x00 [].

Definition time_limit_packet (minutes : Z) : NetDimmPacket :=
  mkNetDimmPacket 0x17 0x00 (le_bytes 4 minutes).

Definition host_mode_packet (mask_bits set_bits : Z) : NetDimmPacket :=
  mkNetDimmPacket 0x07 0x00
    (le_bytes 4 (Z.lor (Z.shiftl (Z.land mask_bits 0xFF) 8) (Z.land set_bits 0xFF))).

Definition key_code_packet (keydata : bytes) : NetDimmPacket :=
  mkNetDimmPacket 0x7F 0x00 keydata.

Definition poke_packet (addr value : Z) : NetDimmPacket :=
  mkNetDimmPacket 0x11 0x00 (le_bytes 4 addr ++ le_bytes 4 0 ++ le_bytes 4 value).

Definition upload_packet (sequence addr : Z) (chunk : bytes) (last_chunk : bool)
    : NetDimmPacket :=
  mkNetDimmPacket 0x04 (if last_chunk then 0x81 else 0x80)
    (le_bytes 4 sequence ++ le_bytes 4 addr ++ le_bytes 2 0 ++ chunk).

Definition set_info_packet (crc length : Z) : NetDimmPacket :=
  mkNetDimmPacket 0x19 0x00 (le_bytes 4 crc ++ le_bytes 4 length ++ le_bytes 4 0).

(** The engine [NetDimm.__upload_file] builds for a key, when it builds one. *)
Definition engine (key : option bytes) : option bytes :=
  match key with
  | Some k => if truthy key then DES_new (rev k) else None
  | None => None
  end.

(** The [i]-th slice of 0x8000 bytes of the payload, and how many there are. *)
Definition chunk_at (data : bytes) (i : nat) : bytes :=
  slice data (0x8000 * Z.of_nat i) (0x8000 * Z.of_nat i + 0x8000).

Definition nchunks (total : Z) : nat := Z.to_nat ((total + 0x7FFF) / 0x8000).

(** What is transmitted for the [i]-th slice (empty where the engine raises). *)
Definition ciphertext (des : option bytes) (data : bytes) (i : nat) : bytes :=
  match encrypt des (chunk_at data i) with
  | Some c => c
  | None => []
  end.

(** The frame of the [i]-th upload of a payload cut into [n] chunks. *)
Definition upload_frame (des : option bytes) (data : bytes) (n i : nat) : bytes :=
  frame (upload_packet (Z.of_nat i + 1) (0x8000 * Z.of_nat i)
           (ciphertext des data i) (Nat.eqb (S i) n)).

(** The CRC the loop accumulates, chunk by chunk from 0. *)
Definition upload_crc (des : option bytes) (data : bytes) : Z :=
  fold_left (fun acc i => zlib_crc32 (ciphertext des data i) acc)
    (seq 0 (nchunks (len data))) 0.

(** [DES.new(key, DES.MODE_ECB).encrypt(plaintext)] on whole blocks. *)
Definition DES_ECB_encrypt (key plaintext : bytes) : bytes :=
  ecb_blocks (length plaintext) key plaintext.

End Driver.

(** The buffers handed to the [send] calls that returned, oldest first. *)
Fixpoint sent_bufs (evs : list Event) : list bytes :=
  match evs with
  | [] => []
  | EvSend _ buf _ :: later => buf :: sent_bufs later
  | _ :: later => sent_bufs later
  end.

Definition sent (st : State) : list bytes := sent_bufs (events (net st)).

(** The bytes that reached the wire: of each buffer, what the socket took. *)
Fixpoint wire (evs : list Event) : bytes :=
  match evs with
  | [] => []
  | EvSend _ buf k :: later => firstn (Z.to_nat k) buf ++ wire later
  | _ :: later => wire later
  end.

(** The bytes [recv] returned, oldest first. *)
Fixpoint received (evs : list Event) : bytes :=
  match evs with
  | [] => []
  | EvRecv _ _ (Some bs) :: later => bs ++ received later
  | _ :: later => received later
  end.

(** How often socket [id] was closed. *)
Fixpoint closes (id : nat) (evs : list Event) : nat :=
  match evs with
  | [] => O
  | EvClose id' :: later =>
      if Nat.eqb id id' then S (closes id later) else closes id later
  | _ :: later => closes id later
  end.

(** No [send] of the script raises. *)
Definition tx_ok (st : State) : Prop :=
  Forall (fun o => o <> None) (tx (net st)).

(** The callback, if any, never raises. *)
Definition callback_ok (cb : option (Z -> Z -> bool)) : Prop :=
  forall f, cb = Some f -> forall cur tot, f cur tot = true.

(** The key is absent or empty, or has 8 bytes and the payload is a whole
    number of DES blocks. *)
Definition key_fits (key : option bytes) (data : bytes) : Prop :=
  truthy key = false \/
  exists k, key = Some k /\ length k = 8%nat /\ len data mod 8 = 0.

(** From [st] to [st'] the driver object is the same and the buffers [bufs]
    were sent, each by a [send] call that returned. *)
Definition adds (st st' : State) (bufs : list bytes) : Prop :=
  self st' = self st /\
  sent st' = sent st ++ bufs /\
  rx (net st') = rx (net st) /\
  tx (net st') = skipn (length bufs) (tx (net st)).

(** From [st] to [st'] the driver object is the same, nothing was sent and
    the bytes [bs] were received. *)
Definition takes (st st' : State) (bs : bytes) : Prop :=
  self st' = self st /\
  sent st' = sent st /\
  tx (net st') = tx (net st) /\
  received (events (net st')) = received (events (net st)) ++ bs.

(** The state once [__connection] has created socket [next_id] and tried to
    connect it, with success or not. *)
Definition opened (st : State) (ok : bool) : State :=
  let n := net st in
  let id := next_id n in
  mkState (mkNetDimm (ip (self st)) (Some id) (quiet (self st))
             (target (self st)) (version (self st)))
          (mkNetwork (connect_ok n) (rx n) (tx n) (S id)
             ((events n ++ [EvSocket id]) ++ [EvConnect id ok])).

(** The state once the [finally] clause of [__connection] has closed socket
    [id] and cleared [self.sock]. *)
Definition released (st : State) (id : nat) : State :=
  with_sock (with_net st (log_event (net st) (EvClose id))) None.

(** A driver that can send: it holds a socket and no [send] will raise. *)
Definition ready (st : State) : Prop := sock (self st) <> None /\ tx_ok st.

(** The four words written over the boot-ID check at [base]. *)
Definition four_pokes (base : Z) : list NetDimmPacket :=
  [poke_packet (base + 0) 0x4e800020;
   poke_packet (base + 4) 0x38600000;
   poke_packet (base + 8) 0x4e800020;
   poke_packet (base + 12) 0x60000000].

(** The pokes of [__patch_boot_id_check] for a firmware version, as a list. *)
Definition patch_pokes (v : TargetVersionEnum) : list NetDimmPacket :=
  match patch_addr v with
  | None => []
  | Some addr =>
      if TargetVersionEnum_eqb v TARGET_VERSION_3_01
      then [poke_packet (addr + 0) 0x4800001C]
      else four_pokes addr
  end.

(** The key code [send] transmits: the key, or eight zero bytes without one. *)
Definition key_code (key : option bytes) : bytes :=
  match key with
  | Some k => if truthy key then k else repeat x00 8
  | None => repeat x00 8
  end.

(** The bytes still to arrive before the peer closes, and a script without
    errors. *)
Fixpoint rx_total (script : list RxEvent) : nat :=
  match script with
  | [] => O
  | RxData bs :: later => (length bs + rx_total later)%nat
  | RxError :: later => rx_total later
  end.

Definition rx_clean (script : list RxEvent) : Prop :=
  Forall (fun e => e <> RxError) script.

(** A computation that, when it returns or raises, has left [self] as it was
    and has closed no socket. *)
Definition keeps_socket {A : Type} (m : M A) : Prop :=
  forall st,
    match m st with
    | Ok _ st' | Raise _ st' =>
        self st' = self st /\
        forall id, closes id (events (net st')) = closes id (events (net st))
    | OutOfFuel => True
    end.

(** The bytes a script still delivers, in order, whatever the segments. *)
Fixpoint rx_stream (script : list RxEvent) : bytes :=
  match script with
  | [] => []
  | RxData bs :: later => bs ++ rx_stream later
  | RxError :: later => rx_stream later
  end.

(** The firmware tag [__get_information] derives from the version word. *)
Definition firmware_of_version (version : Z) : TargetVersionEnum :=
  match TargetVersionEnum_of_value (version_str version) with
  | Some v => v
  | None => TARGET_VERSION_UNKNOWN
  end.

(** The arguments of the progress calls, oldest first. *)
Fixpoint progress_calls (evs : list Event) : list (Z * Z) :=
  match evs with
  | [] => []
  | EvProgress cur tot :: later => (cur, tot) :: progress_calls later
  | _ :: later => progress_calls later
  end.

(** The [recv] calls made, oldest first: the size each asked for. *)
Fixpoint recv_calls (evs : list Event) : list Z :=
  match evs with
  | [] => []
  | EvRecv _ bufsize _ :: later => bufsize :: recv_calls later
  | _ :: later => recv_calls later
  end.

(** A computation that, when it returns or raises, has added nothing to the
    view [view] of the log. *)
Definition silent {X A : Type} (view : list Event -> list X) (m : M A) : Prop :=
  forall st,
    match m st with
    | Ok _ st' | Raise _ st' => view (events (net st')) = view (events (net st))
    | OutOfFuel => True
    end.

(** The guard of [__read] and [__send_packet]. *)
Definition not_connected : Exn := NetDimmException "Not connected to NetDimm".

(** A computation that, started with a socket, keeps [self] as it is and
    never raises [not_connected]. *)
Definition stays_connected {A : Type} (m : M A) : Prop :=
  forall st,
    sock (self st) <> None ->
    match m st with
    | Ok _ st' => self st' = self st
    | Raise e st' => self st' = self st /\ e <> not_connected
    | OutOfFuel => True
    end.

(** The progress calls of an upload of [total] bytes in [n] chunks. *)
Definition chunk_progress (total : Z) (n : nat) : list (Z * Z) :=
  map (fun i => (0x8000 * Z.of_nat i, total)) (seq 0 n).

(** The packets of a reboot once the session has started, for a target and a
    firmware version. *)
Definition reboot_packets (t : TargetEnum) (v : TargetVersionEnum)
    : list NetDimmPacket :=
  [restart_packet; time_limit_packet 10]
    ++ (if TargetEnum_eqb t TARGET_TRIFORCE then patch_pokes v else []).

(** Packets sent one after the other. *)
Fixpoint send_packets (ps : list NetDimmPacket) : M unit :=
  match ps with
  | [] => ret tt
  | p :: later => send_packet p ;; send_packets later
  end.

(** The packet id a buffer carries: the fourth byte of its header. *)
Definition frame_id (buf : bytes) : Z := byte_val (nth 3 buf x00).

(** An event that is no attempt, taken or refused by the socket, to send a
    set-info packet (id [0x19]). *)
Definition not_set_info (e : Event) : Prop :=
  match e with
  | EvSend _ buf _ | EvSendFail _ buf => frame_id buf <> 0x19
  | _ => True
  end.

(** A computation that, when it returns or raises, has added to the log only
    events that satisfy [P]. *)
Definition emits {A : Type} (P : Event -> Prop) (m : M A) : Prop :=
  forall st,
    match m st with
    | Ok _ st' | Raise _ st' =>
        exists evs,
          events (net st') = events (net st) ++ evs /\ Forall P evs
    | OutOfFuel => True
    end.

(** ** Sample inputs *)

(** A stand-in for the DES block function: the block xored with the key. *)
Definition xor_block (key block : bytes) : bytes :=
  map (fun p => byte_of (Z.lxor (byte_val (fst p)) (byte_val (snd p))))
      (combine block key).

Definition sample_state (target : TargetEnum) (version : TargetVersionEnum)
    (connect : bool) (rx : list RxEvent) (tx : list (option Z)) : State :=
  mkState (NetDimm_init "192.168.1.2" (Some target) (Some version) true)
          (mkNetwork connect rx tx 0 []).

(** A reply [07 flags len] with a four-byte mode word. *)
Definition host_mode_reply : bytes :=
  [x04; x00; x00; x07; x01; x00; x00; x00].

(** The get-info reply [34 12][0C 03][00 01][00 02][DE AD BE EF]. *)
Definition info_payload : bytes :=
  [x34; x12; x0c; x03; x00; x01; x00; x02; xde; xad; xbe; xef].

(** A driver that holds the connected socket 0, on a network that takes every
    buffer. *)
Definition connected_state : State :=
  mkState (mkNetDimm "192.168.1.2" (Some O) true TARGET_NAOMI TARGET_VERSION_UNKNOWN)
          (mkNetwork true [] [] 1 [EvSocket 0; EvConnect 0 true]).

Definition key_01_08 : bytes := [x01; x02; x03; x04; x05; x06; x07; x08].

Definition block_00_07 : bytes := [x00; x01; x02; x03; x04; x05; x06; x07].

(** * Facts *)

(** ** The models of zlib, struct and the version format, on known values *)

Example crc32_check_value :
  zlib_crc32 [x31; x32; x33; x34; x35; x36; x37; x38; x39] 0 = 0xCBF43926.
Proof. vm_compute. reflexivity. Qed.

Example version_str_3_12 : version_str 0x030C = "3.12"%string.
Proof. vm_compute. reflexivity. Qed.

Example version_str_1_07 : version_str 0x0107 = "1.07"%string.
Proof. vm_compute. reflexivity. Qed.

Example pack_I_example : struct_pack_I 0x18000000 = Some [x00; x00; x00; x18].
Proof. vm_compute. reflexivity. Qed.


(** ** The monad *)

Lemma bind_Ok {A B : Type} (m : M A) (f : A -> M B) st b st' :
  bind m f st = Ok b st' ->
  exists a st1, m st = Ok a st1 /\ f a st1 = Ok b st'.
Proof.
  unfold bind. destruct (m st) as [a st1 | e st1 | ]; try discriminate.
  intros H. exists a, st1. split; [reflexivity | exact H].
Qed.

Lemma bind_Ok_intro {A B : Type} (m : M A) (f : A -> M B) st a st1 :
  m st = Ok a st1 -> bind m f st = f a st1.
Proof. unfold bind. intros ->. reflexivity. Qed.

Lemma of_struct_Ok {A : Type} (o : option A) st a st' :
  of_struct o st = Ok a st' -> o = Some a /\ st' = st.
Proof.
  destruct o; simpl; unfold ret, raise; intros H; inversion H; auto.
Qed.

Lemma of_crypto_Ok {A : Type} (o : option A) st a st' :
  of_crypto o st = Ok a st' -> o = Some a /\ st' = st.
Proof.
  destruct o; simpl; unfold ret, raise; intros H; inversion H; auto.
Qed.

Lemma ret_Ok {A : Type} (a b : A) st st' : ret a st = Ok b st' -> b = a /\ st' = st.
Proof. unfold ret. intros H. inversion H. auto. Qed.

(** Splits a hypothesis [m1 ;; m2 ;; ... = Ok _ _] into its steps. *)
Ltac split_ok H :=
  let a := fresh "a" in
  let s := fresh "st" in
  let H1 := fresh "Hstep" in
  apply bind_Ok in H; destruct H as (a & s & H1 & H).

Tactic Notation "step_ok" hyp(H) "as" ident(a) ident(s) ident(H1) :=
  apply bind_Ok in H; destruct H as (a & s & H1 & H).

(** ** Bit-level facts *)

Lemma lxor_range n a b :
  0 <= n -> 0 <= a < 2 ^ n -> 0 <= b < 2 ^ n -> 0 <= Z.lxor a b < 2 ^ n.
Proof.
  intros Hn Ha Hb.
  assert (Hnn : 0 <= Z.lxor a b) by (apply Z.lxor_nonneg; lia).
  split; [exact Hnn | ].
  destruct (Z.eq_dec (Z.lxor a b) 0) as [E | E].
  - rewrite E. apply Z.pow_pos_nonneg; lia.
  - apply Z.log2_lt_pow2; [lia | ].
    eapply Z.le_lt_trans; [apply Z.log2_lxor; lia | ].
    apply Z.max_lub_lt.
    + destruct (Z.eq_dec a 0) as [-> | Na].
      * simpl. destruct (Z.eq_dec n 0) as [-> | ]; [ | lia].
        assert (b = 0) by (simpl in Hb; lia). subst b.
        rewrite Z.lxor_0_l in E. congruence.
      * apply Z.log2_lt_pow2; lia.
    + destruct (Z.eq_dec b 0) as [-> | Nb].
      * simpl. destruct (Z.eq_dec n 0) as [-> | ]; [ | lia].
        assert (a = 0) by (simpl in Ha; lia). subst a.
        rewrite Z.lxor_0_l in E. congruence.
      * apply Z.log2_lt_pow2; lia.
Qed.

Lemma byte_val_range b : 0 <= byte_val b < 256.
Proof.
  unfold byte_val. pose proof (Byte.to_N_bounded b). lia.
Qed.

Lemma byte_val_of z : byte_val (byte_of z) = z mod 256.
Proof.
  unfold byte_of, byte_val.
  change 0xFF with (Z.ones 8). rewrite Z.land_ones by lia.
  change (2 ^ 8) with 256.
  assert (R : 0 <= z mod 256 < 256) by (apply Z.mod_pos_bound; lia).
  destruct (Byte.of_N (Z.to_N (z mod 256))) as [b | ] eqn:E.
  - apply Byte.to_of_N in E. rewrite E. lia.
  - apply Byte.of_N_None_iff in E. lia.
Qed.

Lemma le_bytes_length n v : length (le_bytes n v) = n.
Proof. unfold le_bytes. rewrite length_map, length_seq. reflexivity. Qed.

Lemma le_bytes_S n v :
  le_bytes (S n) v = byte_of v :: le_bytes n (Z.shiftr v 8).
Proof.
  unfold le_bytes. cbn [seq map]. rewrite <- seq_shift, map_map.
  f_equal.
  apply map_ext. intros i.
  rewrite Z.shiftr_shiftr by lia. f_equal. f_equal. lia.
Qed.

Lemma le_value_le_bytes n v : le_value (le_bytes n v) = v mod 256 ^ Z.of_nat n.
Proof.
  revert v. induction n as [ | n IH]; intros v.
  - cbn. rewrite Z.mod_1_r. reflexivity.
  - rewrite le_bytes_S. cbn [le_value fold_right].
    fold (le_value (le_bytes n (Z.shiftr v 8))). rewrite IH, byte_val_of.
    rewrite Z.shiftr_div_pow2 by lia. change (2 ^ 8) with 256.
    rewrite Nat2Z.inj_succ, Z.pow_succ_r by lia.
    rewrite Z.rem_mul_r; [reflexivity | lia | ].
    apply Z.pow_pos_nonneg; lia.
Qed.

Lemma le_value_le_bytes_4 v : 0 <= v < 2 ^ 32 -> le_value (le_bytes 4 v) = v.
Proof.
  intros Hv. rewrite le_value_le_bytes.
  change (256 ^ Z.of_nat 4) with (2 ^ 32). apply Z.mod_small. exact Hv.
Qed.

(** ** The CRC *)

Lemma crc_shift_range c : 0 <= c < 2 ^ 32 -> 0 <= crc_shift c < 2 ^ 32.
Proof.
  intros Hc. unfold crc_shift.
  assert (Hs : 0 <= Z.shiftr c 1 < 2 ^ 32).
  { rewrite Z.shiftr_div_pow2 by lia. change (2 ^ 1) with 2.
    split; [apply Z.div_pos; lia | ].
    apply Z.div_lt_upper_bound; lia. }
  destruct (Z.testbit c 0); [ | exact Hs].
  apply lxor_range; [lia | exact Hs | ].
  change (2 ^ 32) with 4294967296. lia.
Qed.

Lemma crc_byte_range c b : 0 <= c < 2 ^ 32 -> 0 <= crc_byte c b < 2 ^ 32.
Proof.
  intros Hc. unfold crc_byte.
  assert (H0 : 0 <= Z.lxor c (byte_val b) < 2 ^ 32).
  { apply lxor_range; [lia | exact Hc | ].
    pose proof (byte_val_range b). change (2 ^ 32) with 4294967296. lia. }
  generalize dependent (Z.lxor c (byte_val b)). intros x Hx.
  cbn [Nat.iter]. repeat apply crc_shift_range. exact Hx.
Qed.

Lemma fold_crc_byte_range data c :
  0 <= c < 2 ^ 32 -> 0 <= fold_left crc_byte data c < 2 ^ 32.
Proof.
  revert c. induction data as [ | b data IH]; intros c Hc; cbn [fold_left].
  - exact Hc.
  - apply IH, crc_byte_range, Hc.
Qed.

Lemma mask32_range v : 0 <= Z.land v 0xFFFFFFFF < 2 ^ 32.
Proof.
  change 0xFFFFFFFF with (Z.ones 32). rewrite Z.land_ones by lia.
  apply Z.mod_pos_bound. reflexivity.
Qed.

Lemma mask32_small v : 0 <= v < 2 ^ 32 -> Z.land v 0xFFFFFFFF = v.
Proof.
  intros Hv. change 0xFFFFFFFF with (Z.ones 32). rewrite Z.land_ones by lia.
  apply Z.mod_small, Hv.
Qed.

Lemma flip32_range v : 0 <= v < 2 ^ 32 -> 0 <= Z.lxor v 0xFFFFFFFF < 2 ^ 32.
Proof.
  intros Hv. apply lxor_range; [lia | exact Hv | ].
  change (2 ^ 32) with 4294967296. lia.
Qed.

Lemma zlib_crc32_range data v : 0 <= zlib_crc32 data v < 2 ^ 32.
Proof.
  unfold zlib_crc32.
  apply flip32_range, fold_crc_byte_range, flip32_range, mask32_range.
Qed.

(** Feeding the CRC of a first part as the starting value of a second part
    gives the CRC of the two parts together. *)
Lemma zlib_crc32_app a b v :
  zlib_crc32 (a ++ b) v = zlib_crc32 b (zlib_crc32 a v).
Proof.
  unfold zlib_crc32 at 1 2. rewrite fold_left_app.
  rewrite (mask32_small (zlib_crc32 a v)) by apply zlib_crc32_range.
  unfold zlib_crc32. rewrite Z.lxor_assoc, Z.lxor_nilpotent, Z.lxor_0_r.
  reflexivity.
Qed.

Lemma zlib_crc32_nil v : 0 <= v < 2 ^ 32 -> zlib_crc32 [] v = v.
Proof.
  intros Hv. unfold zlib_crc32. cbn [fold_left].
  rewrite mask32_small by exact Hv.
  rewrite Z.lxor_assoc, Z.lxor_nilpotent, Z.lxor_0_r. reflexivity.
Qed.

(** Chunk by chunk or in one go: the same CRC. *)
Lemma crc_chunkwise (chunks : list bytes) v :
  0 <= v < 2 ^ 32 ->
  fold_left (fun acc chunk => zlib_crc32 chunk acc) chunks v
  = zlib_crc32 (concat chunks) v.
Proof.
  revert v. induction chunks as [ | ch chunks IH]; intros v Hv; cbn [fold_left concat].
  - symmetry. apply zlib_crc32_nil, Hv.
  - rewrite zlib_crc32_app. apply IH, zlib_crc32_range.
Qed.

(** ** The event log *)

Lemma sent_bufs_app a b : sent_bufs (a ++ b) = sent_bufs a ++ sent_bufs b.
Proof.
  induction a as [ | e a IH]; [reflexivity | ].
  destruct e; cbn [app sent_bufs]; rewrite IH; reflexivity.
Qed.

Lemma received_app a b : received (a ++ b) = received a ++ received b.
Proof.
  induction a as [ | e a IH]; [reflexivity | ].
  destruct e as [ | | | | ? ? [bs | ] | | ]; cbn [app received]; rewrite IH;
    try reflexivity.
  apply app_assoc.
Qed.

Lemma wire_app a b : wire (a ++ b) = wire a ++ wire b.
Proof.
  induction a as [ | e a IH]; [reflexivity | ].
  destruct e; cbn [app wire]; rewrite IH; try reflexivity.
  apply app_assoc.
Qed.

Lemma closes_app id a b : closes id (a ++ b) = (closes id a + closes id b)%nat.
Proof.
  induction a as [ | e a IH]; [reflexivity | ].
  destruct e; cbn [app closes]; rewrite IH; try reflexivity.
  destruct (Nat.eqb id id0); reflexivity.
Qed.

Lemma adds_refl st : adds st st [].
Proof.
  unfold adds. rewrite app_nil_r. auto.
Qed.

Lemma adds_trans st st1 st2 a b :
  adds st st1 a -> adds st1 st2 b -> adds st st2 (a ++ b).
Proof.
  intros (S1 & B1 & R1 & T1) (S2 & B2 & R2 & T2). unfold adds.
  rewrite S2, S1, B2, B1, R2, R1, T2, T1.
  rewrite app_assoc, skipn_skipn, length_app, Nat.add_comm. auto.
Qed.

Lemma adds_tx_ok st st' bufs : adds st st' bufs -> tx_ok st -> tx_ok st'.
Proof.
  intros (_ & _ & _ & T) H. unfold tx_ok in *. rewrite T.
  rewrite <- (firstn_skipn (length bufs) (tx (net st))) in H.
  apply Forall_app in H. apply H.
Qed.

Lemma takes_refl st : takes st st [].
Proof.
  unfold takes. rewrite app_nil_r. auto.
Qed.

Lemma takes_trans st st1 st2 a b :
  takes st st1 a -> takes st1 st2 b -> takes st st2 (a ++ b).
Proof.
  intros (S1 & B1 & T1 & R1) (S2 & B2 & T2 & R2). unfold takes.
  rewrite S2, S1, B2, B1, T2, T1, R2, R1, app_assoc. auto.
Qed.

(** ** What a call that returns has done *)

Lemma struct_pack_I_Some v b :
  struct_pack_I v = Some b -> b = le_bytes 4 v /\ 0 <= v < 2 ^ 32.
Proof.
  unfold struct_pack_I.
  destruct (0 <=? v) eqn:E1; destruct (v <? 2 ^ 32) eqn:E2; cbn [andb];
    try discriminate.
  intros H. inversion H. split; [reflexivity | lia].
Qed.

Lemma struct_pack_I_small v :
  0 <= v < 2 ^ 32 -> struct_pack_I v = Some (le_bytes 4 v).
Proof.
  intros Hv. unfold struct_pack_I.
  destruct (0 <=? v) eqn:E1; destruct (v <? 2 ^ 32) eqn:E2; cbn [andb];
    try reflexivity; lia.
Qed.

Lemma struct_pack_H_Some v b :
  struct_pack_H v = Some b -> b = le_bytes 2 v /\ 0 <= v < 2 ^ 16.
Proof.
  unfold struct_pack_H.
  destruct (0 <=? v) eqn:E1; destruct (v <? 2 ^ 16) eqn:E2; cbn [andb];
    try discriminate.
  intros H. inversion H. split; [reflexivity | lia].
Qed.

Lemma struct_pack_III_Some a b c bs :
  struct_pack_III a b c = Some bs ->
  bs = le_bytes 4 a ++ le_bytes 4 b ++ le_bytes 4 c /\
  0 <= a < 2 ^ 32 /\ 0 <= b < 2 ^ 32 /\ 0 <= c < 2 ^ 32.
Proof.
  unfold struct_pack_III.
  destruct (struct_pack_I a) as [x | ] eqn:Ea; [ | discriminate].
  destruct (struct_pack_I b) as [y | ] eqn:Eb; [ | discriminate].
  destruct (struct_pack_I c) as [z | ] eqn:Ec; [ | discriminate].
  apply struct_pack_I_Some in Ea, Eb, Ec.
  destruct Ea as [-> ?], Eb as [-> ?], Ec as [-> ?].
  intros E. inversion E. auto.
Qed.

Lemma struct_pack_III_small a b c :
  0 <= a < 2 ^ 32 -> 0 <= b < 2 ^ 32 -> 0 <= c < 2 ^ 32 ->
  struct_pack_III a b c = Some (le_bytes 4 a ++ le_bytes 4 b ++ le_bytes 4 c).
Proof.
  intros Ha Hb Hc. unfold struct_pack_III.
  rewrite !struct_pack_I_small by assumption. reflexivity.
Qed.

Lemma struct_pack_IIH_Some a b c bs :
  struct_pack_IIH a b c = Some bs ->
  bs = le_bytes 4 a ++ le_bytes 4 b ++ le_bytes 2 c /\
  0 <= a < 2 ^ 32 /\ 0 <= b < 2 ^ 32.
Proof.
  unfold struct_pack_IIH.
  destruct (struct_pack_I a) as [x | ] eqn:Ea; [ | discriminate].
  destruct (struct_pack_I b) as [y | ] eqn:Eb; [ | discriminate].
  destruct (struct_pack_H c) as [z | ] eqn:Ec; [ | discriminate].
  apply struct_pack_I_Some in Ea, Eb. apply struct_pack_H_Some in Ec.
  destruct Ea as [-> ?], Eb as [-> ?], Ec as [-> ?].
  intros E. inversion E. auto.
Qed.

Lemma header_word_range p : 0 <= header_word p < 2 ^ 32.
Proof.
  unfold header_word.
  assert (Ha : 0 <= Z.land (pktid p) 0xFF < 2 ^ 8).
  { change 0xFF with (Z.ones 8). rewrite Z.land_ones by lia.
    apply Z.mod_pos_bound. reflexivity. }
  assert (Hb : 0 <= Z.land (flags p) 0xFF < 2 ^ 8).
  { change 0xFF with (Z.ones 8). rewrite Z.land_ones by lia.
    apply Z.mod_pos_bound. reflexivity. }
  assert (Hc : 0 <= Z.land (length_ p) 0xFFFF < 2 ^ 16).
  { change 0xFFFF with (Z.ones 16). rewrite Z.land_ones by lia.
    apply Z.mod_pos_bound. reflexivity. }
  rewrite !Z.shiftl_mul_pow2 by lia.
  assert (H1 : 0 <= Z.land (pktid p) 0xFF * 2 ^ 24 < 2 ^ 32).
  { change (2 ^ 32) with (2 ^ 8 * 2 ^ 24). split; [lia | ].
    apply Z.mul_lt_mono_pos_r; lia. }
  assert (H2 : 0 <= Z.land (flags p) 0xFF * 2 ^ 16 < 2 ^ 32).
  { change (2 ^ 32) with (2 ^ 16 * 2 ^ 16). split; [lia | ].
    apply Z.mul_lt_mono_pos_r; lia. }
  split.
  - apply Z.lor_nonneg. split; [apply Z.lor_nonneg | ]; lia.
  - assert (L : forall a b, 0 <= a < 2 ^ 32 -> 0 <= b < 2 ^ 32 ->
                  0 <= Z.lor a b < 2 ^ 32).
    { intros a b A B. split; [apply Z.lor_nonneg; lia | ].
      destruct (Z.eq_dec (Z.lor a b) 0) as [E | E]; [rewrite E; reflexivity | ].
      apply Z.log2_lt_pow2; [pose proof (proj2 (Z.lor_nonneg a b)); lia | ].
      rewrite Z.log2_lor by lia.
      apply Z.max_lub_lt.
      - destruct (Z.eq_dec a 0) as [-> | ]; [reflexivity | ].
        apply Z.log2_lt_pow2; lia.
      - destruct (Z.eq_dec b 0) as [-> | ]; [reflexivity | ].
        apply Z.log2_lt_pow2; lia. }
    apply L; [apply L; assumption | ].
    change (2 ^ 32) with 4294967296. change (2 ^ 16) with 65536 in Hc. lia.
Qed.

Lemma socket_send_Ok id buf st k st' :
  socket_send id buf st = Ok k st' -> adds st st' [buf].
Proof.
  unfold socket_send, adds, sent.
  destruct (tx (net st)) as [ | [k' | ] later] eqn:E; intros H; inversion H;
    subst; cbn; rewrite ?sent_bufs_app, ?E; cbn; auto.
Qed.

Lemma get_sock_Ok st s st' :
  get_sock st = Ok s st' -> s = sock (self st) /\ st' = st.
Proof. unfold get_sock. intros H. inversion H. auto. Qed.

Lemma send_packet_Ok p st u st' :
  send_packet p st = Ok u st' -> adds st st' [frame p].
Proof.
  unfold send_packet. intros H. split_ok H.
  apply get_sock_Ok in Hstep. destruct Hstep as [-> ->].
  destruct (sock (self st)) as [id | ]; [ | discriminate].
  split_ok H. apply of_struct_Ok in Hstep. destruct Hstep as [E ->].
  apply struct_pack_I_Some in E. destruct E as [-> _].
  split_ok H. apply socket_send_Ok in Hstep.
  apply ret_Ok in H. destruct H as [_ ->]. exact Hstep.
Qed.

(** With a socket at hand and a script that lets the next [send] through, a
    packet is sent. *)
Lemma send_packet_total p st :
  sock (self st) <> None -> tx_ok st ->
  exists st', send_packet p st = Ok tt st'.
Proof.
  intros Hs Ht. unfold send_packet, bind, get_sock.
  destruct (sock (self st)) as [id | ]; [ | congruence].
  rewrite struct_pack_I_small by apply header_word_range.
  cbn [of_struct ret]. unfold socket_send.
  destruct (tx (net st)) as [ | [k | ] later] eqn:E; eauto.
  unfold tx_ok in Ht. rewrite E in Ht. inversion Ht. congruence.
Qed.

(** After a step that sent [bufs], the driver is as ready to send as before. *)
Lemma adds_ready st st' bufs :
  adds st st' bufs -> sock (self st) <> None -> tx_ok st ->
  sock (self st') <> None /\ tx_ok st'.
Proof.
  intros H Hs Ht. split.
  - destruct H as (-> & _). exact Hs.
  - eapply adds_tx_ok; eassumption.
Qed.

Lemma call_progress_Ok cb cur tot st u st' :
  call_progress cb cur tot st = Ok u st' -> adds st st' [].
Proof.
  unfold call_progress, adds, sent. destruct (cb cur tot); intros H; inversion H.
  cbn. rewrite sent_bufs_app, app_nil_r. cbn. rewrite app_nil_r. auto.
Qed.

Lemma upload_Ok sequence addr chunk last st u st' :
  upload sequence addr chunk last st = Ok u st' ->
  adds st st' [frame (upload_packet sequence addr chunk last)] /\
  0 <= sequence < 2 ^ 32 /\ 0 <= addr < 2 ^ 32.
Proof.
  unfold upload. intros H. split_ok H.
  apply of_struct_Ok in Hstep. destruct Hstep as [E ->].
  apply struct_pack_IIH_Some in E. destruct E as (-> & Hs & Ha).
  apply send_packet_Ok in H. unfold upload_packet.
  rewrite <- !app_assoc in H. auto.
Qed.

Lemma upload_total sequence addr chunk last st :
  0 <= sequence < 2 ^ 32 -> 0 <= addr < 2 ^ 32 ->
  sock (self st) <> None -> tx_ok st ->
  exists st', upload sequence addr chunk last st = Ok tt st'.
Proof.
  intros Hq Ha Hs Ht. unfold upload, struct_pack_IIH.
  rewrite !struct_pack_I_small by assumption.
  change (struct_pack_H 0) with (Some (le_bytes 2 0)).
  cbn [of_struct]. unfold bind at 1. cbn [ret].
  apply send_packet_total; assumption.
Qed.

Lemma set_information_Ok crc length st u st' :
  set_information crc length st = Ok u st' ->
  adds st st' [frame (set_info_packet (Z.land crc 0xFFFFFFFF) length)] /\
  0 <= length < 2 ^ 32.
Proof.
  unfold set_information. intros H. split_ok H.
  apply of_struct_Ok in Hstep. destruct Hstep as [E ->].
  apply struct_pack_III_Some in E. destruct E as (-> & _ & Hl & _).
  apply send_packet_Ok in H. auto.
Qed.

Lemma set_information_total crc length st :
  0 <= length < 2 ^ 32 -> sock (self st) <> None -> tx_ok st ->
  exists st', set_information crc length st = Ok tt st'.
Proof.
  intros Hl Hs Ht. unfold set_information.
  rewrite struct_pack_III_small;
    [ | apply mask32_range | exact Hl | change (2 ^ 32) with 4294967296; lia].
  cbn [of_struct]. unfold bind at 1. cbn [ret].
  apply send_packet_total; assumption.
Qed.

Lemma host_poke4_Ok addr value st u st' :
  host_poke4 addr value st = Ok u st' ->
  adds st st' [frame (poke_packet addr value)].
Proof.
  unfold host_poke4. intros H. split_ok H.
  apply of_struct_Ok in Hstep. destruct Hstep as [E ->].
  apply struct_pack_III_Some in E. destruct E as (-> & _).
  apply send_packet_Ok in H. exact H.
Qed.

Lemma host_poke4_total addr value st :
  0 <= addr < 2 ^ 32 -> 0 <= value < 2 ^ 32 ->
  sock (self st) <> None -> tx_ok st ->
  exists st', host_poke4 addr value st = Ok tt st'.
Proof.
  intros Ha Hv Hs Ht. unfold host_poke4.
  rewrite struct_pack_III_small;
    [ | exact Ha | change (2 ^ 32) with 4294967296; lia | exact Hv].
  cbn [of_struct]. unfold bind at 1. cbn [ret].
  apply send_packet_total; assumption.
Qed.

Lemma set_time_limit_Ok minutes st u st' :
  set_time_limit minutes st = Ok u st' ->
  adds st st' [frame (time_limit_packet minutes)].
Proof.
  unfold set_time_limit. intros H. split_ok H.
  apply of_struct_Ok in Hstep. destruct Hstep as [E ->].
  apply struct_pack_I_Some in E. destruct E as (-> & _).
  apply send_packet_Ok in H. exact H.
Qed.

Lemma set_key_code_Ok keydata st u st' :
  set_key_code keydata st = Ok u st' ->
  adds st st' [frame (key_code_packet keydata)] /\ len keydata = 8.
Proof.
  unfold set_key_code. destruct (len keydata =? 8) eqn:E; cbn [negb].
  - intros H. apply send_packet_Ok in H. split; [exact H | lia].
  - discriminate.
Qed.

(** ** Slices and chunks *)

Lemma len_nonneg {A : Type} (l : list A) : 0 <= len l.
Proof. unfold len. lia. Qed.

Lemma len_slice {A : Type} (l : list A) a b :
  0 <= a -> a <= b -> len (slice l a b) = Z.min (b - a) (Z.max 0 (len l - a)).
Proof.
  intros Ha Hb. unfold len, slice. rewrite length_firstn, length_skipn. lia.
Qed.

Lemma chunk_len data i :
  len (chunk_at data i)
  = Z.min 0x8000 (Z.max 0 (len data - 0x8000 * Z.of_nat i)).
Proof.
  unfold chunk_at. rewrite len_slice by lia. f_equal. lia.
Qed.

Lemma nchunks_lt total i :
  0 <= total -> (i < nchunks total)%nat <-> 0x8000 * Z.of_nat i < total.
Proof.
  intros Ht. unfold nchunks.
  assert (Hq : 0 <= (total + 32767) / 32768) by (apply Z.div_pos; lia).
  rewrite <- (Nat2Z.id i) at 1. rewrite <- Z2Nat.inj_lt by lia.
  pose proof (Z.div_mod (total + 32767) 32768 ltac:(lia)) as E.
  pose proof (Z.mod_pos_bound (total + 32767) 32768 ltac:(lia)) as B.
  lia.
Qed.

(** ** The upload loop *)

Section Upload.

Variable des_block : bytes -> bytes -> bytes.

(** A loop that has returned, entered before chunk [k], has encrypted and sent
    the chunks from [k] on, in order, and has folded them into the CRC. *)
Lemma upload_loop_Ok des cb data fuel :
  forall (k : nat) crc addr sequence st r st',
    addr = Z.min (0x8000 * Z.of_nat k) (len data) ->
    sequence = Z.of_nat k + 1 ->
    upload_loop des_block fuel data (len data) des cb crc addr sequence st
      = Ok r st' ->
    let n := nchunks (len data) in
    adds st st' (map (upload_frame des_block des data n) (seq k (n - k))) /\
    (forall i, (k <= i < n)%nat ->
       encrypt des_block des (chunk_at data i) <> None) /\
    r = (fold_left (fun acc i => zlib_crc32 (ciphertext des_block des data i) acc)
           (seq k (n - k)) crc,
         len data).
Proof.
  induction fuel as [ | fuel IH]; intros k crc addr sequence st r st' Ha Hq H n.
  - discriminate.
  - cbn [upload_loop] in H.
    pose proof (len_nonneg data) as Hlen.
    pose proof (nchunks_lt (len data) k Hlen) as Hk. fold n in Hk.
    destruct (addr <? len data) eqn:E.
    + assert (Hlt : 0x8000 * Z.of_nat k < len data) by lia.
      assert (Haddr : addr = 0x8000 * Z.of_nat k) by lia.
      assert (Hkn : (k < n)%nat) by (apply Hk; exact Hlt).
      step_ok H as u0 s0 H0. apply ret_Ok in H0. destruct H0 as [_ ->].
      step_ok H as u1 s1 H1.
      assert (Hcb : adds st s1 []).
      { destruct cb as [f | ].
        - eapply call_progress_Ok; eassumption.
        - apply ret_Ok in H1. destruct H1 as [_ ->]. apply adds_refl. }
      clear H1.
      step_ok H as ct s2 H2. apply of_crypto_Ok in H2. destruct H2 as [Hc ->].
      step_ok H as u3 s3 H3. apply upload_Ok in H3. destruct H3 as (Hup & _ & _).
      assert (Hchunk : slice data addr (addr + 0x8000) = chunk_at data k).
      { unfold chunk_at. rewrite Haddr. reflexivity. }
      rewrite Hchunk in *.
      assert (Hct : ciphertext des_block des data k = ct).
      { unfold ciphertext. rewrite Hc. reflexivity. }
      assert (Hnext : addr + len (chunk_at data k)
                      = Z.min (0x8000 * Z.of_nat (S k)) (len data)).
      { rewrite chunk_len. lia. }
      assert (Hlast : (addr + len (chunk_at data k) =? len data) = Nat.eqb (S k) n).
      { pose proof (nchunks_lt (len data) (S k) Hlen) as Hk'. fold n in Hk'.
        rewrite Hnext.
        destruct (Nat.eqb (S k) n) eqn:En.
        - apply Nat.eqb_eq in En. apply Z.eqb_eq. lia.
        - apply Nat.eqb_neq in En. apply Z.eqb_neq. lia. }
      rewrite Hlast in Hup.
      apply (IH (S k)) in H; [ | exact Hnext | lia].
      fold n in H. destruct H as (Hrest & Henc & ->).
      replace (n - k)%nat with (S (n - S k)) by lia.
      cbn [seq map fold_left].
      split; [ | split].
      * change (upload_frame des_block des data n k :: map (upload_frame des_block des data n) (seq (S k) (n - S k)))
          with (([] ++ [upload_frame des_block des data n k])
                  ++ map (upload_frame des_block des data n) (seq (S k) (n - S k))).
        eapply adds_trans; [ | exact Hrest].
        eapply adds_trans; [exact Hcb | ].
        unfold upload_frame. rewrite Hct. rewrite Haddr, Hq in Hup. exact Hup.
      * intros i Hi. destruct (Nat.eq_dec i k) as [-> | Ne].
        -- rewrite Hc. discriminate.
        -- apply Henc. lia.
      * rewrite Hct. reflexivity.
    + assert (Hge : ~ (k < n)%nat) by (rewrite Hk; lia).
      replace (n - k)%nat with O by lia. cbn [seq map fold_left].
      apply ret_Ok in H. destruct H as [-> ->].
      split; [apply adds_refl | split].
      * intros i Hi. lia.
      * f_equal. lia.
Qed.

Lemma call_progress_total (f : Callback) cur tot st :
  f cur tot = true ->
  call_progress f cur tot st
  = Ok tt (with_net st (log_event (net st) (EvProgress cur tot))).
Proof. unfold call_progress. intros ->. reflexivity. Qed.

(** With a socket that takes every buffer, a callback that returns and chunks
    the engine accepts, the loop returns; one round of fuel per chunk and one
    for the exit. *)
Lemma upload_loop_total des cb data fuel :
  forall (k : nat) crc addr sequence st,
    addr = Z.min (0x8000 * Z.of_nat k) (len data) ->
    sequence = Z.of_nat k + 1 ->
    sock (self st) <> None -> tx_ok st -> callback_ok cb ->
    (forall i, (k <= i < nchunks (len data))%nat ->
       encrypt des_block des (chunk_at data i) <> None) ->
    len data < 2 ^ 32 ->
    (nchunks (len data) - k < fuel)%nat ->
    exists r st',
      upload_loop des_block fuel data (len data) des cb crc addr sequence st
      = Ok r st'.
Proof.
  induction fuel as [ | fuel IH];
    intros k crc addr sequence st Ha Hq Hs Ht Hcb Henc Hbig Hfuel; [lia | ].
  cbn [upload_loop].
  pose proof (len_nonneg data) as Hlen.
  pose proof (nchunks_lt (len data) k Hlen) as Hk.
  destruct (addr <? len data) eqn:E.
  - assert (Hlt : 0x8000 * Z.of_nat k < len data) by lia.
    assert (Haddr : addr = 0x8000 * Z.of_nat k) by lia.
    assert (Hkn : (k < nchunks (len data))%nat) by (apply Hk; exact Hlt).
    erewrite bind_Ok_intro; [ | reflexivity].
    assert (Hstep1 : exists s1,
      match cb with
      | Some f => call_progress f addr (len data)
      | None => ret tt
      end st = Ok tt s1 /\ sock (self s1) <> None /\ tx_ok s1).
    { destruct cb as [f | ].
      - eexists. split; [apply call_progress_total; eapply Hcb; reflexivity | ].
        eapply adds_ready; [ | exact Hs | exact Ht].
        eapply call_progress_Ok. apply call_progress_total.
        eapply Hcb; reflexivity.
      - exists st. auto. }
    destruct Hstep1 as (s1 & H1 & Hs1 & Ht1).
    erewrite bind_Ok_intro; [ | exact H1].
    assert (Hchunk : slice data addr (addr + 0x8000) = chunk_at data k).
    { unfold chunk_at. rewrite Haddr. reflexivity. }
    rewrite Hchunk.
    destruct (encrypt des_block des (chunk_at data k)) as [ct | ] eqn:Hc;
      [ | exfalso; apply (Henc k); [lia | exact Hc]].
    erewrite bind_Ok_intro; [ | reflexivity].
    destruct (upload_total sequence addr ct
                (addr + len (chunk_at data k) =? len data) s1) as [s3 H3];
      [lia | lia | exact Hs1 | exact Ht1 | ].
    erewrite bind_Ok_intro; [ | exact H3].
    apply upload_Ok in H3. destruct H3 as (Hup & _ & _).
    destruct (adds_ready _ _ _ Hup Hs1 Ht1) as [Hs3 Ht3].
    apply (IH (S k)); try assumption.
    + rewrite chunk_len. lia.
    + lia.
    + intros i Hi. apply Henc. lia.
    + lia.
  - eexists. eexists. reflexivity.
Qed.

(** *** The chunks of a payload *)

Lemma nchunks_pos (data : bytes) : data <> [] -> (1 <= nchunks (len data))%nat.
Proof.
  intros Hne. pose proof (nchunks_lt (len data) 0 (len_nonneg data)) as H.
  assert (0 < len data) by (destruct data; [congruence | unfold len; cbn; lia]).
  apply H. lia.
Qed.

Lemma nchunks_nil : nchunks (len (@nil byte)) = O.
Proof. reflexivity. Qed.

Lemma chunk_len_full data i :
  (S i < nchunks (len data))%nat -> len (chunk_at data i) = 0x8000.
Proof.
  intros Hi. apply nchunks_lt in Hi; [ | apply len_nonneg].
  rewrite chunk_len. lia.
Qed.

Lemma chunk_len_last data i :
  S i = nchunks (len data) ->
  len (chunk_at data i) = len data - 0x8000 * Z.of_nat i /\
  0 < len (chunk_at data i) <= 0x8000.
Proof.
  intros Hi. pose proof (len_nonneg data) as Hlen.
  pose proof (nchunks_lt (len data) i Hlen) as H1.
  pose proof (nchunks_lt (len data) (S i) Hlen) as H2.
  rewrite chunk_len. lia.
Qed.

Lemma chunk_len_mod8 data i :
  (i < nchunks (len data))%nat ->
  len (chunk_at data i) mod 8 = len data mod 8 \/ len (chunk_at data i) mod 8 = 0.
Proof.
  intros Hi. apply nchunks_lt in Hi; [ | apply len_nonneg].
  rewrite chunk_len.
  destruct (Z.le_gt_cases 0x8000 (len data - 0x8000 * Z.of_nat i)) as [L | G].
  - right. rewrite Z.min_l by lia. reflexivity.
  - left. rewrite Z.min_r, Z.max_r by lia.
    replace (len data - 0x8000 * Z.of_nat i)
      with (len data + (- 4096 * Z.of_nat i) * 8) by lia.
    apply Z.mod_add. lia.
Qed.

Lemma firstn_firstn_skipn {A : Type} (a b : nat) (l : list A) :
  firstn a l ++ firstn b (skipn a l) = firstn (a + b) l.
Proof.
  revert l. induction a as [ | a IH]; intros l; [reflexivity | ].
  destruct l as [ | x l]; cbn [firstn skipn Nat.add app].
  - rewrite firstn_nil. reflexivity.
  - f_equal. apply IH.
Qed.

Lemma concat_pieces {A : Type} (c : nat) (l : list A) (m : nat) :
  forall k,
    concat (map (fun i => firstn c (skipn (c * i) l)) (seq k m))
    = firstn (c * m) (skipn (c * k) l).
Proof.
  induction m as [ | m IH]; intros k; cbn [seq map concat].
  - rewrite Nat.mul_0_r. reflexivity.
  - rewrite IH.
    replace (c * S k)%nat with (c + c * k)%nat by lia.
    rewrite <- skipn_skipn, firstn_firstn_skipn. f_equal. lia.
Qed.

Lemma chunk_at_pieces data i :
  chunk_at data i
  = firstn (Z.to_nat 0x8000) (skipn (Z.to_nat 0x8000 * i) data).
Proof.
  unfold chunk_at, slice. f_equal.
  - f_equal. lia.
  - f_equal. rewrite Z2Nat.inj_mul, Nat2Z.id by lia. reflexivity.
Qed.

(** The chunks, in order, make up the payload. *)
Lemma concat_chunks (data : bytes) :
  concat (map (chunk_at data) (seq 0 (nchunks (len data)))) = data.
Proof.
  rewrite (map_ext _ _ (chunk_at_pieces data)).
  rewrite (concat_pieces (Z.to_nat 0x8000) data).
  rewrite Nat.mul_0_r. cbn [skipn].
  apply firstn_all2.
  pose proof (nchunks_lt (len data) (nchunks (len data)) (len_nonneg data)) as H.
  unfold len in *. lia.
Qed.

Lemma encrypt_plain chunk : encrypt des_block None chunk = Some chunk.
Proof. reflexivity. Qed.

Lemma ciphertext_plain data i :
  ciphertext des_block None data i = chunk_at data i.
Proof. reflexivity. Qed.

Lemma len_rev {A : Type} (l : list A) : len (rev l) = len l.
Proof. unfold len. rewrite length_rev. reflexivity. Qed.

(** The engine takes a chunk exactly when it is a whole number of blocks, and
    what is sent is the reversed encryption of the reversed chunk. *)
Lemma encrypt_engine key chunk :
  encrypt des_block (Some key) chunk
  = if len chunk mod 8 =? 0
    then Some (rev (DES_ECB_encrypt des_block key (rev chunk)))
    else None.
Proof.
  unfold encrypt, DES_encrypt, DES_ECB_encrypt. rewrite len_rev.
  destruct (len chunk mod 8 =? 0); reflexivity.
Qed.

Lemma engine_falsy key : truthy key = false -> engine key = None.
Proof.
  unfold engine. destruct key as [k | ]; [ | reflexivity]. intros ->. reflexivity.
Qed.

Lemma engine_8 k : length k = 8%nat -> engine (Some k) = Some (rev k).
Proof.
  intros Hk. unfold engine, DES_new. rewrite length_rev, Hk.
  destruct k; [discriminate | reflexivity].
Qed.

(** Under [key_fits] the engine takes every chunk. *)
Lemma key_fits_encrypts key data i :
  key_fits key data -> (i < nchunks (len data))%nat ->
  encrypt des_block (engine key) (chunk_at data i) <> None.
Proof.
  intros [Hf | (k & -> & Hk & Hm)] Hi.
  - rewrite engine_falsy by exact Hf. discriminate.
  - rewrite engine_8 by exact Hk. rewrite encrypt_engine.
    destruct (chunk_len_mod8 data i Hi) as [E | E]; rewrite E, ?Hm; discriminate.
Qed.

Lemma fold_left_map {A B C : Type} (f : A -> B -> A) (g : C -> B) l a :
  fold_left f (map g l) a = fold_left (fun acc x => f acc (g x)) l a.
Proof.
  revert a. induction l as [ | x l IH]; intros a; cbn [map fold_left];
    [reflexivity | apply IH].
Qed.

(** *** [__upload_file] *)

Lemma upload_file_Ok fuel data key cb st u st' :
  upload_file des_block fuel data key cb st = Ok u st' ->
  let n := nchunks (len data) in
  let des := engine key in
  adds st st'
    (map (upload_frame des_block des data n) (seq 0 n)
       ++ [frame (set_info_packet
                    (Z.land (Z.lnot (upload_crc des_block des data)) 0xFFFFFFFF)
                    (len data))]) /\
  (forall i, (i < n)%nat -> encrypt des_block des (chunk_at data i) <> None) /\
  (truthy key = true -> exists k, key = Some k /\ length k = 8%nat) /\
  len data < 2 ^ 32.
Proof.
  intros H n des. unfold upload_file in H.
  step_ok H as d s0 H0.
  assert (Hd : d = des /\ s0 = st /\
               (truthy key = true -> exists k, key = Some k /\ length k = 8%nat)).
  { unfold des, engine. destruct key as [k | ].
    - destruct (truthy (Some k)) eqn:Et.
      + step_ok H0 as e s1 H1. apply of_crypto_Ok in H1. destruct H1 as [He ->].
        apply ret_Ok in H0. destruct H0 as [-> ->]. rewrite He.
        split; [reflexivity | split; [reflexivity | ]].
        intros _. exists k. split; [reflexivity | ].
        unfold DES_new in He. rewrite length_rev in He.
        destruct (length k =? 8)%nat eqn:E8; [ | discriminate].
        apply Nat.eqb_eq, E8.
      + apply ret_Ok in H0. destruct H0 as [-> ->].
        split; [reflexivity | split; [reflexivity | discriminate]].
    - apply ret_Ok in H0. destruct H0 as [-> ->].
      split; [reflexivity | split; [reflexivity | discriminate]]. }
  destruct Hd as (-> & -> & Hkey). clear H0.
  step_ok H as r s1 H1.
  apply (upload_loop_Ok des cb data fuel 0) in H1;
    [ | pose proof (len_nonneg data); lia | reflexivity].
  fold n in H1. rewrite Nat.sub_0_r in H1. destruct H1 as (Hups & Henc & ->).
  step_ok H as u2 s2 H2. apply ret_Ok in H2. destruct H2 as [_ ->].
  apply set_information_Ok in H. destruct H as [Hset Hlen].
  rewrite <- Z.land_assoc, Z.land_diag in Hset.
  split; [ | split; [ | split]].
  - eapply adds_trans; [exact Hups | exact Hset].
  - intros i Hi. apply Henc. lia.
  - exact Hkey.
  - lia.
Qed.

Lemma upload_file_total fuel data key cb st :
  sock (self st) <> None -> tx_ok st -> callback_ok cb ->
  key_fits key data -> len data < 2 ^ 32 ->
  (nchunks (len data) < fuel)%nat ->
  exists st', upload_file des_block fuel data key cb st = Ok tt st'.
Proof.
  intros Hs Ht Hcb Hfit Hbig Hfuel. unfold upload_file.
  assert (Hd : match key with
               | Some k =>
                   if truthy key then
                     engine <- of_crypto (DES_new (rev k)) ;; ret (Some engine)
                   else ret None
               | None => ret None
               end st = Ok (engine key) st).
  { destruct Hfit as [Hf | (k & -> & Hk & _)].
    - rewrite (engine_falsy key Hf). destruct key as [k | ]; [ | reflexivity].
      rewrite Hf. reflexivity.
    - rewrite engine_8 by exact Hk.
      assert (Et : truthy (Some k) = true) by (destruct k; [discriminate | reflexivity]).
      rewrite Et. unfold DES_new. rewrite length_rev, Hk. reflexivity. }
  erewrite bind_Ok_intro; [ | exact Hd].
  destruct (upload_loop_total (engine key) cb data fuel 0 0 0 1 st)
    as (r & s1 & H1); try assumption; try reflexivity.
  - pose proof (len_nonneg data). lia.
  - intros i Hi. apply key_fits_encrypts; [exact Hfit | lia].
  - lia.
  - erewrite bind_Ok_intro; [ | exact H1].
    pose proof H1 as H1'.
    apply (upload_loop_Ok (engine key) cb data fuel 0) in H1';
      [ | pose proof (len_nonneg data); lia | reflexivity].
    destruct H1' as (Hups & _ & ->).
    erewrite bind_Ok_intro; [ | reflexivity].
    destruct (adds_ready _ _ _ Hups Hs Ht) as [Hs1 Ht1].
    apply set_information_total; [ | assumption | assumption].
    pose proof (len_nonneg data). lia.
Qed.

(** An engine refuses the last chunk of a payload that is not a whole number
    of blocks. *)
Lemma engine_rejects_unaligned key data :
  len data mod 8 <> 0 ->
  exists i, (i < nchunks (len data))%nat /\
            encrypt des_block (Some key) (chunk_at data i) = None.
Proof.
  intros Hm.
  assert (Hne : data <> []) by (intros ->; apply Hm; reflexivity).
  pose proof (nchunks_pos data Hne) as Hn.
  exists (nchunks (len data) - 1)%nat. split; [lia | ].
  destruct (chunk_len_last data (nchunks (len data) - 1)) as [E _]; [lia | ].
  rewrite encrypt_engine, E.
  replace (len data - 0x8000 * Z.of_nat (nchunks (len data) - 1))
    with (len data + (- 4096 * Z.of_nat (nchunks (len data) - 1)) * 8) by lia.
  rewrite Z.mod_add by lia.
  destruct (len data mod 8 =? 0) eqn:E0; [lia | reflexivity].
Qed.

(** An upload with a key that has returned had a payload of whole blocks. *)
Lemma upload_file_Ok_aligned fuel data k cb st u st' :
  truthy (Some k) = true ->
  upload_file des_block fuel data (Some k) cb st = Ok u st' ->
  length k = 8%nat /\ len data mod 8 = 0.
Proof.
  intros Ht H. apply upload_file_Ok in H. destruct H as (_ & Henc & Hkey & _).
  destruct (Hkey Ht) as (k' & E & Hk). inversion E; subst k'.
  split; [exact Hk | ].
  destruct (Z.eq_dec (len data mod 8) 0) as [E0 | N0]; [exact E0 | exfalso].
  destruct (engine_rejects_unaligned (rev k) data N0) as (i & Hi & Hnone).
  apply (Henc i Hi). rewrite engine_8 by exact Hk. exact Hnone.
Qed.

Lemma ciphertext_Some des data i :
  encrypt des_block des (chunk_at data i) <> None ->
  encrypt des_block des (chunk_at data i) = Some (ciphertext des_block des data i).
Proof.
  unfold ciphertext. destruct (encrypt des_block des (chunk_at data i));
    [reflexivity | congruence].
Qed.

Lemma upload_crc_chunks des data :
  upload_crc des_block des data
  = fold_left (fun acc chunk => zlib_crc32 chunk acc)
      (map (ciphertext des_block des data) (seq 0 (nchunks (len data)))) 0.
Proof. unfold upload_crc. rewrite fold_left_map. reflexivity. Qed.

(** ** The upload pipeline *)

(** C1. When the upload has run, the last command sent is set-info with the
    payload length and with [(~c) & 0xFFFFFFFF], where [c] is the CRC32
    accumulated from 0 over the chunks as they were sent, each the encryption
    of its slice; [c] is the CRC32 of their concatenation in one go, which is
    the payload itself when no key is given.  The upload does run on a socket
    that takes every buffer, for a payload below 4 GiB that fits the key. *)
Theorem upload_file_reports_crc_and_length fuel data key cb st :
  let n := nchunks (len data) in
  let des := engine key in
  let chunks := map (ciphertext des_block des data) (seq 0 n) in
  let c := fold_left (fun acc chunk => zlib_crc32 chunk acc) chunks 0 in
  (forall st', upload_file des_block fuel data key cb st = Ok tt st' ->
     (forall i, (i < n)%nat ->
        encrypt des_block des (chunk_at data i)
        = Some (ciphertext des_block des data i)) /\
     sent st' = sent st
                  ++ map (upload_frame des_block des data n) (seq 0 n)
                  ++ [frame (set_info_packet (Z.land (Z.lnot c) 0xFFFFFFFF)
                               (len data))]) /\
  c = zlib_crc32 (concat chunks) 0 /\
  (truthy key = false -> concat chunks = data) /\
  (sock (self st) <> None -> tx_ok st -> callback_ok cb ->
   key_fits key data -> len data < 2 ^ 32 -> (n < fuel)%nat ->
   exists st', upload_file des_block fuel data key cb st = Ok tt st').
Proof.
  intros n des chunks c. split; [ | split; [ | split]].
  - intros st' H. apply upload_file_Ok in H.
    destruct H as ((_ & Hsent & _) & Henc & _).
    split.
    + intros i Hi. apply ciphertext_Some, Henc, Hi.
    + rewrite Hsent. rewrite upload_crc_chunks. reflexivity.
  - apply crc_chunkwise. change (2 ^ 32) with 4294967296. lia.
  - intros Hf. unfold chunks, des. rewrite engine_falsy by exact Hf.
    rewrite (map_ext _ _ (ciphertext_plain data)). apply concat_chunks.
  - intros Hs Ht Hcb Hfit Hbig Hfuel. apply upload_file_total; assumption.
Qed.

Lemma ecb_blocks_length key :
  (forall k block, length (des_block k block) = 8%nat) ->
  forall m pt fuel,
    length pt = (8 * m)%nat -> (m <= fuel)%nat ->
    length (ecb_blocks des_block fuel key pt) = (8 * m)%nat.
Proof.
  intros Hblock. induction m as [ | m IH]; intros pt fuel Hpt Hfuel.
  - destruct pt; [ | discriminate]. destruct fuel; reflexivity.
  - destruct fuel as [ | fuel]; [lia | ].
    destruct pt as [ | b pt]; [discriminate | ].
    cbn [ecb_blocks]. rewrite length_app, Hblock.
    rewrite (IH (skipn 8 (b :: pt)) fuel); [lia | | lia].
    rewrite length_skipn. lia.
Qed.

Lemma encrypt_length :
  (forall k block, length (des_block k block) = 8%nat) ->
  forall des chunk c,
    encrypt des_block des chunk = Some c -> len c = len chunk.
Proof.
  intros Hblock des chunk c H. destruct des as [e | ].
  - rewrite encrypt_engine in H.
    destruct (len chunk mod 8 =? 0) eqn:E; [ | discriminate].
    inversion H; subst c. clear H. apply Z.eqb_eq in E.
    rewrite len_rev. unfold DES_ECB_encrypt, len in *.
    pose proof (Z.div_mod (Z.of_nat (length chunk)) 8 ltac:(lia)) as Hd.
    rewrite E, Z.add_0_r in Hd.
    assert (Hq : 0 <= Z.of_nat (length chunk) / 8) by (apply Z.div_pos; lia).
    rewrite (ecb_blocks_length e Hblock
               (Z.to_nat (Z.of_nat (length chunk) / 8)));
      rewrite ?length_rev; lia.
  - inversion H. reflexivity.
Qed.

(** C2. For a payload that is not empty the upload sends one chunk per
    slice of 0x8000 bytes: chunk [i] (from 0) has sequence number [i + 1],
    address [0x8000 * i] and flags 0x80, but for the last one, whose flags
    are 0x81; every slice has 0x8000 bytes except the last, which has the
    rest, and what is sent for a slice is as long as the slice when the
    cipher maps blocks to blocks of 8 bytes.  After the chunks comes a single
    further buffer.  The upload does run on a socket that takes every buffer,
    for a payload below 4 GiB that fits the key. *)
Theorem upload_file_chunk_sequence fuel data key cb st :
  data <> [] ->
  let n := nchunks (len data) in
  let des := engine key in
  (1 <= n)%nat /\
  (forall i, (S i < n)%nat -> len (chunk_at data i) = 0x8000) /\
  (forall i, S i = n ->
     len (chunk_at data i) = len data - 0x8000 * Z.of_nat i /\
     0 < len (chunk_at data i) <= 0x8000) /\
  ((forall k block, length (des_block k block) = 8%nat) ->
   forall chunk c,
     encrypt des_block des chunk = Some c -> len c = len chunk) /\
  (forall st', upload_file des_block fuel data key cb st = Ok tt st' ->
     (forall i, (i < n)%nat ->
        encrypt des_block des (slice data (0x8000 * Z.of_nat i)
                                          (0x8000 * Z.of_nat i + 0x8000))
        = Some (ciphertext des_block des data i)) /\
     exists last_buffer,
       sent st' = sent st
         ++ map (fun i =>
                   frame (mkNetDimmPacket 0x04
                            (if Nat.eqb (S i) n then 0x81 else 0x80)
                            (le_bytes 4 (Z.of_nat i + 1)
                               ++ le_bytes 4 (0x8000 * Z.of_nat i)
                               ++ le_bytes 2 0
                               ++ ciphertext des_block des data i)))
                (seq 0 n)
         ++ [last_buffer]) /\
  (sock (self st) <> None -> tx_ok st -> callback_ok cb ->
   key_fits key data -> len data < 2 ^ 32 -> (n < fuel)%nat ->
   exists st', upload_file des_block fuel data key cb st = Ok tt st').
Proof.
  intros Hne n des. split; [ | split; [ | split; [ | split; [ | split]]]].
  - apply nchunks_pos, Hne.
  - intros i Hi. apply chunk_len_full, Hi.
  - intros i Hi. apply chunk_len_last, Hi.
  - intros Hblock chunk c H. apply (encrypt_length Hblock des chunk c H).
  - intros st' H. apply upload_file_Ok in H.
    destruct H as ((_ & Hsent & _) & Henc & _).
    split.
    + intros i Hi. apply ciphertext_Some, Henc, Hi.
    + eexists. rewrite Hsent. reflexivity.
  - intros Hs Ht Hcb Hfit Hbig Hfuel. apply upload_file_total; assumption.
Qed.

Lemma ecb_one_block key block :
  length block = 8%nat -> DES_ECB_encrypt des_block key block = des_block key block.
Proof.
  intros Hb. unfold DES_ECB_encrypt. rewrite Hb.
  do 9 (destruct block as [ | ? block]; try discriminate).
  cbn [ecb_blocks firstn skipn]. apply app_nil_r.
Qed.

(** C3. With a key [K] of 8 bytes the engine is the ECB engine keyed with
    [reverse K], and the chunk sent for a slice is
    [reverse (DES_ECB_encrypt (reverse slice))]; an upload that returns had a
    payload of whole blocks.  For the key 01..08 the engine key is
    08 07 .. 01 and the block 00..07 goes out as the reversed encryption of
    07 06 .. 00. *)
Theorem upload_file_des_reversed fuel data K cb st :
  length K = 8%nat ->
  let n := nchunks (len data) in
  engine (Some K) = DES_new (rev K) /\
  DES_new (rev K) = Some (rev K) /\
  (forall chunk c,
     encrypt des_block (Some (rev K)) chunk = Some c ->
     c = rev (DES_ECB_encrypt des_block (rev K) (rev chunk))) /\
  (forall st', upload_file des_block fuel data (Some K) cb st = Ok tt st' ->
     len data mod 8 = 0 /\
     exists last_buffer,
       sent st' = sent st
         ++ map (fun i =>
                   frame (upload_packet (Z.of_nat i + 1) (0x8000 * Z.of_nat i)
                            (rev (DES_ECB_encrypt des_block (rev K)
                                    (rev (chunk_at data i))))
                            (Nat.eqb (S i) n)))
                (seq 0 n)
         ++ [last_buffer]) /\
  (K = key_01_08 ->
   rev K = [x08; x07; x06; x05; x04; x03; x02; x01] /\
   (data = block_00_07 ->
    forall st', upload_file des_block fuel data (Some K) cb st = Ok tt st' ->
      exists last_buffer,
        sent st' = sent st
          ++ [frame (upload_packet 1 0
                       (rev (des_block [x08; x07; x06; x05; x04; x03; x02; x01]
                               [x07; x06; x05; x04; x03; x02; x01; x00]))
                       true);
              last_buffer])) /\
  (sock (self st) <> None -> tx_ok st -> callback_ok cb ->
   len data mod 8 = 0 -> len data < 2 ^ 32 -> (n < fuel)%nat ->
   exists st', upload_file des_block fuel data (Some K) cb st = Ok tt st').
Proof.
  intros HK n.
  assert (Ht : truthy (Some K) = true) by (destruct K; [discriminate | reflexivity]).
  assert (Hmain : forall st',
    upload_file des_block fuel data (Some K) cb st = Ok tt st' ->
    len data mod 8 = 0 /\
    exists last_buffer,
      sent st' = sent st
        ++ map (fun i =>
                  frame (upload_packet (Z.of_nat i + 1) (0x8000 * Z.of_nat i)
                           (rev (DES_ECB_encrypt des_block (rev K)
                                   (rev (chunk_at data i))))
                           (Nat.eqb (S i) n)))
               (seq 0 n)
        ++ [last_buffer]).
  { intros st' H.
    destruct (upload_file_Ok_aligned _ _ _ _ _ _ _ Ht H) as [_ Hal].
    split; [exact Hal | ].
    apply upload_file_Ok in H. destruct H as ((_ & Hsent & _) & Henc & _).
    eexists. rewrite Hsent. f_equal. f_equal.
    apply map_ext_in. intros i Hi. apply in_seq in Hi.
    unfold upload_frame. do 2 f_equal.
    assert (Hi' : (i < nchunks (len data))%nat) by lia.
    specialize (Henc i Hi'). unfold ciphertext.
    rewrite engine_8 in * by exact HK. rewrite encrypt_engine in *.
    destruct (len (chunk_at data i) mod 8 =? 0); [reflexivity | congruence]. }
  split; [ | split; [ | split; [ | split; [ | split]]]].
  - unfold engine. rewrite Ht. reflexivity.
  - unfold DES_new. rewrite length_rev, HK. reflexivity.
  - intros chunk c H. rewrite encrypt_engine in H.
    destruct (len chunk mod 8 =? 0); inversion H. reflexivity.
  - exact Hmain.
  - intros ->. split; [reflexivity | ].
    intros -> st' H. apply Hmain in H. destruct H as (_ & last_buffer & Hsent).
    exists last_buffer. rewrite Hsent.
    change n with 1%nat. cbn [seq map app Nat.eqb Z.of_nat].
    rewrite ecb_one_block by reflexivity. reflexivity.
  - intros Hs Htx Hcb Hal Hbig Hfuel. apply upload_file_total; try assumption.
    right. exists K. auto.
Qed.

End Upload.

(** ** The session *)

Lemma connect_opened st :
  connect_ok (net st) = true ->
  (s <- socket_socket ;;
   set_sock (Some s) ;;
   socket_settimeout s 1 ;;
   socket_connect s ;;
   socket_settimeout s 10) st = Ok tt (opened st true).
Proof.
  intros Hc. unfold bind, socket_socket, set_sock, socket_settimeout,
    socket_connect, ret, opened. cbn.
  destruct (connect_ok (net st)); [reflexivity | discriminate].
Qed.

Lemma connect_refused st :
  connect_ok (net st) = false ->
  (s <- socket_socket ;;
   set_sock (Some s) ;;
   socket_settimeout s 1 ;;
   socket_connect s ;;
   socket_settimeout s 10) st = Raise SocketError (opened st false).
Proof.
  intros Hc. unfold bind, socket_socket, set_sock, socket_settimeout,
    socket_connect, ret, opened. cbn.
  destruct (connect_ok (net st)); [discriminate | reflexivity].
Qed.

(** The [finally] clause of [__connection]. *)
Lemma finally_released st id :
  sock (self st) = Some id ->
  (s <- get_sock ;;
   match s with
   | None => raise AttributeError
   | Some id => socket_close id
   end ;;
   set_sock None) st = Ok tt (released st id).
Proof.
  intros Hs. unfold bind, get_sock. rewrite Hs. reflexivity.
Qed.

Lemma finally_Ok st u st' :
  (s <- get_sock ;;
   match s with
   | None => raise AttributeError
   | Some id => socket_close id
   end ;;
   set_sock None) st = Ok u st' ->
  exists id, sock (self st) = Some id /\ st' = released st id.
Proof.
  intros H. destruct (sock (self st)) as [id | ] eqn:Hs.
  - rewrite (finally_released st id Hs) in H. inversion H. eauto.
  - unfold bind, get_sock in H. rewrite Hs in H. discriminate.
Qed.

(** When the connection is refused the body never runs. *)
Lemma connection_refused {A : Type} (body : M A) st :
  connect_ok (net st) = false ->
  connection body st
  = Raise (NetDimmException "Could not connect to NetDimm") (opened st false).
Proof.
  intros Hc. unfold connection, bind at 1, try_except.
  rewrite (connect_refused st Hc). reflexivity.
Qed.

(** When the connection is made, what is left is the [try ... finally]. *)
Lemma connection_accepted {A : Type} (body : M A) st :
  connect_ok (net st) = true ->
  connection body st
  = try_finally (startup ;; body)
      (s <- get_sock ;;
       match s with
       | None => raise AttributeError
       | Some id => socket_close id
       end ;;
       set_sock None) (opened st true).
Proof.
  intros Hc. unfold connection, bind at 1, try_except.
  rewrite (connect_opened st Hc). reflexivity.
Qed.

Lemma sent_opened st ok : sent (opened st ok) = sent st.
Proof.
  unfold sent, opened. cbn. rewrite !sent_bufs_app. cbn. rewrite !app_nil_r.
  reflexivity.
Qed.

Lemma sent_released st id : sent (released st id) = sent st.
Proof.
  unfold sent, released. cbn. rewrite sent_bufs_app. cbn. apply app_nil_r.
Qed.

Lemma tx_ok_opened st ok : tx_ok st -> tx_ok (opened st ok).
Proof. intros H. exact H. Qed.

(** A session that returns was connected, has sent the startup packet, has
    run its body, and has closed and dropped the socket. *)
Lemma connection_Ok {A : Type} (body : M A) st a st' :
  connection body st = Ok a st' ->
  connect_ok (net st) = true /\
  exists s1 s2 id,
    adds (opened st true) s1 [frame startup_packet] /\
    body s1 = Ok a s2 /\
    sock (self s2) = Some id /\
    st' = released s2 id.
Proof.
  intros H. destruct (connect_ok (net st)) eqn:Hc.
  - split; [reflexivity | ].
    rewrite (connection_accepted body st Hc) in H. unfold try_finally in H.
    destruct ((startup ;; body) (opened st true)) as [a' s2 | e s2 | ] eqn:Hb;
      [ | | discriminate].
    + match type of H with
      | match ?f s2 with _ => _ end = _ => destruct (f s2) as [u s3 | e s3 | ] eqn:Hf
      end; try discriminate.
      inversion H; subst a' s3. clear H.
      apply finally_Ok in Hf. destruct Hf as (id & Hs & ->).
      step_ok Hb as u0 s1 H1. apply send_packet_Ok in H1.
      exists s1, s2, id. auto.
    + match type of H with
      | match ?f s2 with _ => _ end = _ => destruct (f s2) as [u s3 | e' s3 | ]
      end; discriminate.
  - rewrite (connection_refused body st Hc) in H. discriminate.
Qed.

(** The other way round. *)
Lemma connection_total {A : Type} (body : M A) st s1 a s2 id :
  connect_ok (net st) = true ->
  startup (opened st true) = Ok tt s1 ->
  body s1 = Ok a s2 ->
  sock (self s2) = Some id ->
  connection body st = Ok a (released s2 id).
Proof.
  intros Hc H1 Hb Hs. rewrite (connection_accepted body st Hc).
  unfold try_finally. rewrite (bind_Ok_intro _ _ _ _ _ H1), Hb.
  rewrite (finally_released s2 id Hs). reflexivity.
Qed.

(** A body that raises: the session closes the socket and raises the same. *)
Lemma connection_raises {A : Type} (body : M A) st s1 e s2 id :
  connect_ok (net st) = true ->
  startup (opened st true) = Ok tt s1 ->
  body s1 = Raise e s2 ->
  sock (self s2) = Some id ->
  connection body st = Raise e (released s2 id).
Proof.
  intros Hc H1 Hb Hs. rewrite (connection_accepted body st Hc).
  unfold try_finally. rewrite (bind_Ok_intro _ _ _ _ _ H1), Hb.
  rewrite (finally_released s2 id Hs). reflexivity.
Qed.

(** ** Reboot and the boot-ID patch *)

Lemma ready_step st st' bufs : adds st st' bufs -> ready st -> ready st'.
Proof.
  intros H [Hs Ht]. apply (adds_ready _ _ _ H Hs Ht).
Qed.

Lemma send_packet_step p st :
  ready st -> exists st', send_packet p st = Ok tt st' /\ ready st'.
Proof.
  intros Hr. destruct (send_packet_total p st) as [st' H]; try apply Hr.
  exists st'. split; [exact H | ].
  eapply ready_step; [eapply send_packet_Ok; exact H | exact Hr].
Qed.

Lemma host_poke4_step addr value st :
  0 <= addr < 2 ^ 32 -> 0 <= value < 2 ^ 32 -> ready st ->
  exists st', host_poke4 addr value st = Ok tt st' /\ ready st'.
Proof.
  intros Ha Hv Hr.
  destruct (host_poke4_total addr value st) as [st' H]; try apply Hr; try assumption.
  exists st'. split; [exact H | ].
  eapply ready_step; [eapply host_poke4_Ok; exact H | exact Hr].
Qed.

Lemma patch_boot_id_check_Ok st u st' :
  patch_boot_id_check st = Ok u st' ->
  adds st st' (map frame (patch_pokes (version (self st)))).
Proof.
  intros H. unfold patch_boot_id_check in H. unfold patch_pokes.
  destruct (patch_addr (version (self st))) as [base | ].
  - destruct (TargetVersionEnum_eqb (version (self st)) TARGET_VERSION_3_01).
    + apply host_poke4_Ok in H. exact H.
    + step_ok H as u1 s1 H1. apply host_poke4_Ok in H1.
      step_ok H as u2 s2 H2. apply host_poke4_Ok in H2.
      step_ok H as u3 s3 H3. apply host_poke4_Ok in H3.
      apply host_poke4_Ok in H.
      exact (adds_trans _ _ _ _ _ (adds_trans _ _ _ _ _
               (adds_trans _ _ _ _ _ H1 H2) H3) H).
  - apply ret_Ok in H. destruct H as [_ ->]. apply adds_refl.
Qed.

Lemma patch_boot_id_check_total st :
  ready st -> exists st', patch_boot_id_check st = Ok tt st'.
Proof.
  intros Hr. unfold patch_boot_id_check.
  assert (Hfour : forall base, 0 <= base -> base + 12 < 2 ^ 32 ->
    exists st',
      (host_poke4 (base + 0) 0x4e800020 ;;
       host_poke4 (base + 4) 0x38600000 ;;
       host_poke4 (base + 8) 0x4e800020 ;;
       host_poke4 (base + 12) 0x60000000) st = Ok tt st').
  { intros base B0 B1. change (2 ^ 32) with 4294967296 in *.
    destruct (host_poke4_step (base + 0) 0x4e800020 st) as (s1 & H1 & R1);
      [change (2 ^ 32) with 4294967296; lia .. | exact Hr | ].
    destruct (host_poke4_step (base + 4) 0x38600000 s1) as (s2 & H2 & R2);
      [change (2 ^ 32) with 4294967296; lia .. | exact R1 | ].
    destruct (host_poke4_step (base + 8) 0x4e800020 s2) as (s3 & H3 & R3);
      [change (2 ^ 32) with 4294967296; lia .. | exact R2 | ].
    destruct (host_poke4_step (base + 12) 0x60000000 s3) as (s4 & H4 & R4);
      [change (2 ^ 32) with 4294967296; lia .. | exact R3 | ].
    exists s4.
    rewrite (bind_Ok_intro _ _ _ _ _ H1), (bind_Ok_intro _ _ _ _ _ H2),
      (bind_Ok_intro _ _ _ _ _ H3). exact H4. }
  destruct (version (self st)); cbn [patch_addr TargetVersionEnum_eqb];
    try (eexists; reflexivity);
    try (apply Hfour; change (2 ^ 32) with 4294967296; lia).
  destruct (host_poke4_step (0x8000dc5c + 0) 0x4800001C st) as (s1 & H1 & _);
    [change (2 ^ 32) with 4294967296; lia .. | exact Hr | ].
  exists s1. exact H1.
Qed.

Lemma reboot_Ok st u st' :
  reboot st = Ok u st' ->
  connect_ok (net st) = true /\
  exists s1 s2 id,
    adds (opened st true) s1
      (map frame [startup_packet; restart_packet; time_limit_packet 10]) /\
    (if TargetEnum_eqb (target (self st)) TARGET_TRIFORCE
     then patch_boot_id_check s1 = Ok tt s2
     else s2 = s1) /\
    sock (self s2) = Some id /\
    st' = released s2 id.
Proof.
  intros H. apply connection_Ok in H.
  destruct H as (Hc & s0 & s2 & id & H0 & Hb & Hs & ->).
  split; [exact Hc | ].
  step_ok Hb as u1 s1' H1. apply send_packet_Ok in H1.
  step_ok Hb as u2 s1 H2. apply set_time_limit_Ok in H2.
  pose proof (adds_trans _ _ _ _ _ (adds_trans _ _ _ _ _ H0 H1) H2) as Hall.
  exists s1, s2, id. split; [exact Hall | ].
  destruct Hall as (Hself & _). rewrite Hself in Hb. cbn [opened self target] in Hb.
  split; [ | auto].
  destruct (TargetEnum_eqb (target (self st)) TARGET_TRIFORCE).
  - destruct u. exact Hb.
  - apply ret_Ok in Hb. apply Hb.
Qed.

Lemma set_time_limit_step minutes st :
  0 <= minutes < 2 ^ 32 -> ready st ->
  exists st', set_time_limit minutes st = Ok tt st' /\ ready st'.
Proof.
  intros Hm Hr. unfold set_time_limit.
  rewrite struct_pack_I_small by exact Hm. cbn [of_struct].
  unfold bind at 1. cbn [ret]. apply send_packet_step, Hr.
Qed.

Lemma reboot_total st :
  connect_ok (net st) = true -> tx_ok st -> exists st', reboot st = Ok tt st'.
Proof.
  intros Hc Ht.
  assert (R0 : ready (opened st true)) by (split; [discriminate | exact Ht]).
  destruct (send_packet_step startup_packet _ R0) as (s0 & H0 & Rs0).
  destruct (send_packet_step restart_packet _ Rs0) as (s1 & H1 & Rs1).
  destruct (set_time_limit_step 10 s1) as (s2 & H2 & Rs2);
    [change (2 ^ 32) with 4294967296; lia | exact Rs1 | ].
  assert (Hbody : exists s3,
    (fun st0 =>
       if TargetEnum_eqb (target (self st0)) TARGET_TRIFORCE
       then patch_boot_id_check st0
       else ret tt st0) s2 = Ok tt s3 /\ ready s3).
  { cbv beta. destruct (TargetEnum_eqb (target (self s2)) TARGET_TRIFORCE).
    - destruct (patch_boot_id_check_total s2 Rs2) as [s3 H3].
      exists s3. split; [exact H3 | ].
      eapply ready_step; [eapply patch_boot_id_check_Ok; exact H3 | exact Rs2].
    - exists s2. split; [reflexivity | exact Rs2]. }
  destruct Hbody as (s3 & H3 & [Hs3 _]).
  destruct (sock (self s3)) as [id | ] eqn:Hid; [ | congruence].
  exists (released s3 id). unfold reboot.
  eapply connection_total; [exact Hc | exact H0 | | exact Hid].
  rewrite (bind_Ok_intro _ _ _ _ _ H1), (bind_Ok_intro _ _ _ _ _ H2). exact H3.
Qed.

(** C4. A reboot that returns has sent the startup, restart and time-limit
    packets and then, on a Triforce, the pokes of its firmware: the single
    word 0x4800001C at 0x8000DC5C for 3.01; the four words 0x4E800020,
    0x38600000, 0x4E800020, 0x60000000 at base, base+4, base+8, base+12 for
    1.07 (base 0x8000D8A0) and for 2.03 and 2.15 (base 0x8000CC6C); nothing
    for another firmware, and nothing on another target.  A reboot returns
    when the connection is made and no send raises. *)
Theorem reboot_boot_id_patch st :
  (forall st', reboot st = Ok tt st' ->
     exists pokes,
       sent st' = sent st
         ++ map frame ([startup_packet; restart_packet; time_limit_packet 10]
                         ++ pokes) /\
       (target (self st) = TARGET_TRIFORCE ->
        version (self st) = TARGET_VERSION_3_01 ->
        pokes = [poke_packet 0x8000DC5C 0x4800001C]) /\
       (target (self st) = TARGET_TRIFORCE ->
        forall base,
          version (self st) = TARGET_VERSION_1_07 /\ base = 0x8000D8A0 \/
          (version (self st) = TARGET_VERSION_2_03 \/
           version (self st) = TARGET_VERSION_2_15) /\ base = 0x8000CC6C ->
          pokes = [poke_packet (base + 0) 0x4E800020;
                   poke_packet (base + 4) 0x38600000;
                   poke_packet (base + 8) 0x4E800020;
                   poke_packet (base + 12) 0x60000000]) /\
       (target (self st) = TARGET_TRIFORCE ->
        version (self st) = TARGET_VERSION_UNKNOWN \/
        version (self st) = TARGET_VERSION_4_01 \/
        version (self st) = TARGET_VERSION_4_02 ->
        pokes = []) /\
       (target (self st) <> TARGET_TRIFORCE -> pokes = [])) /\
  (connect_ok (net st) = true -> tx_ok st -> exists st', reboot st = Ok tt st').
Proof.
  split; [ | apply reboot_total].
  intros st' H. apply reboot_Ok in H.
  destruct H as (_ & s1 & s2 & id & H1 & Hp & _ & ->).
  exists (if TargetEnum_eqb (target (self st)) TARGET_TRIFORCE
          then patch_pokes (version (self st)) else []).
  split.
  - rewrite sent_released.
    assert (Hv : version (self s1) = version (self st)).
    { destruct H1 as (-> & _). reflexivity. }
    assert (H2 : adds s1 s2
              (map frame (if TargetEnum_eqb (target (self st)) TARGET_TRIFORCE
                          then patch_pokes (version (self st)) else []))).
    { destruct (TargetEnum_eqb (target (self st)) TARGET_TRIFORCE).
      - rewrite <- Hv. eapply patch_boot_id_check_Ok. exact Hp.
      - subst s2. apply adds_refl. }
    destruct (adds_trans _ _ _ _ _ H1 H2) as (_ & Hsent & _).
    rewrite Hsent, sent_opened, map_app. reflexivity.
  - repeat split.
    + intros -> ->. reflexivity.
    + intros -> base [[-> ->] | [[-> | ->] ->]]; reflexivity.
    + intros -> [-> | [-> | ->]]; reflexivity.
    + intros Hn. destruct (target (self st)); try reflexivity. congruence.
Qed.

(** ** Reading *)

Lemma rx_recv_length n script bs later :
  rx_recv n script = (Some bs, later) -> (length bs <= n)%nat.
Proof.
  revert bs later. induction script as [ | e script IH]; intros bs later H.
  - cbn in H. inversion H. cbn. lia.
  - destruct e as [seg | ]; [ | cbn in H; discriminate].
    destruct seg as [ | b seg]; cbn [rx_recv] in H.
    + eapply IH. exact H.
    + inversion H. rewrite length_firstn. lia.
Qed.

Lemma socket_recv_Ok id n st bs st' :
  socket_recv id n st = Ok bs st' ->
  takes st st' bs /\ (length bs <= Z.to_nat n)%nat.
Proof.
  unfold socket_recv. intros H.
  destruct (rx_recv (Z.to_nat n) (rx (net st))) as [[r | ] later] eqn:E;
    [ | discriminate].
  inversion H; subst. split.
  - unfold takes, sent. cbn. rewrite sent_bufs_app, received_app. cbn.
    rewrite !app_nil_r. auto.
  - eapply rx_recv_length. exact E.
Qed.

(** [__read] returns only with all the bytes asked for. *)
Lemma read_loop_Ok fuel id :
  forall left res st res' st',
    0 <= left ->
    read_loop fuel id left res st = Ok res' st' ->
    exists got,
      res' = res ++ got /\ len (concat got) = left /\ takes st st' (concat got).
Proof.
  induction fuel as [ | fuel IH]; intros left res st res' st' Hl H.
  - discriminate.
  - cbn [read_loop] in H. destruct (0 <? left) eqn:E.
    + step_ok H as r s1 H1. apply socket_recv_Ok in H1. destruct H1 as [Ht Hr].
      apply IH in H; [ | unfold len; lia].
      destruct H as (got & -> & Hlen & Ht').
      exists (r :: got). cbn [concat]. split; [ | split].
      * rewrite <- app_assoc. reflexivity.
      * unfold len in *. rewrite length_app. lia.
      * eapply takes_trans; eassumption.
    + apply ret_Ok in H. destruct H as [-> ->].
      exists []. rewrite app_nil_r. cbn [concat]. split; [reflexivity | split].
      * unfold len. cbn. lia.
      * apply takes_refl.
Qed.

Lemma read_Ok fuel num st bs st' :
  0 <= num -> read fuel num st = Ok bs st' -> len bs = num /\ takes st st' bs.
Proof.
  intros Hn H. unfold read in H.
  step_ok H as s s0 H0. apply get_sock_Ok in H0. destruct H0 as [-> ->].
  destruct (sock (self st)) as [id | ]; [ | discriminate].
  step_ok H as res s1 H1. apply ret_Ok in H. destruct H as [-> ->].
  apply read_loop_Ok in H1; [ | exact Hn].
  destruct H1 as (got & -> & Hlen & Ht). cbn [app]. auto.
Qed.

(** A packet that was received: four header bytes, then as many bytes of data
    as the header says. *)
Lemma recv_packet_Ok fuel st p st' :
  recv_packet fuel st = Ok p st' ->
  exists header,
    length header = 4%nat /\
    takes st st' (header ++ data p) /\
    pktid p = Z.land (Z.shiftr (le_value header) 24) 0xFF /\
    flags p = Z.land (Z.shiftr (le_value header) 16) 0xFF /\
    length_ p = Z.land (le_value header) 0xFFFF.
Proof.
  intros H. unfold recv_packet in H.
  step_ok H as header s1 H1. apply read_Ok in H1; [ | lia].
  destruct H1 as [Hlen Ht1].
  step_ok H as hb s2 H2. apply of_struct_Ok in H2. destruct H2 as [E ->].
  unfold struct_unpack_I in E.
  destruct (length header =? 4)%nat eqn:E4; [ | discriminate].
  inversion E; subst hb. clear E. apply Nat.eqb_eq in E4.
  exists header. split; [exact E4 | ].
  destruct (0 <? Z.land (le_value header) 0xFFFF) eqn:El.
  - step_ok H as d s3 H3. apply read_Ok in H3; [ | lia].
    destruct H3 as [Hd Ht3]. apply ret_Ok in H. destruct H as [-> ->].
    cbn [pktid flags data length_]. split; [ | auto].
    eapply takes_trans; eassumption.
  - apply ret_Ok in H. destruct H as [-> ->].
    cbn [pktid flags data length_]. rewrite app_nil_r.
    split; [exact Ht1 | split; [reflexivity | split; [reflexivity | ]]].
    assert (0 <= Z.land (le_value header) 0xFFFF).
    { change 0xFFFF with (Z.ones 16). rewrite Z.land_ones by lia.
      apply Z.mod_pos_bound. reflexivity. }
    unfold len. cbn. lia.
Qed.

Lemma firstn_length_app {A : Type} (l more : list A) :
  firstn (length l) (l ++ more) = l.
Proof.
  induction l as [ | x l IH]; cbn [length firstn app].
  - reflexivity.
  - f_equal. exact IH.
Qed.

Lemma skipn_length_app {A : Type} (l more : list A) :
  skipn (length l) (l ++ more) = more.
Proof.
  induction l as [ | x l IH]; cbn [length skipn app]; [reflexivity | exact IH].
Qed.

Lemma rx_recv_segment bs more rest :
  bs <> [] ->
  rx_recv (length bs) (RxData (bs ++ more) :: rest)
  = (Some bs, match more with [] => rest | _ => RxData more :: rest end).
Proof.
  intros Hne. destruct bs as [ | b bs]; [congruence | ].
  change ((b :: bs) ++ more) with (b :: (bs ++ more)).
  cbn [rx_recv].
  change (b :: (bs ++ more)) with ((b :: bs) ++ more).
  rewrite firstn_length_app, skipn_length_app. destruct more; reflexivity.
Qed.

Lemma socket_recv_segment id st bs more rest :
  rx (net st) = RxData (bs ++ more) :: rest ->
  bs <> [] ->
  exists st',
    socket_recv id (len bs) st = Ok bs st' /\
    self st' = self st /\
    sent st' = sent st /\
    tx (net st') = tx (net st) /\
    connect_ok (net st') = connect_ok (net st) /\
    rx (net st') = match more with [] => rest | _ => RxData more :: rest end.
Proof.
  intros Hrx Hne. unfold socket_recv. cbv zeta. rewrite Hrx.
  unfold len. rewrite Nat2Z.id, rx_recv_segment by exact Hne.
  eexists. split; [reflexivity | ].
  unfold sent. cbn. rewrite sent_bufs_app. cbn. rewrite app_nil_r. auto.
Qed.

(** When the bytes asked for are the head of the segment that arrives next,
    [__read] returns them from one [recv]. *)
Lemma read_scripted fuel st id bs more rest :
  sock (self st) = Some id ->
  rx (net st) = RxData (bs ++ more) :: rest ->
  bs <> [] -> (2 <= fuel)%nat ->
  exists st',
    read fuel (len bs) st = Ok bs st' /\
    self st' = self st /\
    sent st' = sent st /\
    tx (net st') = tx (net st) /\
    connect_ok (net st') = connect_ok (net st) /\
    rx (net st') = match more with [] => rest | _ => RxData more :: rest end.
Proof.
  intros Hs Hrx Hne Hfuel.
  destruct fuel as [ | [ | fuel]]; try lia.
  destruct (socket_recv_segment id st bs more rest Hrx Hne) as (s1 & H1 & Hrest).
  exists s1. split; [ | exact Hrest].
  assert (Hpos : (0 <? len bs) = true).
  { destruct bs; [congruence | ]. unfold len. cbn [length]. apply Z.ltb_lt. lia. }
  assert (Hloop : read_loop (S (S fuel)) id (len bs) [] st = Ok [bs] s1).
  { cbn [read_loop]. rewrite Hpos. rewrite (bind_Ok_intro _ _ _ _ _ H1).
    rewrite Z.sub_diag. reflexivity. }
  unfold read.
  assert (Hg : get_sock st = Ok (Some id) st) by (unfold get_sock; rewrite Hs; reflexivity).
  rewrite (bind_Ok_intro _ _ _ _ _ Hg), (bind_Ok_intro _ _ _ _ _ Hloop).
  cbn [concat]. rewrite app_nil_r. reflexivity.
Qed.

Lemma struct_unpack_I_4 bs :
  length bs = 4%nat -> struct_unpack_I bs = Some (le_value bs).
Proof. intros H. unfold struct_unpack_I. rewrite H. reflexivity. Qed.

(** When the next segment is a whole frame, header then data, [__recv_packet]
    returns the packet. *)
Lemma recv_packet_scripted fuel st id header payload rest :
  sock (self st) = Some id ->
  rx (net st) = RxData (header ++ payload) :: rest ->
  length header = 4%nat ->
  Z.land (le_value header) 0xFFFF = len payload ->
  (2 <= fuel)%nat ->
  exists st',
    recv_packet fuel st
    = Ok (mkNetDimmPacket (Z.land (Z.shiftr (le_value header) 24) 0xFF)
            (Z.land (Z.shiftr (le_value header) 16) 0xFF) payload) st' /\
    self st' = self st /\
    sent st' = sent st /\
    tx (net st') = tx (net st) /\
    connect_ok (net st') = connect_ok (net st) /\
    rx (net st') = rest.
Proof.
  intros Hs Hrx H4 Hlen Hfuel.
  assert (Hne : header <> []) by (destruct header; [discriminate | congruence]).
  destruct (read_scripted fuel st id header payload rest Hs Hrx Hne Hfuel)
    as (s1 & H1 & Hself1 & Hsent1 & Htx1 & Hc1 & Hrx1).
  assert (E4 : len header = 4) by (unfold len; rewrite H4; reflexivity).
  rewrite E4 in H1.
  unfold recv_packet.
  rewrite (bind_Ok_intro _ _ _ _ _ H1).
  rewrite (struct_unpack_I_4 header H4). cbn [of_struct].
  unfold bind at 1. cbn [ret]. rewrite Hlen.
  destruct payload as [ | b payload].
  - change (0 <? len (@nil byte)) with false. cbv iota.
    exists s1. cbn [pktid flags]. split; [reflexivity | auto].
  - assert (Hpos : (0 <? len (b :: payload)) = true).
    { unfold len. cbn [length]. apply Z.ltb_lt. lia. }
    rewrite Hpos.
    assert (Hs1 : sock (self s1) = Some id) by (rewrite Hself1; exact Hs).
    assert (Hrx1' : rx (net s1) = RxData ((b :: payload) ++ []) :: rest).
    { rewrite Hrx1, app_nil_r. reflexivity. }
    destruct (read_scripted fuel s1 id (b :: payload) [] rest Hs1 Hrx1'
                ltac:(discriminate) Hfuel)
      as (s2 & H2 & Hself2 & Hsent2 & Htx2 & Hc2 & Hrx2).
    exists s2. rewrite (bind_Ok_intro _ _ _ _ _ H2). cbn [pktid flags].
    split; [reflexivity | ].
    rewrite Hself2, Hsent2, Htx2, Hc2, Hrx2. auto.
Qed.

(** The fields of a header of four bytes. *)
Lemma header_fields l0 l1 fl id :
  Z.land (Z.shiftr (le_value [l0; l1; fl; id]) 24) 0xFF = byte_val id /\
  Z.land (Z.shiftr (le_value [l0; l1; fl; id]) 16) 0xFF = byte_val fl /\
  Z.land (le_value [l0; l1; fl; id]) 0xFFFF = byte_val l0 + 256 * byte_val l1.
Proof.
  pose proof (byte_val_range l0) as R0. pose proof (byte_val_range l1) as R1.
  pose proof (byte_val_range fl) as R2. pose proof (byte_val_range id) as R3.
  cbn [le_value fold_right].
  change 0xFF with (Z.ones 8). change 0xFFFF with (Z.ones 16).
  rewrite !Z.land_ones, !Z.shiftr_div_pow2 by lia.
  change (2 ^ 8) with 256. change (2 ^ 16) with 65536.
  change (2 ^ 24) with 16777216.
  set (a := byte_val l0) in *. set (b := byte_val l1) in *.
  set (c := byte_val fl) in *. set (d := byte_val id) in *.
  split; [ | split].
  - replace (a + 256 * (b + 256 * (c + 256 * (d + 256 * 0))))
      with (d * 16777216 + (a + 256 * b + 65536 * c)) by lia.
    rewrite Z.div_add_l by lia. rewrite (Z.div_small (a + 256 * b + 65536 * c)) by lia.
    rewrite Z.add_0_r. apply Z.mod_small. lia.
  - replace (a + 256 * (b + 256 * (c + 256 * (d + 256 * 0))))
      with ((c + 256 * d) * 65536 + (a + 256 * b)) by lia.
    rewrite Z.div_add_l by lia. rewrite (Z.div_small (a + 256 * b)) by lia.
    rewrite Z.add_0_r. replace (c + 256 * d) with (c + d * 256) by lia.
    rewrite Z.mod_add by lia. apply Z.mod_small. lia.
  - replace (a + 256 * (b + 256 * (c + 256 * (d + 256 * 0))))
      with ((a + 256 * b) + (c + 256 * d) * 65536) by lia.
    rewrite Z.mod_add by lia. apply Z.mod_small. lia.
Qed.

(** When the next segment is the frame of a packet, [__recv_packet] returns
    the packet. *)
Lemma recv_frame fuel st id l0 l1 fl pid payload rest :
  sock (self st) = Some id ->
  rx (net st) = RxData ([l0; l1; fl; pid] ++ payload) :: rest ->
  byte_val l0 + 256 * byte_val l1 = len payload ->
  (2 <= fuel)%nat ->
  exists st',
    recv_packet fuel st
    = Ok (mkNetDimmPacket (byte_val pid) (byte_val fl) payload) st' /\
    self st' = self st /\
    sent st' = sent st /\
    tx (net st') = tx (net st) /\
    rx (net st') = rest.
Proof.
  intros Hs Hrx Hlen Hfuel.
  destruct (header_fields l0 l1 fl pid) as (F1 & F2 & F3).
  destruct (recv_packet_scripted fuel st id [l0; l1; fl; pid] payload rest Hs Hrx)
    as (st' & H & Hself & Hsent & Htx & _ & Hrx');
    [reflexivity | rewrite F3; exact Hlen | exact Hfuel | ].
  rewrite F1, F2 in H. exists st'. auto.
Qed.

(** ** The host mode *)

Lemma exchange_host_mode_Ok fuel mask_bits set_bits st v st' :
  exchange_host_mode fuel mask_bits set_bits st = Ok v st' ->
  self st' = self st /\
  sent st' = sent st ++ [frame (host_mode_packet mask_bits set_bits)].
Proof.
  intros H. unfold exchange_host_mode in H.
  step_ok H as payload s0 H0. apply of_struct_Ok in H0. destruct H0 as [E ->].
  apply struct_pack_I_Some in E. destruct E as [-> _].
  step_ok H as u1 s1 H1. apply send_packet_Ok in H1.
  step_ok H as response s2 H2. apply recv_packet_Ok in H2.
  destruct H2 as (header & _ & Ht & _).
  destruct (negb (pktid response =? 7)); [discriminate | ].
  destruct (negb (length_ response =? 4)); [discriminate | ].
  step_ok H as w s3 H3. apply of_struct_Ok in H3. destruct H3 as [_ ->].
  apply ret_Ok in H. destruct H as [_ ->].
  destruct H1 as (S1 & B1 & _), Ht as (S2 & B2 & _).
  rewrite S2, S1, B2, B1. auto.
Qed.

(** With a reply [07], of any flags, with four bytes of mode next in line,
    setting the host mode to 1 returns. *)
Lemma set_host_mode_scripted fuel st fl mode rest :
  ready st ->
  rx (net st) = RxData ([x04; x00; fl; x07] ++ mode) :: rest ->
  length mode = 4%nat ->
  (2 <= fuel)%nat ->
  exists st',
    set_host_mode fuel 1 st = Ok tt st' /\
    ready st' /\
    self st' = self st /\
    sent st' = sent st ++ [frame (host_mode_packet 0 1)] /\
    rx (net st') = rest.
Proof.
  intros Hr Hrx Hm Hfuel.
  destruct (send_packet_step (host_mode_packet 0 1) st Hr) as (s1 & H1 & Hr1).
  pose proof (send_packet_Ok _ _ _ _ H1) as (Hself1 & Hsent1 & Hrx1 & Htx1).
  destruct (sock (self s1)) as [id | ] eqn:Hid; [ | destruct Hr1; congruence].
  destruct (recv_frame fuel s1 id x04 x00 fl x07 mode rest Hid)
    as (s2 & H2 & Hself2 & Hsent2 & Htx2 & Hrx2);
    [rewrite Hrx1; exact Hrx | | exact Hfuel | ].
  { unfold len. rewrite Hm. reflexivity. }
  exists s2.
  assert (Hrun : set_host_mode fuel 1 st = Ok tt s2).
  { unfold set_host_mode, exchange_host_mode.
    change (struct_pack_I (Z.lor (Z.shiftl (Z.land 0 255) 8) (Z.land 1 255)))
      with (Some (le_bytes 4 (Z.lor (Z.shiftl (Z.land 0 255) 8) (Z.land 1 255)))).
    cbn [of_struct]. unfold bind at 2. cbn [ret].
    fold (host_mode_packet 0 1).
    unfold bind at 1. rewrite (bind_Ok_intro _ _ _ _ _ H1).
    rewrite (bind_Ok_intro _ _ _ _ _ H2).
    unfold length_. cbn [pktid data].
    change (byte_val x07 =? 7) with true.
    assert (E4 : (len mode =? 4) = true) by (unfold len; rewrite Hm; reflexivity).
    rewrite E4. cbn [negb].
    rewrite (struct_unpack_I_4 mode Hm). reflexivity. }
  split; [exact Hrun | ].
  split; [ | split; [ | split]].
  - destruct Hr1 as [_ Ht1]. split; [congruence | ].
    unfold tx_ok in *. rewrite Htx2. exact Ht1.
  - rewrite Hself2. exact Hself1.
  - rewrite Hsent2. exact Hsent1.
  - exact Hrx2.
Qed.

(** ** Device information *)

Lemma get_information_decodes fuel st s1 fl s2 :
  send_packet get_info_packet st = Ok tt s1 ->
  recv_packet fuel s1 = Ok (mkNetDimmPacket 0x18 fl info_payload) s2 ->
  get_information fuel st
  = Ok (mkNetDimmInfo 0xEFBEADDE 0x0200 TARGET_VERSION_UNKNOWN (Z.shiftl 0x0100 20))
       s2.
Proof.
  intros H1 H2. unfold get_information. fold get_info_packet.
  rewrite (bind_Ok_intro _ _ _ _ _ H1), (bind_Ok_intro _ _ _ _ _ H2).
  reflexivity.
Qed.

(** C5, as amended.  When the reply to get-info is a packet 0x18 with the
    payload [34 12][0C 03][00 01][00 02][DE AD BE EF], [info] returns the
    firmware Unknown (the version reads "3.12", which is no known tag), the
    memory size 0x0200, the game CRC 0xEFBEADDE, and the available game
    memory 0x0100 << 20, which is 256 MiB: whenever get-info has received
    that packet, and in particular when the connection is made, no send
    raises and the reply is next in line. *)
Theorem info_decodes_reply fuel st fl rest :
  (forall s1 s2 flags,
     send_packet get_info_packet st = Ok tt s1 ->
     recv_packet fuel s1 = Ok (mkNetDimmPacket 0x18 flags info_payload) s2 ->
     get_information fuel st
     = Ok (mkNetDimmInfo 0xEFBEADDE 0x0200 TARGET_VERSION_UNKNOWN 0x10000000) s2) /\
  (connect_ok (net st) = true ->
   tx_ok st ->
   rx (net st) = RxData ([x0c; x00; fl; x18] ++ info_payload) :: rest ->
   (2 <= fuel)%nat ->
   exists st',
     info fuel st
     = Ok (mkNetDimmInfo 0xEFBEADDE 0x0200 TARGET_VERSION_UNKNOWN 0x10000000) st' /\
     sock (self st') = None) /\
  version_str 0x030C = "3.12"%string /\
  TargetVersionEnum_of_value "3.12" = None /\
  0x10000000 = Z.shiftl 0x0100 20 /\
  0x10000000 = 256 * 2 ^ 20.
Proof.
  split; [ | split; [ | repeat split]].
  - intros s1 s2 flags H1 H2.
    apply (get_information_decodes fuel st s1 flags s2 H1 H2).
  - intros Hc Ht Hrx Hfuel.
    assert (R0 : ready (opened st true)) by (split; [discriminate | exact Ht]).
    destruct (send_packet_step startup_packet _ R0) as (s0 & H0 & Rs0).
    pose proof (send_packet_Ok _ _ _ _ H0) as (Hself0 & _ & Hrx0 & _).
    destruct (send_packet_step get_info_packet _ Rs0) as (s1 & H1 & Rs1).
    pose proof (send_packet_Ok _ _ _ _ H1) as (Hself1 & _ & Hrx1 & _).
    destruct (sock (self s1)) as [id | ] eqn:Hid; [ | destruct Rs1; congruence].
    destruct (recv_frame fuel s1 id x0c x00 fl x18 info_payload rest Hid)
      as (s2 & H2 & Hself2 & _ & _ & _);
      [rewrite Hrx1, Hrx0; exact Hrx | reflexivity | exact Hfuel | ].
    exists (released s2 id). split; [ | reflexivity].
    unfold info. eapply connection_total; [exact Hc | exact H0 | | ].
    + apply (get_information_decodes fuel s0 s1 (byte_val fl) s2 H1 H2).
    + rewrite Hself2. exact Hid.
Qed.

(** ** Sending a payload *)

Section Send.

Variable des_block : bytes -> bytes -> bytes.

Lemma bind_Raise_intro {A B : Type} (m : M A) (f : A -> M B) st e st1 :
  m st = Raise e st1 -> bind m f st = Raise e st1.
Proof. unfold bind. intros ->. reflexivity. Qed.

Lemma bind_bind_Ok {A B C : Type} (m : M A) (k : A -> M B) (f : B -> M C)
    st b s2 :
  bind m k st = Ok b s2 -> bind m (fun a => bind (k a) f) st = f b s2.
Proof.
  unfold bind. destruct (m st) as [a s1 | e s1 | ]; try discriminate.
  intros ->. reflexivity.
Qed.

(** A [send] that returns has sent, in order: startup, host mode 1, the key
    code, the chunks, set-info. *)
Lemma send_Ok fuel data key cb st u st' :
  send des_block fuel data key cb st = Ok u st' ->
  let n := nchunks (len data) in
  let des := engine key in
  sent st' = sent st
    ++ map frame [startup_packet; host_mode_packet 0 1;
                  key_code_packet (key_code key)]
    ++ map (upload_frame des_block des data n) (seq 0 n)
    ++ [frame (set_info_packet
                 (Z.land (Z.lnot (upload_crc des_block des data)) 0xFFFFFFFF)
                 (len data))] /\
  sock (self st') = None /\
  (forall k, key = Some k -> k <> [] -> length k = 8%nat /\ len data mod 8 = 0).
Proof.
  intros H n des. unfold send in H. apply connection_Ok in H.
  destruct H as (_ & s0 & s4 & id & H0 & Hb & _ & ->).
  step_ok Hb as u1 s1 H1.
  assert (B1 : self s1 = self s0 /\ sent s1 = sent s0).
  { destruct cb as [f | ].
    - apply call_progress_Ok in H1. destruct H1 as (E1 & E2 & _).
      rewrite app_nil_r in E2. auto.
    - apply ret_Ok in H1. destruct H1 as [_ ->]. auto. }
  clear H1. destruct B1 as [S1 B1].
  step_ok Hb as u2 t2 H2. unfold set_host_mode in H2.
  step_ok H2 as v s2 H2'. apply ret_Ok in H2. destruct H2 as [_ ->].
  apply exchange_host_mode_Ok in H2'. destruct H2' as [S2 B2].
  step_ok Hb as u3 s3 H3.
  assert (B3 : adds s2 s3 [frame (key_code_packet (key_code key))]).
  { unfold key_code. destruct key as [k | ].
    - destruct (truthy (Some k)); apply set_key_code_Ok in H3; apply H3.
    - apply set_key_code_Ok in H3. apply H3. }
  clear H3.
  pose proof Hb as Hup. apply upload_file_Ok in Hup.
  destruct Hup as (B4 & _ & _ & _). fold n des in B4.
  split; [ | split].
  - rewrite sent_released.
    destruct B4 as (_ & -> & _), B3 as (_ & -> & _). rewrite B2, B1.
    destruct H0 as (_ & -> & _). rewrite sent_opened.
    cbn [map]. rewrite <- !app_assoc. reflexivity.
  - reflexivity.
  - intros k -> Hk. eapply upload_file_Ok_aligned; [ | exact Hb].
    destruct k; [congruence | reflexivity].
Qed.

(** The steps of [send] before the upload, on a network that lets them
    through. *)
Lemma send_prologue fuel (data : bytes) cb st fl mode rest :
  connect_ok (net st) = true ->
  tx_ok st ->
  callback_ok cb ->
  rx (net st) = RxData ([x04; x00; fl; x07] ++ mode) :: rest ->
  length mode = 4%nat ->
  (2 <= fuel)%nat ->
  exists s0 s2,
    startup (opened st true) = Ok tt s0 /\
    (match cb with
     | Some f => call_progress f 0 (len data)
     | None => ret tt
     end ;;
     set_host_mode fuel 1) s0 = Ok tt s2 /\
    ready s2 /\
    self s2 = self (opened st true) /\
    sent s2 = sent st ++ map frame [startup_packet; host_mode_packet 0 1].
Proof.
  intros Hc Ht Hcb Hrx Hm Hfuel.
  assert (R0 : ready (opened st true)) by (split; [discriminate | exact Ht]).
  destruct (send_packet_step startup_packet _ R0) as (s0 & H0 & Rs0).
  pose proof (send_packet_Ok _ _ _ _ H0) as (Hself0 & Hsent0 & Hrx0 & _).
  assert (H1 : exists s1,
    match cb with
    | Some f => call_progress f 0 (len data)
    | None => ret tt
    end s0 = Ok tt s1 /\ adds s0 s1 []).
  { destruct cb as [f | ].
    - eexists. split; [apply call_progress_total; eapply Hcb; reflexivity | ].
      eapply call_progress_Ok. apply call_progress_total.
      eapply Hcb; reflexivity.
    - exists s0. split; [reflexivity | apply adds_refl]. }
  destruct H1 as (s1 & H1 & A1).
  pose proof (ready_step _ _ _ A1 Rs0) as Rs1.
  destruct A1 as (Hself1 & Hsent1 & Hrx1 & _).
  destruct (set_host_mode_scripted fuel s1 fl mode rest Rs1)
    as (s2 & H2 & Rs2 & Hself2 & Hsent2 & _);
    [rewrite Hrx1, Hrx0; exact Hrx | exact Hm | exact Hfuel | ].
  exists s0, s2. split; [exact H0 | ].
  split; [rewrite (bind_Ok_intro _ _ _ _ _ H1); exact H2 | ].
  split; [exact Rs2 | ].
  split; [rewrite Hself2, Hself1; exact Hself0 | ].
  rewrite Hsent2, Hsent1, Hsent0, sent_opened, app_nil_r.
  cbn [map]. rewrite <- app_assoc. reflexivity.
Qed.

Lemma callback_ok_default (cb : option Callback) :
  callback_ok cb ->
  callback_ok (Some (match cb with
                     | Some f => f
                     | None => fun _cur _tot => true
                     end)).
Proof.
  intros H f E. inversion E; subst f. destruct cb as [g | ].
  - apply H. reflexivity.
  - reflexivity.
Qed.

Lemma key_code_fits key data : key_fits key data -> len (key_code key) = 8.
Proof.
  intros [Hf | (k & -> & Hk & _)].
  - unfold key_code. destruct key as [k | ]; [rewrite Hf | ]; reflexivity.
  - unfold key_code.
    assert (Et : truthy (Some k) = true) by (destruct k; [discriminate | reflexivity]).
    rewrite Et. unfold len. rewrite Hk. reflexivity.
Qed.

Lemma set_key_code_key key st :
  match key with
  | Some k => if truthy key then set_key_code k else set_key_code (repeat x00 8)
  | None => set_key_code (repeat x00 8)
  end st = set_key_code (key_code key) st.
Proof.
  unfold key_code. destruct key as [k | ]; [ | reflexivity].
  destruct (truthy (Some k)); reflexivity.
Qed.

(** [send] returns when the connection is made, no send raises, the callback
    returns, the host-mode reply is next in line, and the payload fits the
    key and is below 4 GiB. *)
Lemma send_total fuel data key cb st fl mode rest :
  connect_ok (net st) = true ->
  tx_ok st ->
  callback_ok cb ->
  rx (net st) = RxData ([x04; x00; fl; x07] ++ mode) :: rest ->
  length mode = 4%nat ->
  key_fits key data ->
  len data < 2 ^ 32 ->
  (2 <= fuel)%nat -> (nchunks (len data) < fuel)%nat ->
  exists st', send des_block fuel data key cb st = Ok tt st'.
Proof.
  intros Hc Ht Hcb Hrx Hm Hfit Hbig Hfuel Hfuel'.
  destruct (send_prologue fuel data cb st fl mode rest Hc Ht Hcb Hrx Hm Hfuel)
    as (s0 & s2 & H0 & H2 & Rs2 & Hself2 & _).
  assert (H3 : exists s3, set_key_code (key_code key) s2 = Ok tt s3 /\ ready s3).
  { unfold set_key_code. rewrite (key_code_fits key data Hfit). cbn [Z.eqb negb].
    change (8 =? 8) with true. cbn [negb].
    apply send_packet_step, Rs2. }
  destruct H3 as (s3 & H3 & [Hs3 Ht3]).
  destruct (upload_file_total des_block fuel data key
              (Some (match cb with Some f => f | None => fun _ _ => true end)) s3)
    as (s4 & H4); try assumption.
  { apply callback_ok_default, Hcb. }
  pose proof (upload_file_Ok _ _ _ _ _ _ _ _ H4) as ((Hself4 & _) & _).
  destruct (sock (self s4)) as [id | ] eqn:Hid; [ | congruence].
  exists (released s4 id). unfold send.
  eapply connection_total; [exact Hc | exact H0 | | exact Hid].
  rewrite (bind_bind_Ok _ _ _ _ _ _ H2).
  unfold bind at 1. rewrite set_key_code_key, H3. exact H4.
Qed.

(** C10. For the empty payload the upload sends no chunk, only set-info with
    the CRC 0xFFFFFFFF (the inverse of the CRC 0 nothing was folded into) and
    the length 0; and [send] returns, having sent startup, host mode 1, the
    key code and that set-info, when the connection is made, no send raises,
    the callback returns, the host-mode reply is next in line, and the key is
    absent, empty or of 8 bytes. *)
Theorem send_empty_payload fuel key cb st fl mode rest :
  0xFFFFFFFF = Z.land (Z.lnot 0) 0xFFFFFFFF /\
  (forall s s',
     upload_file des_block fuel [] key cb s = Ok tt s' ->
     sent s' = sent s ++ [frame (set_info_packet 0xFFFFFFFF 0)]) /\
  (connect_ok (net st) = true ->
   tx_ok st ->
   callback_ok cb ->
   rx (net st) = RxData ([x04; x00; fl; x07] ++ mode) :: rest ->
   length mode = 4%nat ->
   truthy key = false \/ (exists k, key = Some k /\ length k = 8%nat) ->
   (2 <= fuel)%nat ->
   exists st',
     send des_block fuel [] key cb st = Ok tt st' /\
     sent st' = sent st
       ++ map frame [startup_packet; host_mode_packet 0 1;
                     key_code_packet (key_code key);
                     set_info_packet 0xFFFFFFFF 0] /\
     sock (self st') = None).
Proof.
  split; [reflexivity | split].
  - intros s s' H. apply upload_file_Ok in H.
    destruct H as ((_ & Hsent & _) & _). exact Hsent.
  - intros Hc Ht Hcb Hrx Hm Hkey Hfuel.
    assert (Hfit : key_fits key []).
    { destruct Hkey as [Hf | (k & -> & Hk)]; [left; exact Hf | right].
      exists k. auto. }
    destruct (send_total fuel [] key cb st fl mode rest) as [st' H];
      try assumption; [reflexivity | change (nchunks (len (@nil byte))) with O; lia | ].
    exists st'. split; [exact H | ].
    apply send_Ok in H. destruct H as (Hsent & Hs & _).
    split; [ | exact Hs]. rewrite Hsent. reflexivity.
Qed.

(** An engine and a payload that is not a whole number of blocks: the loop
    uploads every chunk but the last and raises [ValueError] there. *)
Lemma upload_loop_unaligned e cb data fuel :
  forall (k : nat) crc addr sequence st,
    addr = Z.min (0x8000 * Z.of_nat k) (len data) ->
    sequence = Z.of_nat k + 1 ->
    ready st -> callback_ok cb ->
    len data < 2 ^ 32 -> len data mod 8 <> 0 ->
    (k < nchunks (len data))%nat ->
    (nchunks (len data) - k <= fuel)%nat ->
    exists st',
      upload_loop des_block fuel data (len data) (Some e) cb crc addr sequence st
      = Raise ValueError st' /\
      adds st st'
        (map (upload_frame des_block (Some e) data (nchunks (len data)))
             (seq k (nchunks (len data) - 1 - k))).
Proof.
  induction fuel as [ | fuel IH];
    intros k crc addr sequence st Ha Hq Hr Hcb Hbig Hodd Hk Hfuel; [lia | ].
  cbn [upload_loop].
  pose proof (len_nonneg data) as Hlen.
  pose proof (proj1 (nchunks_lt (len data) k Hlen) Hk) as Hlt.
  assert (Haddr : addr = 0x8000 * Z.of_nat k) by lia.
  assert (E : (addr <? len data) = true) by (apply Z.ltb_lt; lia).
  rewrite E.
  erewrite bind_Ok_intro; [ | reflexivity].
  assert (Hstep1 : exists s1,
    match cb with
    | Some f => call_progress f addr (len data)
    | None => ret tt
    end st = Ok tt s1 /\ adds st s1 []).
  { destruct cb as [f | ].
    - eexists. split; [apply call_progress_total; eapply Hcb; reflexivity | ].
      eapply call_progress_Ok. apply call_progress_total.
      eapply Hcb; reflexivity.
    - exists st. split; [reflexivity | apply adds_refl]. }
  destruct Hstep1 as (s1 & H1 & A1).
  pose proof (ready_step _ _ _ A1 Hr) as Hr1.
  erewrite bind_Ok_intro; [ | exact H1].
  assert (Hchunk : slice data addr (addr + 0x8000) = chunk_at data k).
  { unfold chunk_at. rewrite Haddr. reflexivity. }
  rewrite Hchunk.
  destruct (Nat.eq_dec (S k) (nchunks (len data))) as [Elast | Nlast].
  - destruct (chunk_len_last data k Elast) as [Ec _].
    assert (Hnone : encrypt des_block (Some e) (chunk_at data k) = None).
    { rewrite encrypt_engine, Ec.
      replace (len data - 0x8000 * Z.of_nat k)
        with (len data + (- 4096 * Z.of_nat k) * 8) by lia.
      rewrite Z.mod_add by lia.
      destruct (len data mod 8 =? 0) eqn:E0; [lia | reflexivity]. }
    rewrite Hnone. exists s1. split; [reflexivity | ].
    replace (nchunks (len data) - 1 - k)%nat with O by lia. exact A1.
  - assert (Hfull : (S k < nchunks (len data))%nat) by lia.
    pose proof (chunk_len_full data k Hfull) as Ec.
    pose proof (proj1 (nchunks_lt (len data) (S k) Hlen) Hfull) as Hlt'.
    assert (Hsome : encrypt des_block (Some e) (chunk_at data k)
                    = Some (ciphertext des_block (Some e) data k)).
    { apply ciphertext_Some. rewrite encrypt_engine, Ec. discriminate. }
    rewrite Hsome. erewrite bind_Ok_intro; [ | reflexivity].
    rewrite Ec.
    assert (Hflag : (addr + 32768 =? len data) = Nat.eqb (S k) (nchunks (len data))).
    { destruct (Nat.eqb_spec (S k) (nchunks (len data))); [lia | ].
      apply Z.eqb_neq. lia. }
    rewrite Hflag.
    destruct Hr1 as [Hs1 Ht1].
    destruct (upload_total sequence addr (ciphertext des_block (Some e) data k)
                (Nat.eqb (S k) (nchunks (len data))) s1) as [s3 H3];
      [lia | lia | exact Hs1 | exact Ht1 | ].
    erewrite bind_Ok_intro; [ | exact H3].
    apply upload_Ok in H3. destruct H3 as (Hup & _ & _).
    pose proof (ready_step _ _ _ Hup (conj Hs1 Ht1)) as Hr3.
    destruct (IH (S k) (zlib_crc32 (ciphertext des_block (Some e) data k) crc)
                (addr + 32768) (sequence + 1) s3) as (st' & Hrun & Hrest);
      try assumption; try lia.
    exists st'. split; [exact Hrun | ].
    replace (nchunks (len data) - 1 - k)%nat
      with (S (nchunks (len data) - 1 - S k)) by lia.
    cbn [seq map].
    change (upload_frame des_block (Some e) data (nchunks (len data)) k
              :: map (upload_frame des_block (Some e) data (nchunks (len data)))
                   (seq (S k) (nchunks (len data) - 1 - S k)))
      with (([] ++ [upload_frame des_block (Some e) data (nchunks (len data)) k])
              ++ map (upload_frame des_block (Some e) data (nchunks (len data)))
                   (seq (S k) (nchunks (len data) - 1 - S k))).
    eapply adds_trans; [ | exact Hrest].
    eapply adds_trans; [exact A1 | ].
    unfold upload_frame. rewrite Haddr, Hq in Hup. exact Hup.
Qed.

Lemma upload_file_unaligned fuel data K cb st :
  length K = 8%nat ->
  ready st -> callback_ok cb ->
  len data < 2 ^ 32 -> len data mod 8 <> 0 ->
  (nchunks (len data) <= fuel)%nat ->
  exists st',
    upload_file des_block fuel data (Some K) cb st = Raise ValueError st' /\
    adds st st'
      (map (upload_frame des_block (Some (rev K)) data (nchunks (len data)))
           (seq 0 (nchunks (len data) - 1))).
Proof.
  intros HK Hr Hcb Hbig Hodd Hfuel.
  assert (Hne : data <> []) by (intros ->; apply Hodd; reflexivity).
  pose proof (nchunks_pos data Hne) as Hn.
  destruct (upload_loop_unaligned (rev K) cb data fuel 0 0 0 1 st)
    as (st' & H & Hadds); try assumption; try reflexivity; try lia.
  { pose proof (len_nonneg data). lia. }
  exists st'. rewrite Nat.sub_0_r in Hadds. split; [ | exact Hadds].
  unfold upload_file.
  assert (Et : truthy (Some K) = true) by (destruct K; [discriminate | reflexivity]).
  rewrite Et. unfold DES_new. rewrite length_rev, HK. cbn [Nat.eqb of_crypto].
  unfold bind at 2. cbn [ret]. unfold bind at 1. cbn [ret].
  apply bind_Raise_intro. exact H.
Qed.

End Send.

(** ** Reading at the end of the stream *)

Lemma rx_recv_clean n script :
  rx_clean script ->
  exists bs later,
    rx_recv n script = (Some bs, later) /\
    rx_clean later /\
    (rx_total later + length bs = rx_total script)%nat.
Proof.
  induction script as [ | e script IH]; intros Hc.
  - exists [], []. cbn. auto.
  - inversion Hc as [ | ? ? He Hrest]; subst.
    destruct e as [seg | ]; [ | congruence].
    destruct seg as [ | b seg].
    + destruct (IH Hrest) as (bs & later & E & Hl & Ht).
      exists bs, later. cbn [rx_recv rx_total length]. auto.
    + cbn [rx_recv rx_total].
      exists (firstn n (b :: seg)).
      pose proof (firstn_skipn n (b :: seg)) as Hfs.
      apply (f_equal (@length byte)) in Hfs. rewrite length_app in Hfs.
      destruct (skipn n (b :: seg)) as [ | x tail] eqn:Es.
      * exists script. split; [reflexivity | split; [exact Hrest | ]].
        cbn [length] in *. lia.
      * exists (RxData (x :: tail) :: script).
        split; [reflexivity | split].
        -- constructor; [discriminate | exact Hrest].
        -- cbn [rx_total length] in *. lia.
Qed.

Lemma read_loop_starves fuel id :
  forall left res st,
    rx_clean (rx (net st)) ->
    Z.of_nat (rx_total (rx (net st))) < left ->
    read_loop fuel id left res st = OutOfFuel.
Proof.
  induction fuel as [ | fuel IH]; intros left res st Hc Hlt; [reflexivity | ].
  cbn [read_loop].
  assert (E : (0 <? left) = true) by (apply Z.ltb_lt; lia).
  rewrite E. unfold bind, socket_recv. cbv zeta.
  destruct (rx_recv_clean (Z.to_nat left) (rx (net st)) Hc)
    as (bs & later & Er & Hl & Ht).
  rewrite Er. apply IH.
  - exact Hl.
  - cbn [net with_net rx]. unfold len. lia.
Qed.

(** C8, on the code.  When the peer closes before [num] bytes have come (the
    script holds fewer bytes and no error), [__read] never returns and never
    raises: no amount of fuel is enough. *)
Theorem read_never_ends_at_eof fuel num st id :
  sock (self st) = Some id ->
  rx_clean (rx (net st)) ->
  Z.of_nat (rx_total (rx (net st))) < num ->
  read fuel num st = OutOfFuel.
Proof.
  intros Hs Hc Hlt. unfold read, bind at 1, get_sock. rewrite Hs.
  unfold bind. rewrite (read_loop_starves fuel id num [] st Hc Hlt).
  reflexivity.
Qed.

(** ** Writing *)

(** C9, on the code.  When the socket takes only [k] bytes of a frame,
    [__send_packet] returns all the same, after that one [send]: the rest of
    the frame never reaches the wire. *)
Theorem send_packet_never_retries p st id k later :
  sock (self st) = Some id ->
  tx (net st) = Some k :: later ->
  1 <= k < len (frame p) ->
  exists st',
    send_packet p st = Ok tt st' /\
    events (net st') = events (net st) ++ [EvSend id (frame p) k] /\
    wire (events (net st'))
    = wire (events (net st)) ++ firstn (Z.to_nat k) (frame p) /\
    len (firstn (Z.to_nat k) (frame p)) = k.
Proof.
  intros Hs Ht Hk. unfold send_packet, bind at 1, get_sock. rewrite Hs.
  rewrite struct_pack_I_small by apply header_word_range.
  cbn [of_struct]. unfold bind at 1. cbn [ret].
  fold (frame p). unfold bind, socket_send. cbv zeta. rewrite Ht.
  assert (Ea : tx_accept k (frame p) = k) by (unfold tx_accept; lia).
  assert (El : len (firstn (Z.to_nat k) (frame p)) = k).
  { unfold len in *. rewrite length_firstn. lia. }
  rewrite Ea. eexists. split; [reflexivity | ].
  split; [reflexivity | split; [ | exact El]].
  cbn [net with_net events]. rewrite wire_app. cbn [wire].
  rewrite app_nil_r. reflexivity.
Qed.

(** ** Closing the socket *)

(** C6, on the code.  When the connection is refused, each of [info], [send]
    and [reboot] raises with the socket it created neither closed nor
    dropped: [self.sock] still holds it and the log ends with the failed
    connect. *)
Theorem refused_connection_leaves_socket des_block fuel data key cb st :
  connect_ok (net st) = false ->
  let id := next_id (net st) in
  let st' := opened st false in
  info fuel st = Raise (NetDimmException "Could not connect to NetDimm") st' /\
  send des_block fuel data key cb st
  = Raise (NetDimmException "Could not connect to NetDimm") st' /\
  reboot st = Raise (NetDimmException "Could not connect to NetDimm") st' /\
  sock (self st') = Some id /\
  events (net st') = events (net st) ++ [EvSocket id; EvConnect id false] /\
  closes id (events (net st')) = closes id (events (net st)).
Proof.
  intros Hc id st'.
  split; [apply connection_refused, Hc | ].
  split; [apply connection_refused, Hc | ].
  split; [apply connection_refused, Hc | ].
  split; [reflexivity | ].
  split.
  - cbn. rewrite <- app_assoc. reflexivity.
  - cbn. rewrite !closes_app. cbn. lia.
Qed.

(** Past a connection that was made, the socket is closed exactly once. *)

Lemma keeps_ret {A : Type} (a : A) : keeps_socket (ret a).
Proof. intros st. cbn. auto. Qed.

Lemma keeps_raise {A : Type} e : keeps_socket (@raise A e).
Proof. intros st. cbn. auto. Qed.

Lemma keeps_out_of_fuel {A : Type} : keeps_socket (@out_of_fuel A).
Proof. intros st. exact I. Qed.

Lemma keeps_bind {A B : Type} (m : M A) (f : A -> M B) :
  keeps_socket m -> (forall a, keeps_socket (f a)) -> keeps_socket (bind m f).
Proof.
  intros Hm Hf st. unfold bind. specialize (Hm st).
  destruct (m st) as [a s1 | e s1 | ]; [ | exact Hm | exact I].
  specialize (Hf a s1). destruct Hm as [S1 C1].
  destruct (f a s1) as [b s2 | e s2 | ]; [ | | exact I];
    destruct Hf as [S2 C2]; (split; [congruence | ]);
    intros id; rewrite C2; apply C1.
Qed.

Lemma keeps_of_struct {A : Type} (o : option A) : keeps_socket (of_struct o).
Proof. destruct o; [apply keeps_ret | apply keeps_raise]. Qed.

Lemma keeps_of_crypto {A : Type} (o : option A) : keeps_socket (of_crypto o).
Proof. destruct o; [apply keeps_ret | apply keeps_raise]. Qed.

Lemma keeps_get_sock : keeps_socket get_sock.
Proof. intros st. cbn. auto. Qed.

Lemma keeps_socket_send id buf : keeps_socket (socket_send id buf).
Proof.
  intros st. unfold socket_send. cbv zeta.
  destruct (tx (net st)) as [ | [k | ] later]; cbn; (split; [reflexivity | ]);
    intros i; rewrite closes_app; cbn; lia.
Qed.

Lemma keeps_socket_recv id n : keeps_socket (socket_recv id n).
Proof.
  intros st. unfold socket_recv. cbv zeta.
  destruct (rx_recv (Z.to_nat n) (rx (net st))) as [[bs | ] later]; cbn;
    (split; [reflexivity | ]); intros i; rewrite closes_app; cbn; lia.
Qed.

Lemma keeps_call_progress cb cur tot : keeps_socket (call_progress cb cur tot).
Proof.
  intros st. unfold call_progress. cbv zeta.
  destruct (cb cur tot); cbn; (split; [reflexivity | ]);
    intros i; rewrite closes_app; cbn; lia.
Qed.

Create HintDb keeps.

#[local] Hint Resolve keeps_ret keeps_raise keeps_out_of_fuel keeps_of_struct
  keeps_of_crypto keeps_get_sock keeps_socket_send keeps_socket_recv
  keeps_call_progress : keeps.

(** Takes a sequence of steps apart, down to the steps already known. *)
Ltac keeps :=
  repeat first
    [ solve [auto with keeps]
    | apply keeps_bind; [ | intros ? ]
    | match goal with
      | |- keeps_socket (if ?b then _ else _) => destruct b
      | |- keeps_socket (match ?x with _ => _ end) => destruct x
      | |- keeps_socket (let '(_, _) := ?x in _) => destruct x
      end ].

Lemma keeps_read_loop fuel id :
  forall left res, keeps_socket (read_loop fuel id left res).
Proof.
  induction fuel as [ | fuel IH]; intros left res; cbn [read_loop]; keeps.
Qed.

#[local] Hint Resolve keeps_read_loop : keeps.

Lemma keeps_read fuel num : keeps_socket (read fuel num).
Proof. unfold read. keeps. Qed.

Lemma keeps_send_packet p : keeps_socket (send_packet p).
Proof. unfold send_packet. keeps. Qed.

#[local] Hint Resolve keeps_read keeps_send_packet : keeps.

Lemma keeps_recv_packet fuel : keeps_socket (recv_packet fuel).
Proof. unfold recv_packet. keeps. Qed.

#[local] Hint Resolve keeps_recv_packet : keeps.

Lemma keeps_exchange_host_mode fuel m s : keeps_socket (exchange_host_mode fuel m s).
Proof. unfold exchange_host_mode. keeps. Qed.

Lemma keeps_set_key_code k : keeps_socket (set_key_code k).
Proof. unfold set_key_code. keeps. Qed.

Lemma keeps_upload q a d l : keeps_socket (upload q a d l).
Proof. unfold upload. keeps. Qed.

Lemma keeps_set_information c l : keeps_socket (set_information c l).
Proof. unfold set_information. keeps. Qed.

Lemma keeps_host_poke4 a v : keeps_socket (host_poke4 a v).
Proof. unfold host_poke4. keeps. Qed.

Lemma keeps_set_time_limit m : keeps_socket (set_time_limit m).
Proof. unfold set_time_limit. keeps. Qed.

Lemma keeps_get_information fuel : keeps_socket (get_information fuel).
Proof. unfold get_information. keeps. Qed.

#[local] Hint Resolve keeps_exchange_host_mode keeps_set_key_code keeps_upload
  keeps_set_information keeps_host_poke4 keeps_set_time_limit : keeps.

Lemma keeps_patch_boot_id_check : keeps_socket patch_boot_id_check.
Proof.
  intros st. unfold patch_boot_id_check.
  destruct (patch_addr (version (self st))) as [addr | ]; [ | cbn; auto].
  destruct (TargetVersionEnum_eqb (version (self st)) TARGET_VERSION_3_01).
  - apply keeps_host_poke4.
  - assert (K : keeps_socket
                  (host_poke4 (addr + 0) 0x4e800020 ;;
                   host_poke4 (addr + 4) 0x38600000 ;;
                   host_poke4 (addr + 8) 0x4e800020 ;;
                   host_poke4 (addr + 12) 0x60000000)) by keeps.
    apply K.
Qed.

Lemma keeps_reboot_body :
  keeps_socket
    (restart ;;
     set_time_limit 10 ;;
     fun st =>
       if TargetEnum_eqb (target (self st)) TARGET_TRIFORCE
       then patch_boot_id_check st
       else ret tt st).
Proof.
  unfold restart. keeps. intros st.
  destruct (TargetEnum_eqb (target (self st)) TARGET_TRIFORCE).
  - apply keeps_patch_boot_id_check.
  - cbn. auto.
Qed.

Lemma keeps_upload_loop des_block fuel data total des cb :
  forall crc addr sequence,
    keeps_socket (upload_loop des_block fuel data total des cb crc addr sequence).
Proof.
  induction fuel as [ | fuel IH]; intros crc addr sequence; cbn [upload_loop].
  - apply keeps_out_of_fuel.
  - unfold print_. keeps.
Qed.

#[local] Hint Resolve keeps_upload_loop : keeps.

Lemma keeps_upload_file des_block fuel data key cb :
  keeps_socket (upload_file des_block fuel data key cb).
Proof.
  unfold upload_file, print_. keeps.
Qed.

#[local] Hint Resolve keeps_upload_file : keeps.

Lemma keeps_send_body des_block fuel (data : bytes) key cb :
  keeps_socket
    (match cb with
     | Some f => call_progress f 0 (len data)
     | None => ret tt
     end ;;
     set_host_mode fuel 1 ;;
     match key with
     | Some k =>
         if truthy key then set_key_code k
         else set_key_code (repeat x00 8)
     | None => set_key_code (repeat x00 8)
     end ;;
     upload_file des_block fuel data key
       (Some (match cb with
              | Some f => f
              | None => fun _cur _tot => true
              end))).
Proof.
  unfold set_host_mode. keeps.
Qed.

(** Once the connection is made, a session whose body keeps the socket ends,
    by a return or by an exception, with the socket closed exactly once and
    [self.sock] cleared. *)
Lemma session_closes_once {A : Type} (body : M A) st :
  connect_ok (net st) = true ->
  keeps_socket body ->
  let id := next_id (net st) in
  match connection body st with
  | Ok _ st' | Raise _ st' =>
      sock (self st') = None /\
      closes id (events (net st')) = S (closes id (events (net st)))
  | OutOfFuel => True
  end.
Proof.
  intros Hc Hb id. rewrite (connection_accepted body st Hc).
  assert (K : keeps_socket (startup ;; body)).
  { unfold startup. keeps. }
  specialize (K (opened st true)). unfold try_finally.
  assert (Hop : closes id (events (net (opened st true)))
                = closes id (events (net st))).
  { cbn. rewrite !closes_app. cbn. lia. }
  destruct ((startup ;; body) (opened st true)) as [a s2 | e s2 | ];
    [ | | exact I]; destruct K as [S2 C2];
    rewrite (finally_released s2 id) by (rewrite S2; reflexivity);
    (split; [reflexivity | ]);
    cbn [released with_sock with_net net log_event events];
    rewrite closes_app, C2, Hop; cbn [closes]; rewrite Nat.eqb_refl; lia.
Qed.

(** X14. Once the connection is made, [info], [send] and [reboot] end, by a
    return or by whatever exception, with the socket closed exactly once and
    [self.sock] cleared. *)
Lemma operations_close_once des_block fuel data key cb st :
  connect_ok (net st) = true ->
  let id := next_id (net st) in
  let closed_once {A : Type} (o : Outcome A) :=
    match o with
    | Ok _ st' | Raise _ st' =>
        sock (self st') = None /\
        closes id (events (net st')) = S (closes id (events (net st)))
    | OutOfFuel => True
    end in
  closed_once (info fuel st) /\
  closed_once (send des_block fuel data key cb st) /\
  closed_once (reboot st).
Proof.
  intros Hc id closed_once. unfold closed_once. split; [ | split].
  - apply (session_closes_once _ st Hc), keeps_get_information.
  - apply (session_closes_once _ st Hc), keeps_send_body.
  - apply (session_closes_once _ st Hc), keeps_reboot_body.
Qed.

(** * The statements at sample inputs *)

(** An upload of the block 00..07 under the key 01..08, with the stand-in
    cipher, on a connected driver. *)
Lemma upload_file_reports_crc_and_length_witness :
  exists st',
    upload_file xor_block 2 block_00_07 (Some key_01_08) None connected_state
    = Ok tt st' /\
    sent st' = sent connected_state
      ++ map (upload_frame xor_block (engine (Some key_01_08)) block_00_07 1)
           (seq 0 1)
      ++ [frame (set_info_packet
                   (Z.land
                      (Z.lnot
                         (zlib_crc32
                            (ciphertext xor_block (engine (Some key_01_08))
                               block_00_07 0) 0))
                      0xFFFFFFFF)
                   8)].
Proof.
  destruct (upload_file_reports_crc_and_length xor_block 2 block_00_07
              (Some key_01_08) None connected_state) as (Hok & _ & _ & Htot).
  destruct Htot as [st' E].
  - discriminate.
  - constructor.
  - intros f Hf. discriminate.
  - right. exists key_01_08. repeat split.
  - reflexivity.
  - vm_compute. lia.
  - exists st'. split; [exact E | ]. exact (proj2 (Hok st' E)).
Defined.

Lemma upload_file_chunk_sequence_witness :
  exists st',
    upload_file xor_block 2 block_00_07 None None connected_state = Ok tt st' /\
    exists last_buffer,
      sent st' = sent connected_state
        ++ [frame (mkNetDimmPacket 0x04 0x81
                     (le_bytes 4 1 ++ le_bytes 4 0 ++ le_bytes 2 0 ++ block_00_07))]
        ++ [last_buffer].
Proof.
  destruct (upload_file_chunk_sequence xor_block 2 block_00_07 None None
              connected_state ltac:(discriminate))
    as (_ & _ & _ & _ & Hok & Htot).
  destruct Htot as [st' E].
  - discriminate.
  - constructor.
  - intros f Hf. discriminate.
  - left. reflexivity.
  - reflexivity.
  - vm_compute. lia.
  - exists st'. split; [exact E | ]. exact (proj2 (Hok st' E)).
Defined.

Lemma upload_file_des_reversed_witness :
  exists st',
    upload_file xor_block 2 block_00_07 (Some key_01_08) None connected_state
    = Ok tt st' /\
    exists last_buffer,
      sent st' = sent connected_state
        ++ [frame (upload_packet 1 0
                     (rev (xor_block [x08; x07; x06; x05; x04; x03; x02; x01]
                             [x07; x06; x05; x04; x03; x02; x01; x00]))
                     true);
            last_buffer].
Proof.
  destruct (upload_file_des_reversed xor_block 2 block_00_07 key_01_08 None
              connected_state eq_refl)
    as (_ & _ & _ & _ & Hkey & Htot).
  destruct Htot as [st' E].
  - discriminate.
  - constructor.
  - intros f Hf. discriminate.
  - reflexivity.
  - reflexivity.
  - vm_compute. lia.
  - exists st'. split; [exact E | ].
    exact (proj2 (Hkey eq_refl) eq_refl st' E).
Defined.

Lemma reboot_boot_id_patch_witness :
  exists st',
    reboot (sample_state TARGET_TRIFORCE TARGET_VERSION_2_03 true [] [])
    = Ok tt st' /\
    sent st'
    = map frame [startup_packet; restart_packet; time_limit_packet 10;
                 poke_packet 0x8000CC6C 0x4E800020;
                 poke_packet 0x8000CC70 0x38600000;
                 poke_packet 0x8000CC74 0x4E800020;
                 poke_packet 0x8000CC78 0x60000000].
Proof.
  destruct (reboot_boot_id_patch
              (sample_state TARGET_TRIFORCE TARGET_VERSION_2_03 true [] []))
    as [Hok Htot].
  destruct Htot as [st' E].
  - reflexivity.
  - constructor.
  - exists st'. split; [exact E | ].
    destruct (Hok st' E) as (pokes & Hsent & _ & Hfour & _).
    rewrite Hsent.
    rewrite (Hfour eq_refl 0x8000CC6C (or_intror (conj (or_introl eq_refl) eq_refl))).
    reflexivity.
Defined.

Lemma info_decodes_reply_witness :
  exists st',
    info 2 (sample_state TARGET_NAOMI TARGET_VERSION_UNKNOWN true
              [RxData ([x0c; x00; x00; x18] ++ info_payload)] [])
    = Ok (mkNetDimmInfo 0xEFBEADDE 0x0200 TARGET_VERSION_UNKNOWN 0x10000000) st'.
Proof.
  destruct (info_decodes_reply 2
              (sample_state TARGET_NAOMI TARGET_VERSION_UNKNOWN true
                 [RxData ([x0c; x00; x00; x18] ++ info_payload)] [])
              x00 []) as (_ & Hrun & _).
  destruct Hrun as (st' & E & _).
  - reflexivity.
  - constructor.
  - reflexivity.
  - lia.
  - exists st'. exact E.
Defined.

(** C5, as stated: the payload does not decode to 16 MiB of game memory. *)
Lemma info_reply_is_not_16_MiB :
  (forall st',
     info 2 (sample_state TARGET_NAOMI TARGET_VERSION_UNKNOWN true
               [RxData ([x0c; x00; x00; x18] ++ info_payload)] [])
     <> Ok (mkNetDimmInfo 0xEFBEADDE 0x0200 TARGET_VERSION_UNKNOWN (16 * 2 ^ 20))
           st') /\
  Z.shiftl 0x0100 20 <> 16 * 2 ^ 20.
Proof.
  split.
  - intros st' H. vm_compute in H. discriminate H.
  - vm_compute. discriminate.
Qed.

(** C7, as stated, fails.  With a key of one byte the error comes when the
    connection is open, the startup and host-mode packets are sent and the
    reply is read; so it is no error before any I/O.  With an empty key there
    is no error at all. *)
Lemma send_checks_key_after_io :
  let st := sample_state TARGET_NAOMI TARGET_VERSION_UNKNOWN true
              [RxData host_mode_reply] [] in
  (exists st',
     send xor_block 2 [] (Some [x01]) None st
     = Raise (NetDimmException "Key code must by 8 bytes in length") st' /\
     events (net st')
     = [EvSocket 0; EvConnect 0 true;
        EvSend 0 (frame startup_packet) 4;
        EvSend 0 (frame (host_mode_packet 0 1)) 8;
        EvRecv 0 4 (Some [x04; x00; x00; x07]);
        EvRecv 0 4 (Some [x01; x00; x00; x00]);
        EvClose 0]) /\
  ~ (exists e st',
       send xor_block 2 [] (Some [x01]) None st = Raise e st' /\
       events (net st') = events (net st)) /\
  (exists st', send xor_block 2 [] (Some []) None st = Ok tt st').
Proof.
  intros st. split; [ | split].
  - eexists. split; vm_compute; reflexivity.
  - intros (e & st' & H & Hev). vm_compute in H.
    inversion H; subst. vm_compute in Hev. discriminate Hev.
  - eexists. vm_compute. reflexivity.
Qed.

Lemma send_empty_payload_witness :
  exists st',
    send xor_block 2 [] None None
      (sample_state TARGET_NAOMI TARGET_VERSION_UNKNOWN true
         [RxData host_mode_reply] [])
    = Ok tt st' /\
    sent st'
    = map frame [startup_packet; host_mode_packet 0 1;
                 key_code_packet (repeat x00 8); set_info_packet 0xFFFFFFFF 0].
Proof.
  destruct (send_empty_payload xor_block 2 None None
              (sample_state TARGET_NAOMI TARGET_VERSION_UNKNOWN true
                 [RxData host_mode_reply] [])
              x00 [x01; x00; x00; x00] []) as (_ & _ & Hrun).
  destruct Hrun as (st' & E & Hsent & _).
  - reflexivity.
  - constructor.
  - intros f Hf. discriminate.
  - reflexivity.
  - reflexivity.
  - left. reflexivity.
  - lia.
  - exists st'. split; [exact E | exact Hsent].
Defined.

Lemma read_never_ends_at_eof_witness :
  read 1000 4 connected_state = OutOfFuel.
Proof.
  apply (read_never_ends_at_eof 1000 4 connected_state 0).
  - reflexivity.
  - constructor.
  - reflexivity.
Defined.

Lemma send_packet_never_retries_witness :
  exists st',
    send_packet startup_packet
      (mkState (self connected_state)
         (mkNetwork true [] [Some 2] 1 [EvSocket 0; EvConnect 0 true]))
    = Ok tt st' /\
    wire (events (net st')) = [x00; x00].
Proof.
  destruct (send_packet_never_retries startup_packet
              (mkState (self connected_state)
                 (mkNetwork true [] [Some 2] 1 [EvSocket 0; EvConnect 0 true]))
              0%nat 2 [])
    as (st' & E & _ & Hw & _).
  - reflexivity.
  - reflexivity.
  - vm_compute. split; [discriminate | reflexivity].
  - exists st'. split; [exact E | ]. rewrite Hw. reflexivity.
Defined.

Lemma refused_connection_leaves_socket_witness :
  reboot (sample_state TARGET_NAOMI TARGET_VERSION_UNKNOWN false [] [])
  = Raise (NetDimmException "Could not connect to NetDimm")
      (opened (sample_state TARGET_NAOMI TARGET_VERSION_UNKNOWN false [] []) false)
  /\ sock (self (opened (sample_state TARGET_NAOMI TARGET_VERSION_UNKNOWN false
                           [] []) false)) = Some 0%nat
  /\ closes 0 (events (net (opened (sample_state TARGET_NAOMI
                                      TARGET_VERSION_UNKNOWN false [] []) false)))
     = 0%nat.
Proof.
  destruct (refused_connection_leaves_socket xor_block 2 [] None None
              (sample_state TARGET_NAOMI TARGET_VERSION_UNKNOWN false [] [])
              eq_refl) as (_ & _ & Hr & Hs & _ & Hc).
  split; [exact Hr | split; [exact Hs | exact Hc]].
Defined.

(** * More of the driver *)

(** ** Reading, whatever the segments *)

Lemma rx_stream_length script :
  rx_clean script -> length (rx_stream script) = rx_total script.
Proof.
  induction script as [ | e script IH]; intros Hc; [reflexivity | ].
  inversion Hc as [ | ? ? He Hrest]; subst.
  destruct e as [seg | ]; [ | congruence].
  cbn [rx_stream rx_total]. rewrite length_app, IH by exact Hrest. reflexivity.
Qed.

(** One [recv] on a script without errors takes a prefix of the stream, not
    empty unless the stream is. *)
Lemma rx_recv_stream n script :
  rx_clean script -> (0 < n)%nat ->
  exists bs later,
    rx_recv n script = (Some bs, later) /\
    rx_clean later /\
    rx_stream script = bs ++ rx_stream later /\
    (rx_stream script <> [] -> bs <> []) /\
    (length bs <= n)%nat.
Proof.
  intros Hc Hn. induction script as [ | e script IH].
  - exists [], []. cbn [rx_recv rx_stream app length].
    split; [reflexivity | split; [constructor | split; [reflexivity | ]]].
    split; [intros H; exact H | lia].
  - inversion Hc as [ | ? ? He Hrest]; subst.
    destruct e as [seg | ]; [ | congruence].
    destruct seg as [ | b seg].
    + destruct (IH Hrest) as (bs & later & E & Hl & Hs & Hne & Hlen).
      exists bs, later. cbn [rx_recv rx_stream app]. auto.
    + cbn [rx_recv].
      exists (firstn n (b :: seg)).
      pose proof (firstn_skipn n (b :: seg)) as Hfs.
      assert (Hne : firstn n (b :: seg) <> []).
      { destruct n; [lia | discriminate]. }
      assert (Hlen : (length (firstn n (b :: seg)) <= n)%nat).
      { rewrite length_firstn. lia. }
      destruct (skipn n (b :: seg)) as [ | x tail] eqn:Es.
      * exists script. rewrite app_nil_r in Hfs.
        split; [reflexivity | split; [exact Hrest | ]].
        split; [ | auto]. cbn [rx_stream]. rewrite Hfs. reflexivity.
      * exists (RxData (x :: tail) :: script).
        split; [reflexivity | split].
        -- constructor; [discriminate | exact Hrest].
        -- split; [ | auto]. cbn [rx_stream].
           rewrite app_assoc, Hfs. reflexivity.
Qed.

Lemma firstn_app_prefix {A : Type} (l more : list A) n :
  (length l <= n)%nat -> firstn n (l ++ more) = l ++ firstn (n - length l) more.
Proof.
  intros H. rewrite firstn_app. rewrite firstn_all2 by exact H. reflexivity.
Qed.

Lemma skipn_app_prefix {A : Type} (l more : list A) n :
  (length l <= n)%nat -> skipn n (l ++ more) = skipn (n - length l) more.
Proof.
  intros H. rewrite skipn_app. rewrite skipn_all2 by exact H. reflexivity.
Qed.

Lemma read_loop_stream fuel id :
  forall left res st,
    rx_clean (rx (net st)) ->
    0 <= left <= len (rx_stream (rx (net st))) ->
    (Z.to_nat left < fuel)%nat ->
    exists got st',
      read_loop fuel id left res st = Ok (res ++ got) st' /\
      concat got = firstn (Z.to_nat left) (rx_stream (rx (net st))) /\
      rx_clean (rx (net st')) /\
      rx_stream (rx (net st')) = skipn (Z.to_nat left) (rx_stream (rx (net st))) /\
      self st' = self st /\ sent st' = sent st /\ tx (net st') = tx (net st).
Proof.
  induction fuel as [ | fuel IH]; intros left res st Hc Hl Hfuel; [lia | ].
  cbn [read_loop]. destruct (0 <? left) eqn:E.
  - apply Z.ltb_lt in E.
    destruct (rx_recv_stream (Z.to_nat left) (rx (net st)) Hc ltac:(lia))
      as (bs & later & Er & Hcl & Hs & Hne & Hlen).
    assert (Hbs : bs <> []).
    { apply Hne. intros E0. rewrite E0 in Hl. unfold len in Hl. cbn in Hl. lia. }
    assert (Hpos : (0 < length bs)%nat) by (destruct bs; [congruence | cbn; lia]).
    set (st1 := with_net st
                  (mkNetwork (connect_ok (net st)) later (tx (net st))
                     (next_id (net st))
                     (events (net st) ++ [EvRecv id left (Some bs)]))).
    assert (H1 : socket_recv id left st = Ok bs st1).
    { unfold socket_recv. cbv zeta. rewrite Er. reflexivity. }
    rewrite (bind_Ok_intro _ _ _ _ _ H1).
    destruct (IH (left - len bs) (res ++ [bs]) st1) as (got & st' & Hrun & Hg & Hc' & Hs' & Hself & Hsent & Htx).
    + exact Hcl.
    + cbn [st1 net with_net rx]. rewrite Hs in Hl. unfold len in *.
      rewrite length_app in Hl. lia.
    + unfold len. lia.
    + exists (bs :: got), st'. cbn [st1 net with_net rx self] in *.
      split; [rewrite Hrun, <- app_assoc; reflexivity | ].
      assert (El : Z.to_nat (left - len bs) = (Z.to_nat left - length bs)%nat).
      { unfold len. lia. }
      rewrite El in *.
      split; [ | split; [exact Hc' | split; [ | split; [exact Hself | split]]]].
      * cbn [concat]. rewrite Hg, Hs. symmetry. apply firstn_app_prefix, Hlen.
      * rewrite Hs', Hs. symmetry. apply skipn_app_prefix, Hlen.
      * rewrite Hsent. unfold sent. cbn. rewrite sent_bufs_app. cbn.
        apply app_nil_r.
      * exact Htx.
  - exists [], st. apply Z.ltb_ge in E.
    replace (Z.to_nat left) with O by lia. cbn [firstn skipn concat].
    rewrite app_nil_r. auto 10.
Qed.

Lemma read_stream fuel num st id :
  sock (self st) = Some id ->
  rx_clean (rx (net st)) ->
  0 <= num <= len (rx_stream (rx (net st))) ->
  (Z.to_nat num < fuel)%nat ->
  exists st',
    read fuel num st = Ok (firstn (Z.to_nat num) (rx_stream (rx (net st)))) st' /\
    rx_stream (rx (net st')) = skipn (Z.to_nat num) (rx_stream (rx (net st))) /\
    rx_clean (rx (net st')) /\
    self st' = self st /\ sent st' = sent st /\ tx (net st') = tx (net st).
Proof.
  intros Hs Hc Hn Hfuel.
  destruct (read_loop_stream fuel id num [] st Hc Hn Hfuel)
    as (got & st' & Hrun & Hg & Hc' & Hs' & Hself & Hsent & Htx).
  exists st'. split; [ | auto].
  unfold read, bind at 1, get_sock. rewrite Hs.
  rewrite (bind_Ok_intro _ _ _ _ _ Hrun). cbn [app]. rewrite Hg. reflexivity.
Qed.

(** X1. On a stream without errors that still holds [num] bytes, [__read]
    returns exactly the next [num] bytes, however the stream is cut into
    segments, and leaves the rest to be read; [num + 1] rounds of the loop
    are enough. *)
Theorem read_takes_the_next_bytes fuel num st id :
  sock (self st) = Some id ->
  rx_clean (rx (net st)) ->
  0 <= num <= len (rx_stream (rx (net st))) ->
  (Z.to_nat num < fuel)%nat ->
  exists st',
    read fuel num st = Ok (firstn (Z.to_nat num) (rx_stream (rx (net st)))) st' /\
    rx_stream (rx (net st')) = skipn (Z.to_nat num) (rx_stream (rx (net st))) /\
    rx_clean (rx (net st')) /\
    self st' = self st /\ sent st' = sent st /\ tx (net st') = tx (net st).
Proof.
  intros Hs Hc Hn Hfuel.
  destruct (read_stream fuel num st id Hs Hc Hn Hfuel) as (st' & H).
  exists st'. exact H.
Qed.

Lemma read_takes_the_next_bytes_witness :
  exists st',
    read 4 3
      (mkState (self connected_state)
         (mkNetwork true [RxData [x01]; RxData []; RxData [x02; x03; x04]] [] 1 []))
    = Ok [x01; x02; x03] st' /\
    rx_stream (rx (net st')) = [x04].
Proof.
  destruct (read_takes_the_next_bytes 4 3
              (mkState (self connected_state)
                 (mkNetwork true [RxData [x01]; RxData []; RxData [x02; x03; x04]]
                    [] 1 []))
              0%nat) as (st' & E & Hs & _).
  - reflexivity.
  - repeat constructor; discriminate.
  - vm_compute. split; discriminate.
  - vm_compute. lia.
  - exists st'. split; [exact E | exact Hs].
Defined.

(** X2. Whenever [__read] returns, it returns exactly [num] bytes: the bytes
    its [recv] calls returned, in order; it has sent nothing and has left the
    driver object as it was. *)
Theorem read_returns_exactly fuel num st bs st' :
  0 <= num ->
  read fuel num st = Ok bs st' ->
  len bs = num /\
  received (events (net st')) = received (events (net st)) ++ bs /\
  sent st' = sent st /\
  self st' = self st.
Proof.
  intros Hn H. apply read_Ok in H; [ | exact Hn].
  destruct H as (Hlen & Hself & Hsent & _ & Hrec). auto.
Qed.

Lemma read_returns_exactly_witness :
  exists bs st',
    read 4 3
      (mkState (self connected_state)
         (mkNetwork true [RxData [x01]; RxData [x02; x03; x04]] [] 1 []))
    = Ok bs st' /\ len bs = 3.
Proof.
  destruct (read 4 3
              (mkState (self connected_state)
                 (mkNetwork true [RxData [x01]; RxData [x02; x03; x04]] [] 1 [])))
    as [bs st' | e st' | ] eqn:E.
  - exists bs, st'. split; [reflexivity | ].
    exact (proj1 (read_returns_exactly 4 3 _ bs st' ltac:(lia) E)).
  - vm_compute in E. discriminate E.
  - vm_compute in E. discriminate E.
Defined.

(** ** The frame codec *)

Lemma land_ones_low a n m :
  0 <= n <= m -> Z.land (Z.shiftl a m) (Z.ones n) = 0.
Proof.
  intros H. rewrite Z.land_ones by lia. rewrite Z.shiftl_mul_pow2 by lia.
  replace m with ((m - n) + n) by lia. rewrite Z.pow_add_r by lia.
  rewrite Z.mul_assoc. apply Z.mod_mul. apply Z.pow_nonzero; lia.
Qed.

Lemma shiftr_small a n m :
  0 <= n <= m -> Z.shiftr (Z.land a (Z.ones n)) m = 0.
Proof.
  intros H. rewrite Z.land_ones by lia. rewrite Z.shiftr_div_pow2 by lia.
  apply Z.div_small.
  pose proof (Z.mod_pos_bound a (2 ^ n) ltac:(apply Z.pow_pos_nonneg; lia)).
  assert (2 ^ n <= 2 ^ m) by (apply Z.pow_le_mono_r; lia). lia.
Qed.

(** The three fields of a header word, whatever the packet: each is the
    packet's value cut to the width of the field. *)
Lemma header_word_fields p :
  Z.land (Z.shiftr (header_word p) 24) 0xFF = Z.land (pktid p) 0xFF /\
  Z.land (Z.shiftr (header_word p) 16) 0xFF = Z.land (flags p) 0xFF /\
  Z.land (header_word p) 0xFFFF = Z.land (length_ p) 0xFFFF.
Proof.
  unfold header_word.
  change 0xFF with (Z.ones 8). change 0xFFFF with (Z.ones 16).
  set (A := Z.land (pktid p) (Z.ones 8)).
  set (B := Z.land (flags p) (Z.ones 8)).
  set (C := Z.land (length_ p) (Z.ones 16)).
  split; [ | split].
  - rewrite !Z.shiftr_lor. rewrite Z.shiftr_shiftl_l by lia.
    rewrite Z.shiftr_shiftl_r by lia. change (24 - 24) with 0.
    change (24 - 16) with 8. rewrite Z.shiftl_0_r.
    unfold B, C. rewrite !shiftr_small by lia. rewrite !Z.lor_0_r.
    unfold A. rewrite <- Z.land_assoc, Z.land_diag. reflexivity.
  - rewrite !Z.shiftr_lor. rewrite !Z.shiftr_shiftl_l by lia.
    change (24 - 16) with 8. change (16 - 16) with 0. rewrite Z.shiftl_0_r.
    unfold C. rewrite shiftr_small by lia. rewrite Z.lor_0_r.
    rewrite Z.land_lor_distr_l. rewrite land_ones_low by lia.
    rewrite Z.lor_0_l. unfold B. rewrite <- Z.land_assoc, Z.land_diag.
    reflexivity.
  - rewrite !Z.land_lor_distr_l. rewrite !land_ones_low by lia.
    rewrite !Z.lor_0_l. unfold C. rewrite <- Z.land_assoc, Z.land_diag.
    reflexivity.
Qed.

Lemma byte_of_land x y :
  Z.land x 0xFF = Z.land y 0xFF -> byte_of x = byte_of y.
Proof. unfold byte_of. intros ->. reflexivity. Qed.

Lemma frame_bytes p :
  frame p
  = [byte_of (length_ p); byte_of (Z.shiftr (length_ p) 8);
     byte_of (flags p); byte_of (pktid p)] ++ data p.
Proof.
  unfold frame. f_equal.
  destruct (header_word_fields p) as (F1 & F2 & F3).
  unfold le_bytes. cbn [seq map].
  change (8 * Z.of_nat 0) with 0. change (8 * Z.of_nat 1) with 8.
  change (8 * Z.of_nat 2) with 16. change (8 * Z.of_nat 3) with 24.
  rewrite Z.shiftr_0_r.
  assert (E0 : Z.land (header_word p) 0xFF = Z.land (length_ p) 0xFF).
  { change 0xFF with (Z.land 0xFFFF 0xFF).
    rewrite !Z.land_assoc, F3. reflexivity. }
  assert (E1 : Z.land (Z.shiftr (header_word p) 8) 0xFF
               = Z.land (Z.shiftr (length_ p) 8) 0xFF).
  { change 0xFF with (Z.shiftr 0xFFFF 8).
    rewrite <- !Z.shiftr_land, F3. reflexivity. }
  rewrite (byte_of_land _ _ E0), (byte_of_land _ _ E1),
    (byte_of_land _ _ F2), (byte_of_land _ _ F1).
  reflexivity.
Qed.

(** X3. On the wire a packet is four header bytes, then its data: the low
    and the high byte of the data length, the flags byte, the packet id; each
    field is cut to its width, so that a packet with more than 65535 bytes of
    data goes out under a header that states its length modulo 65536. *)
Theorem frame_layout p :
  frame p
  = [byte_of (length_ p); byte_of (Z.shiftr (length_ p) 8);
     byte_of (flags p); byte_of (pktid p)] ++ data p /\
  length (frame p) = (4 + length (data p))%nat.
Proof.
  split; [apply frame_bytes | ].
  rewrite frame_bytes, length_app. reflexivity.
Qed.

Lemma byte_val_of_small z : 0 <= z < 256 -> byte_val (byte_of z) = z.
Proof. intros H. rewrite byte_val_of. apply Z.mod_small, H. Qed.

(** Receiving from a stream: a header, then the data it announces. *)
Lemma recv_packet_stream fuel st id l0 l1 fl pid payload more :
  sock (self st) = Some id ->
  rx_clean (rx (net st)) ->
  rx_stream (rx (net st)) = [l0; l1; fl; pid] ++ payload ++ more ->
  byte_val l0 + 256 * byte_val l1 = len payload ->
  (4 < fuel)%nat -> (length payload < fuel)%nat ->
  exists st',
    recv_packet fuel st
    = Ok (mkNetDimmPacket (byte_val pid) (byte_val fl) payload) st' /\
    rx_clean (rx (net st')) /\
    rx_stream (rx (net st')) = more /\
    self st' = self st /\ sent st' = sent st /\ tx (net st') = tx (net st).
Proof.
  intros Hs Hc Hstream Hlen Hf4 Hfp.
  destruct (header_fields l0 l1 fl pid) as (F1 & F2 & F3).
  destruct (read_stream fuel 4 st id Hs Hc)
    as (s1 & H1 & Hs1 & Hc1 & Hself1 & Hsent1 & Htx1).
  { rewrite Hstream. unfold len. cbn [length app]. lia. }
  { cbn. lia. }
  rewrite Hstream in H1, Hs1. change (Z.to_nat 4) with 4%nat in H1, Hs1.
  cbn [firstn skipn app] in H1, Hs1.
  unfold recv_packet. rewrite (bind_Ok_intro _ _ _ _ _ H1).
  rewrite (struct_unpack_I_4 [l0; l1; fl; pid] eq_refl). cbn [of_struct].
  unfold bind at 1. cbn [ret]. rewrite F1, F2, F3, Hlen.
  destruct (0 <? len payload) eqn:E.
  - assert (Hid1 : sock (self s1) = Some id) by (rewrite Hself1; exact Hs).
    destruct (read_stream fuel (len payload) s1 id Hid1 Hc1)
      as (s2 & H2 & Hs2 & Hc2 & Hself2 & Hsent2 & Htx2).
    { rewrite Hs1. unfold len. rewrite length_app. lia. }
    { unfold len. lia. }
    rewrite Hs1 in H2, Hs2. unfold len in H2, Hs2. rewrite Nat2Z.id in H2, Hs2.
    rewrite firstn_length_app in H2. rewrite skipn_length_app in Hs2.
    exists s2. rewrite (bind_Ok_intro _ _ _ _ _ H2). cbn [pktid flags].
    split; [reflexivity | ].
    rewrite Hself2, Hsent2, Htx2. auto.
  - assert (payload = []).
    { apply Z.ltb_ge in E. destruct payload; [reflexivity | ].
      unfold len in E. cbn [length] in E. lia. }
    subst payload. exists s1. cbn [pktid flags]. split; [reflexivity | ].
    cbn [app] in Hs1. auto.
Qed.

Lemma two_bytes_of z :
  0 <= z < 65536 ->
  byte_val (byte_of z) + 256 * byte_val (byte_of (Z.shiftr z 8)) = z.
Proof.
  intros Hz. rewrite !byte_val_of. rewrite Z.shiftr_div_pow2 by lia.
  change (2 ^ 8) with 256.
  rewrite (Z.mod_small (z / 256)).
  - pose proof (Z.div_mod z 256 ltac:(lia)). lia.
  - split; [apply Z.div_pos; lia | apply Z.div_lt_upper_bound; lia].
Qed.

Lemma recv_framed fuel st p more :
  ready st ->
  rx_clean (rx (net st)) ->
  rx_stream (rx (net st)) = frame p ++ more ->
  0 <= pktid p < 256 -> 0 <= flags p < 256 -> length_ p < 65536 ->
  (4 < fuel)%nat -> (length (data p) < fuel)%nat ->
  exists st',
    recv_packet fuel st = Ok p st' /\
    rx_stream (rx (net st')) = more /\
    rx_clean (rx (net st')) /\
    self st' = self st /\ sent st' = sent st /\ ready st'.
Proof.
  intros [Hsock Htx] Hc Hstream Hid Hfl Hlen Hf4 Hfp.
  destruct (sock (self st)) as [id | ] eqn:Hs; [ | congruence].
  rewrite frame_bytes, <- app_assoc in Hstream.
  assert (Hl : 0 <= length_ p < 65536).
  { split; [apply len_nonneg | exact Hlen]. }
  destruct (recv_packet_stream fuel st id _ _ _ _ _ more Hs Hc Hstream)
    as (st' & H & Hc' & Hs' & Hself & Hsent & Htx').
  - apply two_bytes_of, Hl.
  - exact Hf4.
  - exact Hfp.
  - exists st'. rewrite !byte_val_of_small in H by assumption.
    destruct p. cbn [pktid flags data] in *.
    split; [exact H | split; [exact Hs' | split; [exact Hc' | ]]].
    split; [exact Hself | split; [exact Hsent | ]].
    split; [rewrite Hself, Hs; discriminate | ].
    unfold tx_ok in *. rewrite Htx'. exact Htx.
Qed.

(** X4. Decoding undoes encoding: when the stream starts with the frame of
    a packet whose id and flags fit a byte and whose data is at most 65535
    bytes, however the frame is cut into segments, [__recv_packet] returns
    that very packet and leaves what follows it. *)
Theorem frame_round_trip fuel st id p more :
  sock (self st) = Some id ->
  rx_clean (rx (net st)) ->
  rx_stream (rx (net st)) = frame p ++ more ->
  0 <= pktid p < 256 -> 0 <= flags p < 256 -> length_ p < 65536 ->
  (4 < fuel)%nat -> (length (data p) < fuel)%nat ->
  exists st',
    recv_packet fuel st = Ok p st' /\
    rx_stream (rx (net st')) = more /\
    rx_clean (rx (net st')) /\
    self st' = self st /\ sent st' = sent st.
Proof.
  intros Hs Hc Hstream Hid Hfl Hlen Hf4 Hfp.
  rewrite frame_bytes, <- app_assoc in Hstream.
  assert (Hl : 0 <= length_ p < 65536).
  { split; [apply len_nonneg | exact Hlen]. }
  destruct (recv_packet_stream fuel st id _ _ _ _ _ more Hs Hc Hstream)
    as (st' & H & Hc' & Hs' & Hself & Hsent & _).
  - apply two_bytes_of, Hl.
  - exact Hf4.
  - exact Hfp.
  - exists st'. rewrite !byte_val_of_small in H by assumption.
    destruct p. cbn [pktid flags data] in *. auto.
Qed.

Lemma frame_round_trip_witness :
  exists st',
    recv_packet 20
      (mkState (self connected_state)
         (mkNetwork true
            [RxData (firstn 3 (frame (key_code_packet key_01_08)));
             RxData (skipn 3 (frame (key_code_packet key_01_08)) ++ [x55])]
            [] 1 []))
    = Ok (key_code_packet key_01_08) st' /\
    rx_stream (rx (net st')) = [x55].
Proof.
  destruct (frame_round_trip 20
              (mkState (self connected_state)
                 (mkNetwork true
                    [RxData (firstn 3 (frame (key_code_packet key_01_08)));
                     RxData (skipn 3 (frame (key_code_packet key_01_08)) ++ [x55])]
                    [] 1 []))
              0%nat (key_code_packet key_01_08) [x55])
    as (st' & E & Hs & _).
  - reflexivity.
  - repeat constructor; discriminate.
  - reflexivity.
  - vm_compute. split; [discriminate | reflexivity].
  - vm_compute. split; [discriminate | reflexivity].
  - reflexivity.
  - lia.
  - vm_compute. lia.
  - exists st'. split; [exact E | exact Hs].
Defined.

Lemma land_ones_range a n : 0 <= n -> 0 <= Z.land a (Z.ones n) < 2 ^ n.
Proof.
  intros Hn. rewrite Z.land_ones by exact Hn.
  apply Z.mod_pos_bound, Z.pow_pos_nonneg; lia.
Qed.

(** X5. Every packet [__recv_packet] returns has an id and flags below 256
    and at most 65535 bytes of data; to get it, the driver has received four
    header bytes and then the data, and has sent nothing. *)
Theorem recv_packet_bounds fuel st p st' :
  recv_packet fuel st = Ok p st' ->
  0 <= pktid p < 256 /\
  0 <= flags p < 256 /\
  0 <= length_ p < 65536 /\
  (exists header,
     length header = 4%nat /\
     received (events (net st'))
     = received (events (net st)) ++ header ++ data p) /\
  sent st' = sent st /\
  self st' = self st.
Proof.
  intros H. apply recv_packet_Ok in H.
  destruct H as (header & H4 & (Hself & Hsent & _ & Hrec) & -> & -> & ->).
  change 0xFF with (Z.ones 8). change 0xFFFF with (Z.ones 16).
  split; [apply (land_ones_range _ 8); lia | ].
  split; [apply (land_ones_range _ 8); lia | ].
  split; [apply (land_ones_range _ 16); lia | ].
  split; [exists header; auto | auto].
Qed.

Lemma recv_packet_bounds_witness :
  exists p st',
    recv_packet 20
      (mkState (self connected_state)
         (mkNetwork true [RxData host_mode_reply] [] 1 []))
    = Ok p st' /\ 0 <= pktid p < 256.
Proof.
  destruct (recv_packet 20
              (mkState (self connected_state)
                 (mkNetwork true [RxData host_mode_reply] [] 1 [])))
    as [p st' | e st' | ] eqn:E.
  - exists p, st'. split; [reflexivity | ].
    exact (proj1 (recv_packet_bounds 20 _ p st' E)).
  - vm_compute in E. discriminate E.
  - vm_compute in E. discriminate E.
Defined.

(** ** A request and its reply *)

(** A request goes out and the frame next in the stream comes back. *)
Lemma request_reply fuel st p l0 l1 fl pid payload more :
  ready st ->
  rx_clean (rx (net st)) ->
  rx_stream (rx (net st)) = [l0; l1; fl; pid] ++ payload ++ more ->
  byte_val l0 + 256 * byte_val l1 = len payload ->
  (4 < fuel)%nat -> (length payload < fuel)%nat ->
  exists s1 s2,
    send_packet p st = Ok tt s1 /\
    recv_packet fuel s1
    = Ok (mkNetDimmPacket (byte_val pid) (byte_val fl) payload) s2 /\
    ready s2 /\
    self s2 = self st /\
    sent s2 = sent st ++ [frame p] /\
    rx_clean (rx (net s2)) /\
    rx_stream (rx (net s2)) = more.
Proof.
  intros Hr Hc Hstream Hlen Hf4 Hfp.
  destruct (send_packet_step p st Hr) as (s1 & H1 & Hr1).
  pose proof (send_packet_Ok _ _ _ _ H1) as (Hself1 & Hsent1 & Hrx1 & Htx1).
  destruct (sock (self s1)) as [id | ] eqn:Hid; [ | destruct Hr1; congruence].
  destruct (recv_packet_stream fuel s1 id l0 l1 fl pid payload more Hid)
    as (s2 & H2 & Hc2 & Hs2 & Hself2 & Hsent2 & Htx2);
    try assumption; try (rewrite Hrx1; assumption).
  exists s1, s2. split; [exact H1 | split; [exact H2 | ]].
  split; [ | split; [ | split; [ | auto]]].
  - destruct Hr1 as [_ Ht1]. split; [rewrite Hself2; congruence | ].
    unfold tx_ok in *. rewrite Htx2. exact Ht1.
  - rewrite Hself2. exact Hself1.
  - rewrite Hsent2. exact Hsent1.
Qed.

(** ** Get-info: what is rejected and what is decoded *)

(** X6. A reply to get-info under another packet id, or with a payload of
    another length than 12, is a protocol error: [info] raises the
    NetDimmException of that check, having sent the startup and get-info
    packets, and ends with the socket closed and dropped. *)
Theorem info_rejects_bad_reply fuel st l0 l1 fl pid payload more :
  connect_ok (net st) = true ->
  tx_ok st ->
  rx_clean (rx (net st)) ->
  rx_stream (rx (net st)) = [l0; l1; fl; pid] ++ payload ++ more ->
  byte_val l0 + 256 * byte_val l1 = len payload ->
  (4 < fuel)%nat -> (length payload < fuel)%nat ->
  byte_val pid <> 0x18 \/ len payload <> 12 ->
  exists st',
    info fuel st
    = Raise (NetDimmException
               (if byte_val pid =? 0x18
                then "Unexpected data length returned from get info packet!"
                else "Unexpected data returned from get info packet!")) st' /\
    sent st' = sent st ++ map frame [startup_packet; get_info_packet] /\
    sock (self st') = None /\
    closes (next_id (net st)) (events (net st'))
    = S (closes (next_id (net st)) (events (net st))).
Proof.
  intros Hc Ht Hcl Hstream Hlen Hf4 Hfp Hbad.
  assert (R0 : ready (opened st true)) by (split; [discriminate | exact Ht]).
  destruct (send_packet_step startup_packet _ R0) as (s0 & H0 & Rs0).
  pose proof (send_packet_Ok _ _ _ _ H0) as (Hself0 & Hsent0 & Hrx0 & _).
  destruct (request_reply fuel s0 get_info_packet l0 l1 fl pid payload more Rs0)
    as (s1 & s2 & H1 & H2 & _ & Hself2 & Hsent2 & _);
    try assumption; try (rewrite Hrx0; assumption).
  assert (Hid : sock (self s2) = Some (next_id (net st))).
  { rewrite Hself2, Hself0. reflexivity. }
  assert (Hrun : info fuel st
    = Raise (NetDimmException
               (if byte_val pid =? 0x18
                then "Unexpected data length returned from get info packet!"
                else "Unexpected data returned from get info packet!"))
        (released s2 (next_id (net st)))).
  { unfold info. eapply connection_raises; [exact Hc | exact H0 | | exact Hid].
    unfold get_information. fold get_info_packet.
    rewrite (bind_Ok_intro _ _ _ _ _ H1), (bind_Ok_intro _ _ _ _ _ H2).
    unfold length_. cbn [pktid data].
    destruct (byte_val pid =? 24) eqn:E; cbn [negb]; [ | reflexivity].
    destruct (len payload =? 12) eqn:E'; cbn [negb]; [ | reflexivity].
    apply Z.eqb_eq in E, E'. destruct Hbad; contradiction. }
  exists (released s2 (next_id (net st))). split; [exact Hrun | ].
  split; [ | split; [reflexivity | ]].
  - rewrite sent_released, Hsent2, Hsent0, sent_opened.
    cbn [map]. rewrite <- app_assoc. reflexivity.
  - pose proof (session_closes_once (get_information fuel) st Hc
                  (keeps_get_information fuel)) as Hclose.
    cbv zeta in Hclose. fold (info fuel st) in Hclose. rewrite Hrun in Hclose.
    apply Hclose.
Qed.

Lemma info_rejects_bad_reply_witness :
  exists st',
    info 20 (sample_state TARGET_NAOMI TARGET_VERSION_UNKNOWN true
               [RxData [x00; x00; x00; x19]] [])
    = Raise (NetDimmException "Unexpected data returned from get info packet!") st' /\
    sock (self st') = None.
Proof.
  destruct (info_rejects_bad_reply 20
              (sample_state TARGET_NAOMI TARGET_VERSION_UNKNOWN true
                 [RxData [x00; x00; x00; x19]] [])
              x00 x00 x00 x19 [] []) as (st' & E & _ & Hs & _).
  - reflexivity.
  - constructor.
  - repeat constructor; discriminate.
  - reflexivity.
  - reflexivity.
  - lia.
  - cbn. lia.
  - left. vm_compute. discriminate.
  - exists st'. split; [exact E | exact Hs].
Defined.

(** Twelve bytes, taken apart. *)
Lemma twelve_bytes (bs : bytes) :
  length bs = 12%nat ->
  exists u0 u1 v0 v1 g0 g1 d0 d1 c0 c1 c2 c3,
    bs = [u0; u1; v0; v1; g0; g1; d0; d1; c0; c1; c2; c3].
Proof.
  intros H.
  do 12 (destruct bs as [ | ? bs]; [discriminate | ]).
  destruct bs; [ | discriminate].
  do 12 eexists. reflexivity.
Qed.

Lemma send_packet_received p st u st' :
  send_packet p st = Ok u st' ->
  received (events (net st')) = received (events (net st)).
Proof.
  unfold send_packet. intros H. step_ok H as s s0 H0.
  apply get_sock_Ok in H0. destruct H0 as [-> ->].
  destruct (sock (self st)) as [id | ]; [ | discriminate].
  step_ok H as hdr s1 H1. apply of_struct_Ok in H1. destruct H1 as [_ ->].
  step_ok H as k s2 H2. apply ret_Ok in H. destruct H as [_ ->].
  unfold socket_send in H2. cbv zeta in H2.
  destruct (tx (net st)) as [ | [k' | ] later]; inversion H2; subst; cbn;
    rewrite received_app; cbn; apply app_nil_r.
Qed.

Lemma unpack_HHHHI_bytes u0 u1 v0 v1 g0 g1 d0 d1 c0 c1 c2 c3 :
  struct_unpack_HHHHI [u0; u1; v0; v1; g0; g1; d0; d1; c0; c1; c2; c3]
  = Some (byte_val u0 + 256 * byte_val u1,
          byte_val v0 + 256 * byte_val v1,
          byte_val g0 + 256 * byte_val g1,
          byte_val d0 + 256 * byte_val d1,
          byte_val c0 + 256 * byte_val c1 + 65536 * byte_val c2
            + 16777216 * byte_val c3).
Proof.
  unfold struct_unpack_HHHHI, slice. cbn [length Nat.eqb].
  change (Z.to_nat (2 - 0)) with 2%nat. change (Z.to_nat (4 - 2)) with 2%nat.
  change (Z.to_nat (6 - 4)) with 2%nat. change (Z.to_nat (8 - 6)) with 2%nat.
  change (Z.to_nat (12 - 8)) with 4%nat.
  change (Z.to_nat 0) with 0%nat. change (Z.to_nat 2) with 2%nat.
  change (Z.to_nat 4) with 4%nat. change (Z.to_nat 6) with 6%nat.
  change (Z.to_nat 8) with 8%nat.
  cbn [skipn firstn le_value fold_right].
  apply f_equal.
  apply f_equal2; [apply f_equal2; [apply f_equal2; [apply f_equal2 | ] | ] | ];
    lia.
Qed.

(** X7. The information [__get_information] returns is read off the twelve
    bytes of a reply [0x18], little-endian: the version word from bytes 2-3
    (mapped to its firmware tag), the game memory in MiB from bytes 4-5
    (returned in bytes, shifted by 20), the DIMM memory from bytes 6-7, the
    CRC from bytes 8-11; bytes 0-1 are ignored.  So the CRC is below 2^32,
    the memory size below 2^16 and the game memory a multiple of 2^20 below
    2^36. *)
Theorem get_information_layout fuel st i st' :
  get_information fuel st = Ok i st' ->
  exists header u0 u1 v0 v1 g0 g1 d0 d1 c0 c1 c2 c3,
    length header = 4%nat /\
    received (events (net st'))
    = received (events (net st))
        ++ header ++ [u0; u1; v0; v1; g0; g1; d0; d1; c0; c1; c2; c3] /\
    i = mkNetDimmInfo
          (byte_val c0 + 256 * byte_val c1 + 65536 * byte_val c2
             + 16777216 * byte_val c3)
          (byte_val d0 + 256 * byte_val d1)
          (firmware_of_version (byte_val v0 + 256 * byte_val v1))
          ((byte_val g0 + 256 * byte_val g1) * 2 ^ 20) /\
    0 <= current_game_crc i < 2 ^ 32 /\
    0 <= memory_size i < 2 ^ 16 /\
    0 <= available_game_memory i < 2 ^ 36 /\
    available_game_memory i mod 2 ^ 20 = 0 /\
    sent st' = sent st ++ [frame get_info_packet].
Proof.
  intros H. unfold get_information in H. fold get_info_packet in H.
  step_ok H as u s1 H1. pose proof (send_packet_received _ _ _ _ H1) as Hrec1.
  apply send_packet_Ok in H1.
  step_ok H as response s2 H2. apply recv_packet_Ok in H2.
  destruct H2 as (header & H4 & (Hself2 & Hsent2 & _ & Hrec2) & _).
  destruct (negb (pktid response =? 24)); [discriminate | ].
  destruct (length_ response =? 12) eqn:E12; cbn [negb] in H; [ | discriminate].
  apply Z.eqb_eq in E12.
  assert (Hlen : length (data response) = 12%nat) by (unfold length_, len in E12; lia).
  destruct (twelve_bytes _ Hlen)
    as (u0 & u1 & v0 & v1 & g0 & g1 & d0 & d1 & c0 & c1 & c2 & c3 & Ed).
  rewrite Ed in *. rewrite unpack_HHHHI_bytes in H. cbn [of_struct] in H.
  unfold bind at 1 in H. cbn [ret] in H. apply ret_Ok in H.
  destruct H as [-> ->]. fold (firmware_of_version (byte_val v0 + 256 * byte_val v1)).
  exists header, u0, u1, v0, v1, g0, g1, d0, d1, c0, c1, c2, c3.
  pose proof (byte_val_range g0). pose proof (byte_val_range g1).
  pose proof (byte_val_range d0). pose proof (byte_val_range d1).
  pose proof (byte_val_range c0). pose proof (byte_val_range c1).
  pose proof (byte_val_range c2). pose proof (byte_val_range c3).
  rewrite Z.shiftl_mul_pow2 by lia. cbn [current_game_crc memory_size
    available_game_memory].
  change (2 ^ 32) with 4294967296. change (2 ^ 16) with 65536.
  change (2 ^ 36) with 68719476736. change (2 ^ 20) with 1048576.
  split; [exact H4 | ].
  split; [rewrite Hrec2, Hrec1; reflexivity | ].
  split; [reflexivity | ].
  split; [lia | split; [lia | split; [lia | split]]].
  - apply Z.mod_mul. lia.
  - rewrite Hsent2. apply H1.
Qed.

Lemma get_information_layout_witness :
  exists i st',
    get_information 20
      (mkState (self connected_state)
         (mkNetwork true [RxData ([x0c; x00; x00; x18] ++ info_payload)] [] 1 []))
    = Ok i st' /\
    0 <= available_game_memory i < 2 ^ 36.
Proof.
  destruct (get_information 20
              (mkState (self connected_state)
                 (mkNetwork true [RxData ([x0c; x00; x00; x18] ++ info_payload)]
                    [] 1 [])))
    as [i st' | e st' | ] eqn:E.
  - exists i, st'. split; [reflexivity | ].
    destruct (get_information_layout 20 _ i st' E)
      as (? & ? & ? & ? & ? & ? & ? & ? & ? & ? & ? & ? & ? & H).
    apply H.
  - vm_compute in E. discriminate E.
  - vm_compute in E. discriminate E.
Defined.

Lemma TargetVersionEnum_eqb_eq a b : TargetVersionEnum_eqb a b = true -> a = b.
Proof. destruct a, b; cbn; intros H; try reflexivity; discriminate. Qed.

(** X8. The firmware tag depends on the low 16 bits of the version word
    only: major 1 minor 7 is 1.07, 2/3 is 2.03, 2/15 is 2.15, 3/1 is 3.01,
    4/1 is 4.01, 4/2 is 4.02, and every other word, 65530 of the 65536, is
    Unknown. *)
Theorem firmware_of_version_table version :
  let major := Z.land (Z.shiftr version 8) 0xFF in
  let minor := Z.land version 0xFF in
  firmware_of_version version
  = if (major =? 1) && (minor =? 7) then TARGET_VERSION_1_07
    else if (major =? 2) && (minor =? 3) then TARGET_VERSION_2_03
    else if (major =? 2) && (minor =? 15) then TARGET_VERSION_2_15
    else if (major =? 3) && (minor =? 1) then TARGET_VERSION_3_01
    else if (major =? 4) && (minor =? 1) then TARGET_VERSION_4_01
    else if (major =? 4) && (minor =? 2) then TARGET_VERSION_4_02
    else TARGET_VERSION_UNKNOWN.
Proof.
  intros major minor.
  pose (tag := fun a b : Z =>
    match TargetVersionEnum_of_value
            (String.append (format_d a) (String.append "." (format_02 b))) with
    | Some v => v
    | None => TARGET_VERSION_UNKNOWN
    end).
  pose (table := fun a b : Z =>
    if (a =? 1) && (b =? 7) then TARGET_VERSION_1_07
    else if (a =? 2) && (b =? 3) then TARGET_VERSION_2_03
    else if (a =? 2) && (b =? 15) then TARGET_VERSION_2_15
    else if (a =? 3) && (b =? 1) then TARGET_VERSION_3_01
    else if (a =? 4) && (b =? 1) then TARGET_VERSION_4_01
    else if (a =? 4) && (b =? 2) then TARGET_VERSION_4_02
    else TARGET_VERSION_UNKNOWN).
  change (tag major minor = table major minor).
  assert (Hall : forallb (fun a =>
                    forallb (fun b =>
                       TargetVersionEnum_eqb (tag (Z.of_nat a) (Z.of_nat b))
                         (table (Z.of_nat a) (Z.of_nat b)))
                      (seq 0 256))
                   (seq 0 256) = true) by (vm_compute; reflexivity).
  assert (Ha : 0 <= major < 256).
  { unfold major. change 0xFF with (Z.ones 8). apply (land_ones_range _ 8). lia. }
  assert (Hb : 0 <= minor < 256).
  { unfold minor. change 0xFF with (Z.ones 8). apply (land_ones_range _ 8). lia. }
  rewrite forallb_forall in Hall.
  specialize (Hall (Z.to_nat major)).
  rewrite forallb_forall in Hall.
  specialize (Hall ltac:(apply in_seq; lia) (Z.to_nat minor) ltac:(apply in_seq; lia)).
  rewrite !Z2Nat.id in Hall by lia.
  apply TargetVersionEnum_eqb_eq, Hall.
Qed.

(** ** The mode registers *)

Lemma shiftr_eq_0_small w n : 0 <= n -> 0 <= w -> Z.shiftr w n = 0 -> w < 2 ^ n.
Proof.
  intros Hn Hw H. rewrite Z.shiftr_div_pow2 in H by exact Hn.
  assert (Hp : 0 < 2 ^ n) by (apply Z.pow_pos_nonneg; lia).
  pose proof (Z.div_mod w (2 ^ n) ltac:(lia)) as Hd.
  pose proof (Z.mod_pos_bound w (2 ^ n) Hp). rewrite H in Hd. lia.
Qed.

(** The word of a mode request: the set bits, the mask bits, two zero bytes;
    it always fits 32 bits. *)
Lemma mode_word mask_bits set_bits :
  let w := Z.lor (Z.shiftl (Z.land mask_bits 0xFF) 8) (Z.land set_bits 0xFF) in
  struct_pack_I w = Some [byte_of set_bits; byte_of mask_bits; x00; x00].
Proof.
  intros w.
  assert (E0 : Z.land w 0xFF = Z.land set_bits 0xFF).
  { unfold w. change 0xFF with (Z.ones 8).
    rewrite Z.land_lor_distr_l, land_ones_low by lia.
    rewrite Z.lor_0_l, <- Z.land_assoc, Z.land_diag. reflexivity. }
  assert (S8 : Z.shiftr w 8 = Z.land mask_bits 0xFF).
  { unfold w. change 0xFF with (Z.ones 8).
    rewrite Z.shiftr_lor, Z.shiftr_shiftl_l by lia. change (8 - 8) with 0.
    rewrite Z.shiftl_0_r, shiftr_small by lia. apply Z.lor_0_r. }
  assert (S16 : Z.shiftr w 16 = 0).
  { change 16 with (8 + 8). rewrite <- Z.shiftr_shiftr by lia. rewrite S8.
    change 0xFF with (Z.ones 8). apply shiftr_small. lia. }
  assert (S24 : Z.shiftr w 24 = 0).
  { change 24 with (16 + 8). rewrite <- Z.shiftr_shiftr by lia. rewrite S16.
    apply Z.shiftr_0_l. }
  assert (Hw : 0 <= w).
  { unfold w. apply Z.lor_nonneg. change 0xFF with (Z.ones 8). split.
    - apply Z.shiftl_nonneg. apply (land_ones_range _ 8). lia.
    - apply (land_ones_range _ 8). lia. }
  pose proof (shiftr_eq_0_small w 16 ltac:(lia) Hw S16) as Hlt.
  rewrite struct_pack_I_small by (change (2 ^ 32) with 4294967296;
                                  change (2 ^ 16) with 65536 in Hlt; lia).
  f_equal. unfold le_bytes. cbn [seq map].
  change (8 * Z.of_nat 0) with 0. change (8 * Z.of_nat 1) with 8.
  change (8 * Z.of_nat 2) with 16. change (8 * Z.of_nat 3) with 24.
  rewrite Z.shiftr_0_r, S16, S24.
  rewrite (byte_of_land _ _ E0).
  assert (E1 : Z.land (Z.shiftr w 8) 0xFF = Z.land mask_bits 0xFF).
  { rewrite S8, <- Z.land_assoc, Z.land_diag. reflexivity. }
  rewrite (byte_of_land _ _ E1). reflexivity.
Qed.

Lemma low_byte_of_word m b1 b2 b3 :
  Z.land (le_value [m; b1; b2; b3]) 0xFF = byte_val m.
Proof.
  pose proof (byte_val_range m).
  change 0xFF with (Z.ones 8). rewrite Z.land_ones by lia.
  cbn [le_value fold_right]. change (2 ^ 8) with 256.
  set (X := byte_val b1 + 256 * (byte_val b2 + 256 * (byte_val b3 + 256 * 0))).
  replace (byte_val m + 256 * X) with (byte_val m + X * 256) by lia.
  rewrite Z.mod_add by lia. apply Z.mod_small. lia.
Qed.

Lemma four_bytes (bs : bytes) :
  length bs = 4%nat -> exists m b1 b2 b3, bs = [m; b1; b2; b3].
Proof.
  intros H. do 4 (destruct bs as [ | ? bs]; [discriminate | ]).
  destruct bs; [ | discriminate]. do 4 eexists. reflexivity.
Qed.

(** X9. A host-mode exchange, for any mask and set bits, sends the packet
    [0x07] with the payload (set & 0xFF, mask & 0xFF, 0, 0) and never fails
    to pack it; of the frame that comes back it checks the id, then the
    length 4, raising the NetDimmException of the check that fails, and
    otherwise returns the first byte of the four, ignoring the other three.
    [__get_host_mode] is the exchange with mask 0xFF and set 0. *)
Theorem exchange_host_mode_reply fuel mask_bits set_bits st l0 l1 fl pid payload more :
  ready st ->
  rx_clean (rx (net st)) ->
  rx_stream (rx (net st)) = [l0; l1; fl; pid] ++ payload ++ more ->
  byte_val l0 + 256 * byte_val l1 = len payload ->
  (4 < fuel)%nat -> (length payload < fuel)%nat ->
  exists st',
    exchange_host_mode fuel mask_bits set_bits st
    = (if negb (byte_val pid =? 0x07) then
         Raise (NetDimmException
                  "Unexpected data returned from set host mode packet!") st'
       else if negb (len payload =? 4) then
         Raise (NetDimmException
                  "Unexpected data length returned from set host mode packet!") st'
       else Ok (byte_val (hd x00 payload)) st') /\
    sent st' = sent st
      ++ [frame (mkNetDimmPacket 0x07 0x00
                   [byte_of set_bits; byte_of mask_bits; x00; x00])] /\
    rx_stream (rx (net st')) = more /\
    self st' = self st /\
    get_host_mode fuel st = exchange_host_mode fuel 0xFF 0 st.
Proof.
  intros Hr Hc Hstream Hlen Hf4 Hfp.
  destruct (request_reply fuel st
              (mkNetDimmPacket 0x07 0x00
                 [byte_of set_bits; byte_of mask_bits; x00; x00])
              l0 l1 fl pid payload more Hr Hc Hstream Hlen Hf4 Hfp)
    as (s1 & s2 & H1 & H2 & _ & Hself & Hsent & _ & Hs).
  exists s2. split; [ | auto].
  unfold exchange_host_mode. rewrite mode_word. cbn [of_struct].
  unfold bind at 1. cbn [ret].
  rewrite (bind_Ok_intro _ _ _ _ _ H1), (bind_Ok_intro _ _ _ _ _ H2).
  unfold length_. cbn [pktid data].
  destruct (negb (byte_val pid =? 7)); [reflexivity | ].
  destruct (len payload =? 4) eqn:E4; cbn [negb]; [ | reflexivity].
  apply Z.eqb_eq in E4.
  destruct (four_bytes payload) as (m & b1 & b2 & b3 & ->);
    [unfold len in E4; lia | ].
  rewrite (struct_unpack_I_4 [m; b1; b2; b3] eq_refl). cbn [of_struct].
  unfold bind. cbn [ret hd]. rewrite low_byte_of_word. reflexivity.
Qed.

Lemma exchange_host_mode_reply_witness :
  exists st',
    get_host_mode 20
      (mkState (self connected_state)
         (mkNetwork true [RxData [x04; x00; x00; x07; x14; xaa; xbb; xcc]] [] 1 []))
    = Ok 20 st'.
Proof.
  destruct (exchange_host_mode_reply 20 0xFF 0
              (mkState (self connected_state)
                 (mkNetwork true [RxData [x04; x00; x00; x07; x14; xaa; xbb; xcc]]
                    [] 1 []))
              x04 x00 x00 x07 [x14; xaa; xbb; xcc] [])
    as (st' & E & _).
  - split; [discriminate | constructor].
  - repeat constructor; discriminate.
  - reflexivity.
  - reflexivity.
  - lia.
  - cbn. lia.
  - exists st'. exact E.
Defined.

(** X10. A DIMM-mode exchange does the same under the packet id [0x08]. *)
Theorem exchange_dimm_mode_reply fuel mask_bits set_bits st l0 l1 fl pid payload more :
  ready st ->
  rx_clean (rx (net st)) ->
  rx_stream (rx (net st)) = [l0; l1; fl; pid] ++ payload ++ more ->
  byte_val l0 + 256 * byte_val l1 = len payload ->
  (4 < fuel)%nat -> (length payload < fuel)%nat ->
  exists st',
    exchange_dimm_mode fuel mask_bits set_bits st
    = (if negb (byte_val pid =? 0x08) then
         Raise (NetDimmException
                  "Unexpected data returned from set dimm mode packet!") st'
       else if negb (len payload =? 4) then
         Raise (NetDimmException
                  "Unexpected data length returned from set dimm mode packet!") st'
       else Ok (byte_val (hd x00 payload)) st') /\
    sent st' = sent st
      ++ [frame (mkNetDimmPacket 0x08 0x00
                   [byte_of set_bits; byte_of mask_bits; x00; x00])] /\
    rx_stream (rx (net st')) = more /\
    self st' = self st /\
    get_dimm_mode fuel st = exchange_dimm_mode fuel 0xFF 0 st.
Proof.
  intros Hr Hc Hstream Hlen Hf4 Hfp.
  destruct (request_reply fuel st
              (mkNetDimmPacket 0x08 0x00
                 [byte_of set_bits; byte_of mask_bits; x00; x00])
              l0 l1 fl pid payload more Hr Hc Hstream Hlen Hf4 Hfp)
    as (s1 & s2 & H1 & H2 & _ & Hself & Hsent & _ & Hs).
  exists s2. split; [ | auto].
  unfold exchange_dimm_mode. rewrite mode_word. cbn [of_struct].
  unfold bind at 1. cbn [ret].
  rewrite (bind_Ok_intro _ _ _ _ _ H1), (bind_Ok_intro _ _ _ _ _ H2).
  unfold length_. cbn [pktid data].
  destruct (negb (byte_val pid =? 8)); [reflexivity | ].
  destruct (len payload =? 4) eqn:E4; cbn [negb]; [ | reflexivity].
  apply Z.eqb_eq in E4.
  destruct (four_bytes payload) as (m & b1 & b2 & b3 & ->);
    [unfold len in E4; lia | ].
  rewrite (struct_unpack_I_4 [m; b1; b2; b3] eq_refl). cbn [of_struct].
  unfold bind. cbn [ret hd]. rewrite low_byte_of_word. reflexivity.
Qed.

Lemma exchange_dimm_mode_reply_witness :
  exists st',
    set_dimm_mode 20 5
      (mkState (self connected_state)
         (mkNetwork true [RxData [x04; x00; x00; x08; x05; x00; x00; x00]] [] 1 []))
    = Ok tt st'.
Proof.
  destruct (exchange_dimm_mode_reply 20 0 5
              (mkState (self connected_state)
                 (mkNetwork true [RxData [x04; x00; x00; x08; x05; x00; x00; x00]]
                    [] 1 []))
              x04 x00 x00 x08 [x05; x00; x00; x00] [])
    as (st' & E & _).
  - split; [discriminate | constructor].
  - repeat constructor; discriminate.
  - reflexivity.
  - reflexivity.
  - lia.
  - cbn. lia.
  - exists st'. unfold set_dimm_mode. rewrite (bind_Ok_intro _ _ _ _ _ E).
    reflexivity.
Defined.

(** ** Download *)

Lemma slice_from_10 (d : bytes) :
  10 < len d -> slice d 10 (len d) = skipn 10 d.
Proof.
  intros H. unfold slice. change (Z.to_nat 10) with 10%nat.
  apply firstn_all2. rewrite length_skipn. unfold len in *. lia.
Qed.

Lemma unpack_IIH_prefix (d : bytes) :
  10 < len d -> struct_unpack_IIH (slice d 0 10) <> None.
Proof.
  intros H. unfold struct_unpack_IIH, slice.
  change (Z.to_nat (10 - 0)) with 10%nat. change (Z.to_nat 0) with 0%nat.
  cbn [skipn]. rewrite length_firstn.
  replace (Nat.min 10 (length d)) with 10%nat by (unfold len in H; lia).
  discriminate.
Qed.

(** One round of the download loop on a chunk that passes the checks. *)
Lemma download_round fuel read_fuel acc st chunk more :
  ready st ->
  rx_clean (rx (net st)) ->
  rx_stream (rx (net st)) = frame chunk ++ more ->
  pktid chunk = 0x04 -> 0 <= flags chunk < 256 -> 10 < length_ chunk < 65536 ->
  (4 < read_fuel)%nat -> (length (data chunk) < read_fuel)%nat ->
  exists s1,
    download_loop (S fuel) read_fuel acc st
    = (if negb (Z.land (flags chunk) 0x1 =? 0)
       then ret (acc ++ skipn 10 (data chunk)) s1
       else download_loop fuel read_fuel (acc ++ skipn 10 (data chunk)) s1) /\
    ready s1 /\ rx_clean (rx (net s1)) /\ rx_stream (rx (net s1)) = more /\
    self s1 = self st /\ sent s1 = sent st.
Proof.
  intros Hr Hc Hstream Hid Hfl Hlen Hf4 Hfp.
  destruct (recv_framed read_fuel st chunk more Hr Hc Hstream)
    as (s1 & H1 & Hs1 & Hc1 & Hself1 & Hsent1 & Hr1);
    try assumption; try lia.
  exists s1. split; [ | auto 10].
  cbn [download_loop]. rewrite (bind_Ok_intro _ _ _ _ _ H1).
  rewrite Hid. cbn [Z.eqb Pos.eqb negb].
  assert (E10 : (length_ chunk <=? 10) = false) by (apply Z.leb_gt; lia).
  rewrite E10.
  destruct (struct_unpack_IIH (slice (data chunk) 0 10)) as [[[q a] z] | ] eqn:Eu;
    [ | exfalso; apply (unpack_IIH_prefix (data chunk)); [apply Hlen | exact Eu]].
  cbn [of_struct]. unfold bind at 1. cbn [ret].
  unfold length_ in *. rewrite slice_from_10 by lia.
  destruct (negb (Z.land (flags chunk) 1 =? 0)); reflexivity.
Qed.

Lemma download_loop_collects read_fuel :
  forall body fuel acc st final more,
    ready st ->
    rx_clean (rx (net st)) ->
    rx_stream (rx (net st)) = concat (map frame (body ++ [final])) ++ more ->
    Forall (fun c => pktid c = 0x04 /\ 0 <= flags c < 256 /\
                     10 < length_ c < 65536 /\
                     (length (data c) < read_fuel)%nat) (body ++ [final]) ->
    Forall (fun c => Z.land (flags c) 0x1 = 0) body ->
    Z.land (flags final) 0x1 <> 0 ->
    (4 < read_fuel)%nat -> (length body < fuel)%nat ->
    exists st',
      download_loop fuel read_fuel acc st
      = Ok (acc ++ concat (map (fun c => skipn 10 (data c)) (body ++ [final]))) st' /\
      rx_stream (rx (net st')) = more /\
      self st' = self st /\ sent st' = sent st.
Proof.
  induction body as [ | c body IH];
    intros fuel acc st final more Hr Hc Hstream Hall Heven Hodd Hf4 Hfuel.
  - destruct fuel as [ | fuel]; [cbn in Hfuel; lia | ].
    cbn [app map concat] in *. rewrite app_nil_r in Hstream.
    inversion Hall as [ | ? ? (Hid & Hfl & Hlen & Hfp) _]; subst.
    destruct (download_round fuel read_fuel acc st final more Hr Hc Hstream Hid
                Hfl Hlen Hf4 Hfp) as (s1 & H1 & _ & _ & Hs1 & Hself1 & Hsent1).
    exists s1. rewrite H1, app_nil_r.
    destruct (Z.land (flags final) 1 =? 0) eqn:E;
      [apply Z.eqb_eq in E; contradiction | ].
    cbn [negb]. auto.
  - destruct fuel as [ | fuel]; [cbn in Hfuel; lia | ].
    cbn [app map concat] in *. rewrite <- app_assoc in Hstream.
    inversion Hall as [ | ? ? (Hid & Hfl & Hlen & Hfp) Hall']; subst.
    inversion Heven as [ | ? ? He Heven']; subst.
    destruct (download_round fuel read_fuel acc st c _ Hr Hc Hstream Hid
                Hfl Hlen Hf4 Hfp) as (s1 & H1 & Hr1 & Hc1 & Hs1 & Hself1 & Hsent1).
    rewrite H1, He. cbn [Z.eqb negb].
    destruct (IH fuel (acc ++ skipn 10 (data c)) s1 final more Hr1 Hc1 Hs1 Hall'
                Heven' Hodd Hf4 ltac:(cbn in Hfuel; lia))
      as (st' & Hrun & Hs' & Hself' & Hsent').
    exists st'. rewrite Hrun, <- app_assoc.
    split; [reflexivity | split; [exact Hs' | ]].
    split; [rewrite Hself'; exact Hself1 | rewrite Hsent'; exact Hsent1].
Qed.

(** X11. A download sends the request [0x05] with the address and the size
    and then collects the chunks [0x04] that come back, each with more than
    its 10 bytes of prefix: it returns what follows the prefix of each chunk,
    in order, up to and with the first chunk whose flags have the low bit
    set, and leaves the rest of the stream unread. *)
Theorem download_collects fuel addr size st body final more :
  ready st ->
  rx_clean (rx (net st)) ->
  rx_stream (rx (net st)) = concat (map frame (body ++ [final])) ++ more ->
  0 <= addr < 2 ^ 32 -> 0 <= size < 2 ^ 32 ->
  Forall (fun c => pktid c = 0x04 /\ 0 <= flags c < 256 /\
                   10 < length_ c < 65536 /\
                   (length (data c) < fuel)%nat) (body ++ [final]) ->
  Forall (fun c => Z.land (flags c) 0x1 = 0) body ->
  Z.land (flags final) 0x1 <> 0 ->
  (4 < fuel)%nat -> (length body < fuel)%nat ->
  exists st',
    download fuel addr size st
    = Ok (concat (map (fun c => skipn 10 (data c)) (body ++ [final]))) st' /\
    sent st' = sent st
      ++ [frame (mkNetDimmPacket 0x05 0x00 (le_bytes 4 addr ++ le_bytes 4 size))] /\
    rx_stream (rx (net st')) = more /\
    self st' = self st.
Proof.
  intros Hr Hc Hstream Ha Hsz Hall Heven Hodd Hf4 Hfuel.
  destruct (send_packet_step
              (mkNetDimmPacket 0x05 0x00 (le_bytes 4 addr ++ le_bytes 4 size))
              st Hr) as (s1 & H1 & Hr1).
  pose proof (send_packet_Ok _ _ _ _ H1) as (Hself1 & Hsent1 & Hrx1 & _).
  destruct (download_loop_collects fuel body fuel [] s1 final more Hr1)
    as (st' & Hrun & Hs' & Hself' & Hsent'); try assumption;
    try (rewrite Hrx1; assumption).
  exists st'. split; [ | split; [ | split]].
  - unfold download, struct_pack_II.
    rewrite !struct_pack_I_small by assumption. cbn [of_struct].
    unfold bind at 1. cbn [ret]. rewrite (bind_Ok_intro _ _ _ _ _ H1).
    exact Hrun.
  - rewrite Hsent'. exact Hsent1.
  - exact Hs'.
  - rewrite Hself'. exact Hself1.
Qed.

Lemma download_collects_witness :
  exists st',
    download 20 0x1000 24
      (mkState (self connected_state)
         (mkNetwork true
            [RxData (frame (upload_packet 1 0x1000 [x0a; x0b] false));
             RxData (frame (upload_packet 2 0x1002 [x0c] true))]
            [] 1 []))
    = Ok [x0a; x0b; x0c] st'.
Proof.
  destruct (download_collects 20 0x1000 24
              (mkState (self connected_state)
                 (mkNetwork true
                    [RxData (frame (upload_packet 1 0x1000 [x0a; x0b] false));
                     RxData (frame (upload_packet 2 0x1002 [x0c] true))]
                    [] 1 []))
              [upload_packet 1 0x1000 [x0a; x0b] false]
              (upload_packet 2 0x1002 [x0c] true) [])
    as (st' & E & _).
  - split; [discriminate | constructor].
  - repeat constructor; discriminate.
  - reflexivity.
  - vm_compute. split; [discriminate | reflexivity].
  - vm_compute. split; [discriminate | reflexivity].
  - repeat constructor; vm_compute; try reflexivity; try discriminate; lia.
  - repeat constructor.
  - vm_compute. discriminate.
  - lia.
  - cbn. lia.
  - exists st'. exact E.
Defined.

(** X12. A download stops with a NetDimmException at the first chunk that is
    not a packet [0x04] or that has no more than the 10 bytes of the prefix;
    nothing of it is returned. *)
Theorem download_rejects fuel addr size st l0 l1 fl pid payload more :
  ready st ->
  rx_clean (rx (net st)) ->
  rx_stream (rx (net st)) = [l0; l1; fl; pid] ++ payload ++ more ->
  byte_val l0 + 256 * byte_val l1 = len payload ->
  0 <= addr < 2 ^ 32 -> 0 <= size < 2 ^ 32 ->
  (4 < fuel)%nat -> (length payload < fuel)%nat ->
  byte_val pid <> 0x04 \/ len payload <= 10 ->
  exists st',
    download fuel addr size st
    = Raise (NetDimmException
               (if byte_val pid =? 0x04
                then "Unexpected data length returned from download packet!"
                else "Unexpected data returned from download packet!")) st' /\
    sent st' = sent st
      ++ [frame (mkNetDimmPacket 0x05 0x00 (le_bytes 4 addr ++ le_bytes 4 size))].
Proof.
  intros Hr Hc Hstream Hlen Ha Hsz Hf4 Hfp Hbad.
  destruct (request_reply fuel st
              (mkNetDimmPacket 0x05 0x00 (le_bytes 4 addr ++ le_bytes 4 size))
              l0 l1 fl pid payload more Hr Hc Hstream Hlen Hf4 Hfp)
    as (s1 & s2 & H1 & H2 & _ & _ & Hsent & _).
  exists s2. split; [ | exact Hsent].
  unfold download, struct_pack_II.
  rewrite !struct_pack_I_small by assumption. cbn [of_struct].
  unfold bind at 1. cbn [ret]. rewrite (bind_Ok_intro _ _ _ _ _ H1).
  destruct fuel as [ | fuel']; [lia | ].
  cbn [download_loop]. rewrite (bind_Ok_intro _ _ _ _ _ H2).
  unfold length_. cbn [pktid data].
  destruct (byte_val pid =? 4) eqn:E; cbn [negb]; [ | reflexivity].
  destruct (len payload <=? 10) eqn:E'; [reflexivity | ].
  apply Z.eqb_eq in E. apply Z.leb_gt in E'. destruct Hbad; [contradiction | lia].
Qed.

Lemma download_rejects_witness :
  exists st',
    download 20 0 16
      (mkState (self connected_state)
         (mkNetwork true [RxData (frame (upload_packet 1 0 [] true))] [] 1 []))
    = Raise (NetDimmException
               "Unexpected data length returned from download packet!") st'.
Proof.
  destruct (download_rejects 20 0 16
              (mkState (self connected_state)
                 (mkNetwork true [RxData (frame (upload_packet 1 0 [] true))] [] 1 []))
              x0a x00 x81 x04
              [x01; x00; x00; x00; x00; x00; x00; x00; x00; x00] [])
    as (st' & E & _).
  - split; [discriminate | constructor].
  - repeat constructor; discriminate.
  - reflexivity.
  - reflexivity.
  - vm_compute. split; [discriminate | reflexivity].
  - vm_compute. split; [discriminate | reflexivity].
  - lia.
  - cbn. lia.
  - right. vm_compute. discriminate.
  - exists st'. exact E.
Defined.

(** ** The CRC helper and the payload a [send] delivers *)

Lemma crc_complement (data : bytes) : crc data = 0xFFFFFFFF - zlib_crc32 data 0.
Proof.
  unfold crc. cbv zeta.
  pose proof (zlib_crc32_range data 0) as Hc.
  change 0xFFFFFFFF with (Z.ones 32) at 1. rewrite Z.land_ones by lia.
  unfold Z.lnot.
  replace (Z.pred (- zlib_crc32 data 0))
    with (0xFFFFFFFF - zlib_crc32 data 0 + (-1) * 2 ^ 32) by lia.
  rewrite Z.mod_add by lia. apply Z.mod_small. lia.
Qed.

Lemma upload_crc_plain des_block (data : bytes) :
  upload_crc des_block None data = zlib_crc32 data 0.
Proof.
  rewrite upload_crc_chunks.
  rewrite (map_ext _ _ (ciphertext_plain des_block data)).
  rewrite crc_chunkwise by lia. rewrite concat_chunks. reflexivity.
Qed.

(** X13. [NetDimm.crc] is a 32-bit value, the complement [0xFFFFFFFF - c] of
    the CRC32 [c] of the data, and it is the checksum that a [send] without a
    key (absent or empty) writes in set-info, its last command, beside the
    length of the data. *)
Theorem crc_is_what_send_reports des_block fuel data key cb st st' :
  truthy key = false ->
  send des_block fuel data key cb st = Ok tt st' ->
  0 <= crc data < 2 ^ 32 /\
  crc data = 0xFFFFFFFF - zlib_crc32 data 0 /\
  exists before,
    sent st' = before ++ [frame (set_info_packet (crc data) (len data))].
Proof.
  intros Hk H.
  pose proof (zlib_crc32_range data 0) as Hc.
  split; [rewrite crc_complement; lia | ].
  split; [apply crc_complement | ].
  apply send_Ok in H. destruct H as (Hsent & _).
  rewrite (engine_falsy key Hk), upload_crc_plain in Hsent.
  rewrite !app_assoc in Hsent. eexists. exact Hsent.
Qed.

Lemma crc_is_what_send_reports_witness :
  exists st' before,
    send xor_block 3 block_00_07 None None
      (sample_state TARGET_NAOMI TARGET_VERSION_UNKNOWN true
         [RxData host_mode_reply] [])
    = Ok tt st' /\
    sent st' = before ++ [frame (set_info_packet (crc block_00_07) 8)].
Proof.
  destruct (send xor_block 3 block_00_07 None None
              (sample_state TARGET_NAOMI TARGET_VERSION_UNKNOWN true
                 [RxData host_mode_reply] [])) as [[] st' | e st' | ] eqn:E.
  - destruct (crc_is_what_send_reports xor_block 3 block_00_07 None None _ st'
                eq_refl E) as (_ & _ & before & Hsent).
    exists st', before. split; [reflexivity | exact Hsent].
  - vm_compute in E. discriminate E.
  - vm_compute in E. discriminate E.
Defined.

(** ** The socket at the end of an operation *)

Lemma operations_close_once_witness :
  exists e st',
    info 10 (sample_state TARGET_NAOMI TARGET_VERSION_UNKNOWN true [RxError] [])
    = Raise e st' /\
    sock (self st') = None /\
    closes 0 (events (net st')) = 1%nat.
Proof.
  pose proof (operations_close_once xor_block 10 [] None None
                (sample_state TARGET_NAOMI TARGET_VERSION_UNKNOWN true [RxError] [])
                eq_refl) as (Hinfo & _).
  destruct (info 10 (sample_state TARGET_NAOMI TARGET_VERSION_UNKNOWN true
                       [RxError] [])) as [i st' | e st' | ] eqn:E.
  - vm_compute in E. discriminate E.
  - exists e, st'. split; [reflexivity | exact Hinfo].
  - vm_compute in E. discriminate E.
Defined.

(** ** What an operation adds to the log *)

Lemma recv_calls_app a b : recv_calls (a ++ b) = recv_calls a ++ recv_calls b.
Proof.
  induction a as [ | e a IH]; [reflexivity | ].
  destruct e; cbn [app recv_calls]; rewrite IH; reflexivity.
Qed.

Lemma progress_calls_app a b :
  progress_calls (a ++ b) = progress_calls a ++ progress_calls b.
Proof.
  induction a as [ | e a IH]; [reflexivity | ].
  destruct e; cbn [app progress_calls]; rewrite IH; reflexivity.
Qed.

Create HintDb silent.

Section Silent.

Context {X : Type} (view : list Event -> list X).

Hypothesis view_app : forall a b, view (a ++ b) = view a ++ view b.
Hypothesis view_send : forall id buf k, view [EvSend id buf k] = [].
Hypothesis view_send_fail : forall id buf, view [EvSendFail id buf] = [].
Hypothesis view_progress : forall cur tot, view [EvProgress cur tot] = [].
Hypothesis view_recv : forall id n res, view [EvRecv id n res] = [].
Hypothesis view_socket : forall id, view [EvSocket id] = [].
Hypothesis view_connect : forall id ok, view [EvConnect id ok] = [].
Hypothesis view_close : forall id, view [EvClose id] = [].

Lemma silent_ret {A : Type} (a : A) : silent view (ret a).
Proof. intros st. reflexivity. Qed.

Lemma silent_raise {A : Type} e : silent view (@raise A e).
Proof. intros st. reflexivity. Qed.

Lemma silent_out_of_fuel {A : Type} : silent view (@out_of_fuel A).
Proof. intros st. exact I. Qed.

Lemma silent_bind {A B : Type} (m : M A) (f : A -> M B) :
  silent view m -> (forall a, silent view (f a)) -> silent view (bind m f).
Proof.
  intros Hm Hf st. unfold bind. specialize (Hm st).
  destruct (m st) as [a s1 | e s1 | ]; [ | exact Hm | exact I].
  specialize (Hf a s1).
  destruct (f a s1) as [b s2 | e s2 | ]; [ | | exact I]; congruence.
Qed.

Lemma silent_try_except {A : Type} (m : M A) h :
  silent view m -> (forall e, silent view (h e)) -> silent view (try_except m h).
Proof.
  intros Hm Hh st. unfold try_except. specialize (Hm st).
  destruct (m st) as [a s1 | e s1 | ]; [exact Hm | | exact I].
  specialize (Hh e s1).
  destruct (h e s1) as [b s2 | e2 s2 | ]; [ | | exact I]; congruence.
Qed.

Lemma silent_try_finally {A : Type} (m : M A) fin :
  silent view m -> silent view fin -> silent view (try_finally m fin).
Proof.
  intros Hm Hf st. unfold try_finally. specialize (Hm st).
  destruct (m st) as [a s1 | e s1 | ]; [ | | exact I];
    specialize (Hf s1);
    (destruct (fin s1) as [b s2 | e2 s2 | ]; [ | | exact I]); congruence.
Qed.

Lemma silent_of_struct {A : Type} (o : option A) : silent view (of_struct o).
Proof. destruct o; [apply silent_ret | apply silent_raise]. Qed.

Lemma silent_of_crypto {A : Type} (o : option A) : silent view (of_crypto o).
Proof. destruct o; [apply silent_ret | apply silent_raise]. Qed.

Lemma silent_get_sock : silent view get_sock.
Proof. intros st. reflexivity. Qed.

Lemma silent_set_sock s : silent view (set_sock s).
Proof. intros st. reflexivity. Qed.

Lemma silent_socket_settimeout id seconds :
  silent view (socket_settimeout id seconds).
Proof. intros st. reflexivity. Qed.

Lemma silent_socket_send id buf : silent view (socket_send id buf).
Proof.
  intros st. unfold socket_send. cbv zeta.
  destruct (tx (net st)) as [ | [k | ] later];
    cbn [with_net net events log_event]; rewrite view_app;
    rewrite ?view_send, ?view_send_fail; apply app_nil_r.
Qed.

Lemma silent_socket_recv id n : silent view (socket_recv id n).
Proof.
  intros st. unfold socket_recv. cbv zeta.
  destruct (rx_recv (Z.to_nat n) (rx (net st))) as [[bs | ] later];
    cbn [with_net net events]; rewrite view_app, view_recv; apply app_nil_r.
Qed.

Lemma silent_call_progress cb cur tot : silent view (call_progress cb cur tot).
Proof.
  intros st. unfold call_progress. cbv zeta.
  destruct (cb cur tot); cbn [with_net net events log_event];
    rewrite view_app, view_progress; apply app_nil_r.
Qed.

Lemma silent_socket_socket : silent view socket_socket.
Proof.
  intros st. unfold socket_socket. cbv zeta. cbn [with_net net events].
  rewrite view_app, view_socket. apply app_nil_r.
Qed.

Lemma silent_socket_connect id : silent view (socket_connect id).
Proof.
  intros st. unfold socket_connect. cbv zeta.
  destruct (connect_ok (net st)); cbn [with_net net events log_event];
    rewrite view_app, view_connect; apply app_nil_r.
Qed.

Lemma silent_socket_close id : silent view (socket_close id).
Proof.
  intros st. unfold socket_close. cbn [with_net net events log_event].
  rewrite view_app, view_close. apply app_nil_r.
Qed.

#[local] Hint Resolve silent_ret silent_raise silent_out_of_fuel
  silent_of_struct silent_of_crypto silent_get_sock silent_set_sock
  silent_socket_settimeout silent_socket_send silent_socket_recv
  silent_call_progress silent_socket_socket silent_socket_connect
  silent_socket_close : silent.

(** Takes a sequence of steps apart, down to the steps already known. *)
Ltac silent :=
  repeat first
    [ solve [auto with silent]
    | apply silent_bind; [ | intros ? ]
    | apply silent_try_except; [ | intros ? ]
    | apply silent_try_finally
    | match goal with
      | |- silent _ (if ?b then _ else _) => destruct b
      | |- silent _ (match ?x with _ => _ end) => destruct x
      | |- silent _ (let '(_, _) := ?x in _) => destruct x
      end ].

Lemma silent_send_packet p : silent view (send_packet p).
Proof. unfold send_packet. silent. Qed.

#[local] Hint Resolve silent_send_packet : silent.

Lemma silent_read_loop fuel id :
  forall left res, silent view (read_loop fuel id left res).
Proof.
  induction fuel as [ | fuel IH]; intros left res; cbn [read_loop]; silent.
Qed.

#[local] Hint Resolve silent_read_loop : silent.

Lemma silent_recv_packet fuel : silent view (recv_packet fuel).
Proof. unfold recv_packet, read. silent. Qed.

#[local] Hint Resolve silent_recv_packet : silent.

Lemma silent_set_key_code k : silent view (set_key_code k).
Proof. unfold set_key_code. silent. Qed.

Lemma silent_upload q a d l : silent view (upload q a d l).
Proof. unfold upload. silent. Qed.

Lemma silent_set_information c l : silent view (set_information c l).
Proof. unfold set_information. silent. Qed.

Lemma silent_host_poke4 a v : silent view (host_poke4 a v).
Proof. unfold host_poke4. silent. Qed.

Lemma silent_set_time_limit m : silent view (set_time_limit m).
Proof. unfold set_time_limit. silent. Qed.

Lemma silent_exchange_host_mode fuel m s :
  silent view (exchange_host_mode fuel m s).
Proof. unfold exchange_host_mode. silent. Qed.

Lemma silent_get_information fuel : silent view (get_information fuel).
Proof. unfold get_information. silent. Qed.

#[local] Hint Resolve silent_set_key_code silent_upload silent_set_information
  silent_host_poke4 silent_set_time_limit silent_exchange_host_mode
  silent_get_information : silent.

Lemma silent_upload_loop des_block fuel data total des cb :
  forall crc addr sequence,
    silent view (upload_loop des_block fuel data total des cb crc addr sequence).
Proof.
  induction fuel as [ | fuel IH]; intros crc addr sequence; cbn [upload_loop].
  - apply silent_out_of_fuel.
  - unfold print_. silent.
Qed.

#[local] Hint Resolve silent_upload_loop : silent.

Lemma silent_upload_file des_block fuel data key cb :
  silent view (upload_file des_block fuel data key cb).
Proof. unfold upload_file, print_. silent. Qed.

Lemma silent_patch_boot_id_check : silent view patch_boot_id_check.
Proof.
  intros st. unfold patch_boot_id_check.
  destruct (patch_addr (version (self st))) as [addr | ]; [ | reflexivity].
  destruct (TargetVersionEnum_eqb (version (self st)) TARGET_VERSION_3_01).
  - apply silent_host_poke4.
  - assert (K : silent view
                  (host_poke4 (addr + 0) 0x4e800020 ;;
                   host_poke4 (addr + 4) 0x38600000 ;;
                   host_poke4 (addr + 8) 0x4e800020 ;;
                   host_poke4 (addr + 12) 0x60000000)) by silent.
    apply K.
Qed.

Lemma silent_connection {A : Type} (body : M A) :
  silent view body -> silent view (connection body).
Proof. intros Hb. unfold connection, startup. silent. Qed.

Lemma silent_reboot : silent view reboot.
Proof.
  unfold reboot. apply silent_connection. unfold restart. silent. intros st.
  destruct (TargetEnum_eqb (target (self st)) TARGET_TRIFORCE).
  - apply silent_patch_boot_id_check.
  - reflexivity.
Qed.

Lemma silent_info fuel : silent view (info fuel).
Proof. unfold info. apply silent_connection, silent_get_information. Qed.

End Silent.

Lemma silent_Ok {X A : Type} (view : list Event -> list X) (m : M A) st a st' :
  silent view m -> m st = Ok a st' ->
  view (events (net st')) = view (events (net st)).
Proof. intros Hm H. specialize (Hm st). rewrite H in Hm. exact Hm. Qed.

(** X15. An upload and a reboot never read from the socket: the log shows no
    [recv] call of theirs, whether they return or raise.  What the device
    makes of the chunks, of set-info or of the restart is not waited for. *)
Theorem upload_and_reboot_never_receive des_block fuel data key cb :
  silent recv_calls (upload_file des_block fuel data key cb) /\
  silent recv_calls reboot.
Proof.
  split.
  - apply silent_upload_file; try reflexivity. apply recv_calls_app.
  - apply silent_reboot; try reflexivity. apply recv_calls_app.
Qed.

(** ** The progress callback *)

Lemma progress_silent_sends {A : Type} (m : M A) :
  (forall (view : list Event -> list (Z * Z)),
     (forall a b, view (a ++ b) = view a ++ view b) ->
     (forall id buf k, view [EvSend id buf k] = []) ->
     (forall id buf, view [EvSendFail id buf] = []) ->
     silent view m) ->
  silent progress_calls m.
Proof. intros H. apply H; try reflexivity. apply progress_calls_app. Qed.

Lemma call_progress_calls f cur tot st u st' :
  call_progress f cur tot st = Ok u st' ->
  progress_calls (events (net st'))
  = progress_calls (events (net st)) ++ [(cur, tot)].
Proof.
  unfold call_progress. destruct (f cur tot); intros H; inversion H.
  cbn [with_net net events log_event]. apply progress_calls_app.
Qed.

(** A loop that has returned, entered before chunk [k], has called the
    callback once for each chunk from [k] on, with the chunk's address. *)
Lemma upload_loop_progress des_block des f data fuel :
  forall (k : nat) crc addr sequence st r st',
    addr = Z.min (0x8000 * Z.of_nat k) (len data) ->
    upload_loop des_block fuel data (len data) des (Some f) crc addr sequence st
      = Ok r st' ->
    let n := nchunks (len data) in
    progress_calls (events (net st'))
    = progress_calls (events (net st))
        ++ map (fun i => (0x8000 * Z.of_nat i, len data)) (seq k (n - k)).
Proof.
  induction fuel as [ | fuel IH]; intros k crc addr sequence st r st' Ha H n.
  - discriminate.
  - cbn [upload_loop] in H.
    pose proof (len_nonneg data) as Hlen.
    pose proof (nchunks_lt (len data) k Hlen) as Hk. fold n in Hk.
    destruct (addr <? len data) eqn:E.
    + assert (Hlt : 0x8000 * Z.of_nat k < len data) by lia.
      assert (Haddr : addr = 0x8000 * Z.of_nat k) by lia.
      assert (Hkn : (k < n)%nat) by (apply Hk; exact Hlt).
      step_ok H as u0 s0 H0. apply ret_Ok in H0. destruct H0 as [_ ->].
      step_ok H as u1 s1 H1. apply call_progress_calls in H1.
      step_ok H as ct s2 H2. apply of_crypto_Ok in H2. destruct H2 as [_ ->].
      step_ok H as u3 s3 H3.
      apply (silent_Ok progress_calls) in H3;
        [ | apply progress_silent_sends; intros; apply silent_upload; assumption].
      assert (Hnext : addr + len (slice data addr (addr + 0x8000))
                      = Z.min (0x8000 * Z.of_nat (S k)) (len data)).
      { rewrite Haddr. fold (chunk_at data k). rewrite chunk_len. lia. }
      apply (IH (S k)) in H; [ | exact Hnext].
      fold n in H. rewrite H, H3, H1, <- app_assoc.
      replace (n - k)%nat with (S (n - S k)) by lia.
      cbn [seq map app]. rewrite Haddr. reflexivity.
    + assert (Hge : ~ (k < n)%nat) by (rewrite Hk; lia).
      replace (n - k)%nat with O by lia. cbn [seq map].
      apply ret_Ok in H. destruct H as [_ ->]. symmetry. apply app_nil_r.
Qed.

Lemma upload_file_progress des_block fuel data key f st u st' :
  upload_file des_block fuel data key (Some f) st = Ok u st' ->
  progress_calls (events (net st'))
  = progress_calls (events (net st))
      ++ chunk_progress (len data) (nchunks (len data)).
Proof.
  intros H. unfold upload_file in H.
  step_ok H as d s0 H0.
  assert (Hs0 : s0 = st).
  { destruct key as [k | ].
    - destruct (truthy (Some k)).
      + step_ok H0 as e s1 H1. apply of_crypto_Ok in H1. destruct H1 as [_ ->].
        apply ret_Ok in H0. destruct H0 as [_ ->]. reflexivity.
      + apply ret_Ok in H0. destruct H0 as [_ ->]. reflexivity.
    - apply ret_Ok in H0. destruct H0 as [_ ->]. reflexivity. }
  subst s0. clear H0.
  step_ok H as r s1 H1.
  apply (upload_loop_progress des_block d f data fuel 0) in H1;
    [ | pose proof (len_nonneg data); lia].
  destruct r as [c a].
  step_ok H as u2 s2 H2. apply ret_Ok in H2. destruct H2 as [_ ->].
  apply (silent_Ok progress_calls) in H;
    [ | apply progress_silent_sends; intros; apply silent_set_information;
        assumption].
  rewrite H, H1, Nat.sub_0_r. reflexivity.
Qed.

Lemma connection_Ok_run {A : Type} (body : M A) st a st' :
  connection body st = Ok a st' ->
  exists s1 s2 id,
    startup (opened st true) = Ok tt s1 /\
    body s1 = Ok a s2 /\
    sock (self s2) = Some id /\
    st' = released s2 id.
Proof.
  intros H. destruct (connect_ok (net st)) eqn:Hc.
  - rewrite (connection_accepted body st Hc) in H. unfold try_finally in H.
    destruct ((startup ;; body) (opened st true)) as [a' s2 | e s2 | ] eqn:Hb;
      [ | | discriminate].
    + match type of H with
      | match ?f s2 with _ => _ end = _ => destruct (f s2) as [u s3 | e s3 | ] eqn:Hf
      end; try discriminate.
      inversion H; subst a' s3. clear H.
      apply finally_Ok in Hf. destruct Hf as (id & Hs & ->).
      step_ok Hb as u0 s1 H1. destruct u0.
      exists s1, s2, id. auto.
    + match type of H with
      | match ?f s2 with _ => _ end = _ => destruct (f s2) as [u s3 | e' s3 | ]
      end; discriminate.
  - rewrite (connection_refused body st Hc) in H. discriminate.
Qed.

(** X16. A [send] with a callback that returns has called it with
    [(0, total)] at the start and then once before each chunk with
    [(0x8000 * i, total)], [i] from 0 up: the first chunk is announced twice
    over, and no call before a chunk has [cur = total]: completion is never
    reported. *)
Theorem send_progress_calls des_block fuel data key f st st' :
  send des_block fuel data key (Some f) st = Ok tt st' ->
  progress_calls (events (net st'))
  = progress_calls (events (net st))
      ++ (0, len data) :: chunk_progress (len data) (nchunks (len data)) /\
  ~ In (len data, len data) (chunk_progress (len data) (nchunks (len data))).
Proof.
  intros H. split.
  - unfold send in H. apply connection_Ok_run in H.
    destruct H as (s0 & s4 & id & H0 & Hb & _ & ->).
    assert (P : forall {A : Type} (m : M A),
              (forall (view : list Event -> list (Z * Z)),
                 (forall a b, view (a ++ b) = view a ++ view b) ->
                 (forall id buf k, view [EvSend id buf k] = []) ->
                 (forall id buf, view [EvSendFail id buf] = []) ->
                 (forall id n res, view [EvRecv id n res] = []) ->
                 silent view m) ->
              silent progress_calls m).
    { intros A m Hm. apply Hm; try reflexivity. apply progress_calls_app. }
    apply (silent_Ok progress_calls) in H0;
      [ | apply P; intros; apply silent_send_packet; assumption].
    step_ok Hb as u1 s1 H1. apply call_progress_calls in H1.
    step_ok Hb as u2 s2 H2.
    apply (silent_Ok progress_calls) in H2;
      [ | apply P; intros; unfold set_host_mode; apply silent_bind;
          [apply silent_exchange_host_mode; assumption
          | intros; apply silent_ret]].
    step_ok Hb as u3 s3 H3.
    assert (H3' : progress_calls (events (net s3))
                  = progress_calls (events (net s2))).
    { rewrite set_key_code_key in H3.
      apply (silent_Ok progress_calls) in H3; [exact H3 | ].
      apply P; intros; apply silent_set_key_code; assumption. }
    apply upload_file_progress in Hb.
    cbn [released with_sock with_net net log_event events].
    rewrite progress_calls_app, app_nil_r.
    rewrite Hb, H3', H2, H1, H0.
    cbn [opened net events]. rewrite !progress_calls_app, !app_nil_r.
    rewrite <- app_assoc. reflexivity.
  - unfold chunk_progress. rewrite in_map_iff. intros (i & E & Hi).
    apply in_seq in Hi.
    pose proof (nchunks_lt (len data) i (len_nonneg data)) as Hk.
    assert (E1 : 0x8000 * Z.of_nat i = len data) by congruence. lia.
Qed.

Lemma send_progress_calls_witness :
  exists st',
    send xor_block 3 block_00_07 None (Some (fun _ _ => true))
      (sample_state TARGET_NAOMI TARGET_VERSION_UNKNOWN true
         [RxData host_mode_reply] [])
    = Ok tt st' /\
    progress_calls (events (net st')) = [(0, 8); (0, 8)].
Proof.
  destruct (send xor_block 3 block_00_07 None (Some (fun _ _ => true))
              (sample_state TARGET_NAOMI TARGET_VERSION_UNKNOWN true
                 [RxData host_mode_reply] [])) as [[] st' | e st' | ] eqn:E.
  - destruct (send_progress_calls xor_block 3 block_00_07 None _ _ st' E)
      as (Hcalls & _).
    exists st'. split; [reflexivity | exact Hcalls].
  - vm_compute in E. discriminate E.
  - vm_compute in E. discriminate E.
Defined.

(** ** The guard against a missing socket *)

Lemma connected_ret {A : Type} (a : A) : stays_connected (ret a).
Proof. intros st _. reflexivity. Qed.

Lemma connected_raise {A : Type} e :
  e <> not_connected -> stays_connected (@raise A e).
Proof. intros He st _. split; [reflexivity | exact He]. Qed.

Lemma connected_out_of_fuel {A : Type} : stays_connected (@out_of_fuel A).
Proof. intros st _. exact I. Qed.

Lemma connected_bind {A B : Type} (m : M A) (f : A -> M B) :
  stays_connected m -> (forall a, stays_connected (f a)) ->
  stays_connected (bind m f).
Proof.
  intros Hm Hf st Hs. unfold bind. specialize (Hm st Hs).
  destruct (m st) as [a s1 | e s1 | ]; [ | exact Hm | exact I].
  specialize (Hf a s1). rewrite Hm in Hf. specialize (Hf Hs).
  destruct (f a s1) as [b s2 | e s2 | ]; [ | | exact I].
  - congruence.
  - destruct Hf as [E He]. split; [congruence | exact He].
Qed.

(** Where the guard stands: with a socket, the branch that raises is not
    taken. *)
Lemma connected_guard {A : Type} (k : nat -> M A) :
  (forall id, stays_connected (k id)) ->
  stays_connected
    (s <- get_sock ;;
     match s with
     | None => raise not_connected
     | Some id => k id
     end).
Proof.
  intros Hk st Hs. unfold bind, get_sock.
  destruct (sock (self st)) as [id | ] eqn:E; [ | congruence].
  apply Hk. congruence.
Qed.

Lemma connected_of_struct {A : Type} (o : option A) :
  stays_connected (of_struct o).
Proof.
  destruct o; [apply connected_ret | apply connected_raise; discriminate].
Qed.

Lemma connected_of_crypto {A : Type} (o : option A) :
  stays_connected (of_crypto o).
Proof.
  destruct o; [apply connected_ret | apply connected_raise; discriminate].
Qed.

Lemma connected_socket_send id buf : stays_connected (socket_send id buf).
Proof.
  intros st _. unfold socket_send. cbv zeta.
  destruct (tx (net st)) as [ | [k | ] later]; cbn; try reflexivity.
  split; [reflexivity | discriminate].
Qed.

Lemma connected_socket_recv id n : stays_connected (socket_recv id n).
Proof.
  intros st _. unfold socket_recv. cbv zeta.
  destruct (rx_recv (Z.to_nat n) (rx (net st))) as [[bs | ] later]; cbn;
    try reflexivity.
  split; [reflexivity | discriminate].
Qed.

Lemma connected_call_progress cb cur tot :
  stays_connected (call_progress cb cur tot).
Proof.
  intros st _. unfold call_progress. cbv zeta.
  destruct (cb cur tot); cbn; try reflexivity.
  split; [reflexivity | discriminate].
Qed.

Create HintDb connected.

#[local] Hint Resolve connected_ret connected_out_of_fuel connected_of_struct
  connected_of_crypto connected_socket_send connected_socket_recv
  connected_call_progress : connected.

#[local] Hint Extern 1 (stays_connected (raise _)) =>
  apply connected_raise; discriminate : connected.

(** Takes a sequence of steps apart, down to the steps already known. *)
Ltac connected :=
  repeat first
    [ solve [auto with connected]
    | apply connected_bind; [ | intros ? ]
    | match goal with
      | |- stays_connected (if ?b then _ else _) => destruct b
      | |- stays_connected (match ?x with _ => _ end) => destruct x
      | |- stays_connected (let '(_, _) := ?x in _) => destruct x
      end ].

Lemma connected_send_packet p : stays_connected (send_packet p).
Proof. unfold send_packet. apply connected_guard. intros id. connected. Qed.

Lemma connected_read_loop fuel id :
  forall left res, stays_connected (read_loop fuel id left res).
Proof.
  induction fuel as [ | fuel IH]; intros left res; cbn [read_loop]; connected.
Qed.

#[local] Hint Resolve connected_send_packet connected_read_loop : connected.

Lemma connected_read fuel num : stays_connected (read fuel num).
Proof. unfold read. apply connected_guard. intros id. connected. Qed.

#[local] Hint Resolve connected_read : connected.

Lemma connected_recv_packet fuel : stays_connected (recv_packet fuel).
Proof. unfold recv_packet. connected. Qed.

#[local] Hint Resolve connected_recv_packet : connected.

Lemma connected_exchange_host_mode fuel m s :
  stays_connected (exchange_host_mode fuel m s).
Proof. unfold exchange_host_mode. connected. Qed.

Lemma connected_set_key_code k : stays_connected (set_key_code k).
Proof. unfold set_key_code. connected. Qed.

Lemma connected_upload q a d l : stays_connected (upload q a d l).
Proof. unfold upload. connected. Qed.

Lemma connected_set_information c l : stays_connected (set_information c l).
Proof. unfold set_information. connected. Qed.

Lemma connected_host_poke4 a v : stays_connected (host_poke4 a v).
Proof. unfold host_poke4. connected. Qed.

Lemma connected_set_time_limit m : stays_connected (set_time_limit m).
Proof. unfold set_time_limit. connected. Qed.

Lemma connected_get_information fuel : stays_connected (get_information fuel).
Proof. unfold get_information. connected. Qed.

#[local] Hint Resolve connected_exchange_host_mode connected_set_key_code
  connected_upload connected_set_information connected_host_poke4
  connected_set_time_limit : connected.

Lemma connected_upload_loop des_block fuel data total des cb :
  forall crc addr sequence,
    stays_connected
      (upload_loop des_block fuel data total des cb crc addr sequence).
Proof.
  induction fuel as [ | fuel IH]; intros crc addr sequence; cbn [upload_loop].
  - apply connected_out_of_fuel.
  - unfold print_. connected.
Qed.

#[local] Hint Resolve connected_upload_loop : connected.

Lemma connected_upload_file des_block fuel data key cb :
  stays_connected (upload_file des_block fuel data key cb).
Proof. unfold upload_file, print_. connected. Qed.

#[local] Hint Resolve connected_upload_file : connected.

Lemma connected_send_body des_block fuel (data : bytes) key cb :
  stays_connected
    (match cb with
     | Some f => call_progress f 0 (len data)
     | None => ret tt
     end ;;
     set_host_mode fuel 1 ;;
     match key with
     | Some k =>
         if truthy key then set_key_code k
         else set_key_code (repeat x00 8)
     | None => set_key_code (repeat x00 8)
     end ;;
     upload_file des_block fuel data key
       (Some (match cb with
              | Some f => f
              | None => fun _cur _tot => true
              end))).
Proof. unfold set_host_mode. connected. Qed.

Lemma connected_patch_boot_id_check : stays_connected patch_boot_id_check.
Proof.
  intros st. unfold patch_boot_id_check.
  destruct (patch_addr (version (self st))) as [addr | ]; [ | reflexivity].
  destruct (TargetVersionEnum_eqb (version (self st)) TARGET_VERSION_3_01).
  - apply connected_host_poke4.
  - assert (K : stays_connected
                  (host_poke4 (addr + 0) 0x4e800020 ;;
                   host_poke4 (addr + 4) 0x38600000 ;;
                   host_poke4 (addr + 8) 0x4e800020 ;;
                   host_poke4 (addr + 12) 0x60000000)) by connected.
    apply K.
Qed.

Lemma connected_reboot_body :
  stays_connected
    (restart ;;
     set_time_limit 10 ;;
     fun st =>
       if TargetEnum_eqb (target (self st)) TARGET_TRIFORCE
       then patch_boot_id_check st
       else ret tt st).
Proof.
  unfold restart. connected. intros st.
  destruct (TargetEnum_eqb (target (self st)) TARGET_TRIFORCE).
  - apply connected_patch_boot_id_check.
  - reflexivity.
Qed.

(** A session whose body stays connected never raises [not_connected]. *)
Lemma session_stays_connected {A : Type} (body : M A) st st' :
  stays_connected body -> connection body st <> Raise not_connected st'.
Proof.
  intros Hb. destruct (connect_ok (net st)) eqn:Hc.
  - rewrite (connection_accepted body st Hc).
    assert (K : stays_connected (startup ;; body)).
    { unfold startup. connected. }
    specialize (K (opened st true) ltac:(discriminate)). unfold try_finally.
    destruct ((startup ;; body) (opened st true)) as [a s2 | e s2 | ];
      [ | | discriminate].
    + rewrite (finally_released s2 (next_id (net st)))
        by (rewrite K; reflexivity).
      discriminate.
    + destruct K as [K He].
      rewrite (finally_released s2 (next_id (net st)))
        by (rewrite K; reflexivity).
      congruence.
  - rewrite (connection_refused body st Hc). discriminate.
Qed.

(** X17. The guard of [__send_packet] and [__read] raises "Not connected to
    NetDimm", with nothing sent or read, when the driver holds no socket; and
    that exception never comes out of [info], [send] or [reboot], whatever
    the network does. *)
Theorem not_connected_only_outside_a_session des_block fuel data key cb p num st :
  send_packet p (with_sock st None) = Raise not_connected (with_sock st None) /\
  read fuel num (with_sock st None) = Raise not_connected (with_sock st None) /\
  (forall st', info fuel st <> Raise not_connected st') /\
  (forall st', send des_block fuel data key cb st <> Raise not_connected st') /\
  (forall st', reboot st <> Raise not_connected st').
Proof.
  split; [reflexivity | split; [reflexivity | ]].
  split; [ | split]; intros st'.
  - apply session_stays_connected, connected_get_information.
  - apply session_stays_connected, connected_send_body.
  - apply session_stays_connected, connected_reboot_body.
Qed.

(** ** A socket error while waiting *)

Lemma rx_recv_error_next pre rest n :
  rx_clean pre -> rx_total pre = O ->
  rx_recv n (pre ++ RxError :: rest) = (None, rest).
Proof.
  intros Hc. induction pre as [ | e pre IH]; intros Ht; [reflexivity | ].
  inversion Hc as [ | ? ? He Hrest]; subst.
  destruct e as [seg | ]; [ | congruence].
  cbn [rx_total] in Ht. destruct seg as [ | b seg]; [ | cbn in Ht; lia].
  cbn [app rx_recv]. apply IH; [exact Hrest | exact Ht].
Qed.

Lemma rx_recv_before_error pre tail n :
  rx_clean pre -> (0 < rx_total pre)%nat -> (0 < n)%nat ->
  exists bs pre',
    rx_recv n (pre ++ tail) = (Some bs, pre' ++ tail) /\
    rx_clean pre' /\
    rx_total pre = (length bs + rx_total pre')%nat /\
    (0 < length bs <= n)%nat.
Proof.
  intros Hc Ht Hn. induction pre as [ | e pre IH]; [cbn in Ht; lia | ].
  inversion Hc as [ | ? ? He Hrest]; subst.
  destruct e as [seg | ]; [ | congruence].
  destruct seg as [ | b seg].
  - destruct (IH Hrest Ht) as (bs & pre' & E & Hc' & Hl & Hb).
    exists bs, pre'. cbn [app rx_recv rx_total length]. auto.
  - cbn [app rx_recv rx_total].
    pose proof (firstn_skipn n (b :: seg)) as Hfs.
    apply (f_equal (@length byte)) in Hfs. rewrite length_app in Hfs.
    assert (Hlen : (0 < length (firstn n (b :: seg)) <= n)%nat).
    { rewrite length_firstn. cbn [length]. lia. }
    exists (firstn n (b :: seg)).
    destruct (skipn n (b :: seg)) as [ | x later] eqn:Es.
    + exists pre. cbn [length] in Hfs |- *.
      split; [reflexivity | split; [exact Hrest | split; [lia | exact Hlen]]].
    + exists (RxData (x :: later) :: pre).
      split; [reflexivity | split; [ | split; [ | exact Hlen]]].
      * constructor; [discriminate | exact Hrest].
      * cbn [rx_total length] in Hfs |- *. lia.
Qed.

Lemma read_loop_error fuel id :
  forall pre left res st rest,
    rx (net st) = pre ++ RxError :: rest ->
    rx_clean pre ->
    Z.of_nat (rx_total pre) < left ->
    (rx_total pre < fuel)%nat ->
    exists st',
      read_loop fuel id left res st = Raise SocketError st' /\
      rx (net st') = rest /\
      self st' = self st /\ sent st' = sent st /\ tx (net st') = tx (net st).
Proof.
  induction fuel as [ | fuel IH]; intros pre left res st rest Hrx Hc Hl Hf;
    [lia | ].
  cbn [read_loop].
  assert (E : (0 <? left) = true) by (apply Z.ltb_lt; lia). rewrite E.
  destruct (Nat.eq_dec (rx_total pre) 0) as [H0 | Hpos].
  - eexists. split.
    + unfold bind, socket_recv. cbv zeta.
      rewrite Hrx, (rx_recv_error_next pre rest _ Hc H0). reflexivity.
    + cbn [with_net net rx tx self]. unfold sent. cbn [net with_net events].
      rewrite sent_bufs_app. cbn [sent_bufs]. rewrite app_nil_r. auto.
  - destruct (rx_recv_before_error pre (RxError :: rest) (Z.to_nat left) Hc)
      as (bs & pre' & Er & Hc' & Ht & Hb); [lia | lia | ].
    set (st1 := with_net st
                  (mkNetwork (connect_ok (net st)) (pre' ++ RxError :: rest)
                     (tx (net st)) (next_id (net st))
                     (events (net st) ++ [EvRecv id left (Some bs)]))).
    assert (H1 : socket_recv id left st = Ok bs st1).
    { unfold socket_recv. cbv zeta. rewrite Hrx, Er. reflexivity. }
    rewrite (bind_Ok_intro _ _ _ _ _ H1).
    destruct (IH pre' (left - len bs) (res ++ [bs]) st1 rest)
      as (st' & Hrun & Hrx' & Hself & Hsent & Htx).
    + reflexivity.
    + exact Hc'.
    + unfold len. lia.
    + lia.
    + exists st'. split; [exact Hrun | ]. split; [exact Hrx' | ].
      split; [exact Hself | ]. split; [ | exact Htx].
      rewrite Hsent. unfold sent. cbn [st1 net with_net events].
      rewrite sent_bufs_app. cbn [sent_bufs]. apply app_nil_r.
Qed.

Lemma read_error fuel num st id pre rest :
  sock (self st) = Some id ->
  rx (net st) = pre ++ RxError :: rest ->
  rx_clean pre ->
  Z.of_nat (rx_total pre) < num ->
  (rx_total pre < fuel)%nat ->
  exists st',
    read fuel num st = Raise SocketError st' /\
    rx (net st') = rest /\
    self st' = self st /\ sent st' = sent st /\ tx (net st') = tx (net st).
Proof.
  intros Hs Hrx Hc Hn Hf.
  destruct (read_loop_error fuel id pre num [] st rest Hrx Hc Hn Hf)
    as (st' & Hrun & H).
  exists st'. split; [ | exact H].
  unfold read, bind at 1, get_sock. rewrite Hs.
  apply bind_Raise_intro, Hrun.
Qed.

(** X18. When the socket fails (a timeout, a reset) before [num] bytes have
    arrived, [__read] raises the socket's error; the bytes that had arrived
    before are taken from the stream and given to no one. *)
Theorem read_fails_with_the_socket fuel num st id pre rest :
  sock (self st) = Some id ->
  rx (net st) = pre ++ RxError :: rest ->
  rx_clean pre ->
  Z.of_nat (rx_total pre) < num ->
  (rx_total pre < fuel)%nat ->
  exists st',
    read fuel num st = Raise SocketError st' /\
    rx (net st') = rest /\
    self st' = self st /\ sent st' = sent st.
Proof.
  intros Hs Hrx Hc Hn Hf.
  destruct (read_error fuel num st id pre rest Hs Hrx Hc Hn Hf)
    as (st' & Hrun & Hrx' & Hself & Hsent & _).
  exists st'. auto.
Qed.

Lemma read_fails_with_the_socket_witness :
  exists st',
    read 5 4
      (mkState (self connected_state)
         (mkNetwork true [RxData [x0c; x00]; RxError; RxData [x00; x18]] [] 1 []))
    = Raise SocketError st' /\
    rx (net st') = [RxData [x00; x18]].
Proof.
  destruct (read_fails_with_the_socket 5 4
              (mkState (self connected_state)
                 (mkNetwork true [RxData [x0c; x00]; RxError; RxData [x00; x18]]
                    [] 1 []))
              O [RxData [x0c; x00]] [RxData [x00; x18]])
    as (st' & E & Hrx & _).
  - reflexivity.
  - reflexivity.
  - repeat constructor; discriminate.
  - cbn. lia.
  - cbn. lia.
  - exists st'. split; [exact E | exact Hrx].
Defined.

(** X19. A socket error before the four header bytes of the get-info reply
    have arrived ends [info] with that error, after the startup and get-info
    packets were sent; the socket is closed and dropped all the same. *)
Theorem info_fails_with_the_socket fuel st pre rest :
  connect_ok (net st) = true ->
  tx_ok st ->
  rx (net st) = pre ++ RxError :: rest ->
  rx_clean pre ->
  (rx_total pre < 4)%nat ->
  (rx_total pre < fuel)%nat ->
  exists st',
    info fuel st = Raise SocketError st' /\
    sent st' = sent st ++ map frame [startup_packet; get_info_packet] /\
    sock (self st') = None /\
    closes (next_id (net st)) (events (net st'))
    = S (closes (next_id (net st)) (events (net st))) /\
    rx (net st') = rest.
Proof.
  intros Hc Ht Hrx Hcl Hn Hf.
  assert (R0 : ready (opened st true)) by (split; [discriminate | exact Ht]).
  destruct (send_packet_step startup_packet _ R0) as (s0 & H0 & Rs0).
  pose proof (send_packet_Ok _ _ _ _ H0) as (Hself0 & Hsent0 & Hrx0 & _).
  destruct (send_packet_step get_info_packet _ Rs0) as (s1 & H1 & Rs1).
  pose proof (send_packet_Ok _ _ _ _ H1) as (Hself1 & Hsent1 & Hrx1 & _).
  assert (Hid : sock (self s1) = Some (next_id (net st))).
  { rewrite Hself1, Hself0. reflexivity. }
  destruct (read_error fuel 4 s1 _ pre rest Hid) as (s2 & H2 & Hrx2 & Hself2 & Hsent2 & _);
    [rewrite Hrx1, Hrx0; exact Hrx | exact Hcl | lia | exact Hf | ].
  assert (Hb : get_information fuel s0 = Raise SocketError s2).
  { unfold get_information. fold get_info_packet.
    rewrite (bind_Ok_intro _ _ _ _ _ H1).
    apply bind_Raise_intro. unfold recv_packet.
    apply bind_Raise_intro. exact H2. }
  assert (Hs2 : sock (self s2) = Some (next_id (net st))).
  { rewrite Hself2. exact Hid. }
  exists (released s2 (next_id (net st))).
  split; [unfold info; exact (connection_raises _ st s0 _ s2 _ Hc H0 Hb Hs2) | ].
  split; [ | split; [reflexivity | split]].
  - rewrite sent_released, Hsent2, Hsent1, Hsent0, sent_opened.
    cbn [map]. rewrite <- app_assoc. reflexivity.
  - pose proof (session_closes_once (get_information fuel) st Hc
                  (keeps_get_information fuel)) as Hinfo.
    cbv zeta in Hinfo.
    rewrite (connection_raises _ st s0 _ s2 _ Hc H0 Hb Hs2) in Hinfo.
    apply Hinfo.
  - cbn [released with_sock with_net net rx log_event]. exact Hrx2.
Qed.

Lemma info_fails_with_the_socket_witness :
  exists st',
    info 5 (sample_state TARGET_NAOMI TARGET_VERSION_UNKNOWN true
              [RxData [x0c; x00]; RxError] [])
    = Raise SocketError st' /\
    sock (self st') = None.
Proof.
  destruct (info_fails_with_the_socket 5
              (sample_state TARGET_NAOMI TARGET_VERSION_UNKNOWN true
                 [RxData [x0c; x00]; RxError] [])
              [RxData [x0c; x00]] [])
    as (st' & E & _ & Hs & _).
  - reflexivity.
  - constructor.
  - reflexivity.
  - repeat constructor; discriminate.
  - cbn. lia.
  - cbn. lia.
  - exists st'. split; [exact E | exact Hs].
Defined.

(** ** [send] from end to end *)

Lemma bind_bind_Raise {A B C : Type} (m : M A) (k : A -> M B) (f : B -> M C)
    st e s2 :
  bind m k st = Raise e s2 ->
  bind m (fun a => bind (k a) f) st = Raise e s2.
Proof.
  unfold bind. destruct (m st) as [a s1 | e1 s1 | ]; try discriminate.
  - intros ->. reflexivity.
  - intros H. inversion H. reflexivity.
Qed.

(** The steps of [send] up to the reply to host mode 1, whatever frame comes
    back. *)
Lemma send_gate fuel (image : bytes) (cb : option Callback) st l0 l1 fl pid payload more :
  connect_ok (net st) = true ->
  tx_ok st ->
  (forall f, cb = Some f -> f 0 (len image) = true) ->
  rx_clean (rx (net st)) ->
  rx_stream (rx (net st)) = [l0; l1; fl; pid] ++ payload ++ more ->
  byte_val l0 + 256 * byte_val l1 = len payload ->
  (4 < fuel)%nat -> (length payload < fuel)%nat ->
  exists s0 s2,
    startup (opened st true) = Ok tt s0 /\
    (match cb with
     | Some f => call_progress f 0 (len image)
     | None => ret tt
     end ;;
     set_host_mode fuel 1) s0
    = (if negb (byte_val pid =? 0x07) then
         Raise (NetDimmException
                  "Unexpected data returned from set host mode packet!") s2
       else if negb (len payload =? 4) then
         Raise (NetDimmException
                  "Unexpected data length returned from set host mode packet!") s2
       else Ok tt s2) /\
    ready s2 /\
    self s2 = self (opened st true) /\
    sent s2 = sent st ++ map frame [startup_packet; host_mode_packet 0 1] /\
    rx_clean (rx (net s2)) /\
    rx_stream (rx (net s2)) = more.
Proof.
  intros Hc Ht Hcb Hcl Hstream Hlen Hf4 Hfp.
  assert (R0 : ready (opened st true)) by (split; [discriminate | exact Ht]).
  destruct (send_packet_step startup_packet _ R0) as (s0 & H0 & Rs0).
  pose proof (send_packet_Ok _ _ _ _ H0) as (Hself0 & Hsent0 & Hrx0 & _).
  assert (H1 : exists s1,
    match cb with
    | Some f => call_progress f 0 (len image)
    | None => ret tt
    end s0 = Ok tt s1 /\ adds s0 s1 []).
  { destruct cb as [f | ].
    - eexists. split; [apply call_progress_total, Hcb; reflexivity | ].
      eapply call_progress_Ok. apply call_progress_total, Hcb. reflexivity.
    - exists s0. split; [reflexivity | apply adds_refl]. }
  destruct H1 as (s1 & H1 & A1).
  pose proof (ready_step _ _ _ A1 Rs0) as Rs1.
  destruct A1 as (Hself1 & Hsent1 & Hrx1 & _).
  assert (Erx : rx (net s1) = rx (net st)) by (rewrite Hrx1, Hrx0; reflexivity).
  destruct (request_reply fuel s1
              (mkNetDimmPacket 0x07 0x00 [byte_of 1; byte_of 0; x00; x00])
              l0 l1 fl pid payload more Rs1)
    as (t1 & s2 & E1 & E2 & Rs2 & Hself2 & Hsent2 & Hcl2 & Hs2);
    try assumption; try (rewrite Erx; assumption).
  exists s0, s2. split; [exact H0 | ].
  split; [ | split; [exact Rs2 | split; [ | split; [ | auto]]]].
  - rewrite (bind_Ok_intro _ _ _ _ _ H1).
    unfold set_host_mode, exchange_host_mode. rewrite mode_word.
    cbn [of_struct]. unfold bind at 1 2. cbn [ret].
    rewrite (bind_Ok_intro _ _ _ _ _ E1), (bind_Ok_intro _ _ _ _ _ E2).
    unfold length_. cbn [pktid data].
    destruct (negb (byte_val pid =? 7)); [reflexivity | ].
    destruct (len payload =? 4) eqn:E4; cbn [negb]; [ | reflexivity].
    apply Z.eqb_eq in E4.
    destruct (four_bytes payload) as (m & b1 & b2 & b3 & ->);
      [unfold len in E4; lia | ].
    rewrite (struct_unpack_I_4 [m; b1; b2; b3] eq_refl). reflexivity.
  - rewrite Hself2, Hself1. exact Hself0.
  - rewrite Hsent2, Hsent1, Hsent0, sent_opened, app_nil_r.
    cbn [map]. rewrite <- app_assoc. reflexivity.
Qed.



(** X21. On a device that accepts the connection, takes every buffer and
    answers host mode 1 with a frame [0x07] of four bytes, [send] returns for
    every payload below 4 GiB that fits the key: it has sent startup, host
    mode 1, the key code, the chunks and set-info, in that order, has read
    the one reply and nothing after it, and has closed and dropped the
    socket. *)
Theorem send_delivers des_block fuel data key cb st l0 l1 fl mode more :
  connect_ok (net st) = true ->
  tx_ok st ->
  callback_ok cb ->
  rx_clean (rx (net st)) ->
  rx_stream (rx (net st)) = [l0; l1; fl; x07] ++ mode ++ more ->
  byte_val l0 + 256 * byte_val l1 = 4 ->
  length mode = 4%nat ->
  key_fits key data ->
  len data < 2 ^ 32 ->
  (4 < fuel)%nat -> (nchunks (len data) < fuel)%nat ->
  let n := nchunks (len data) in
  let des := engine key in
  exists st',
    send des_block fuel data key cb st = Ok tt st' /\
    sent st' = sent st
      ++ map frame [startup_packet; host_mode_packet 0 1;
                    key_code_packet (key_code key)]
      ++ map (upload_frame des_block des data n) (seq 0 n)
      ++ [frame (set_info_packet
                   (Z.land (Z.lnot (upload_crc des_block des data)) 0xFFFFFFFF)
                   (len data))] /\
    rx_stream (rx (net st')) = more /\
    sock (self st') = None.
Proof.
  intros Hc Ht Hcb Hcl Hstream Hlen Hm Hfit Hbig Hfuel Hfuel' n des.
  destruct (send_gate fuel data cb st l0 l1 fl x07 mode more)
    as (s0 & s2 & H0 & H2 & Rs2 & Hself2 & _ & _ & Hrx2); try assumption.
  { intros f E. apply (Hcb f E). }
  { unfold len. rewrite Hm. exact Hlen. }
  { lia. }
  change (byte_val x07 =? 7) with true in H2. cbn [negb] in H2.
  replace (len mode =? 4) with true in H2
    by (unfold len; rewrite Hm; reflexivity).
  cbn [negb] in H2.
  assert (H3 : exists s3, set_key_code (key_code key) s2 = Ok tt s3 /\ ready s3).
  { unfold set_key_code. rewrite (key_code_fits key data Hfit).
    change (8 =? 8) with true. cbn [negb].
    apply send_packet_step, Rs2. }
  destruct H3 as (s3 & H3 & [Hs3 Ht3]).
  pose proof (set_key_code_Ok _ _ _ _ H3) as ((_ & _ & Hrx3 & _) & _).
  destruct (upload_file_total des_block fuel data key
              (Some (match cb with Some f => f | None => fun _ _ => true end)) s3)
    as (s4 & H4); try assumption.
  { apply callback_ok_default, Hcb. }
  pose proof (upload_file_Ok _ _ _ _ _ _ _ _ H4) as ((Hself4 & _ & Hrx4 & _) & _).
  destruct (sock (self s4)) as [id | ] eqn:Hid; [ | congruence].
  assert (Hrun : send des_block fuel data key cb st = Ok tt (released s4 id)).
  { unfold send.
    eapply connection_total; [exact Hc | exact H0 | | exact Hid].
    rewrite (bind_bind_Ok _ _ _ _ _ _ H2).
    unfold bind at 1. rewrite set_key_code_key, H3. exact H4. }
  exists (released s4 id). split; [exact Hrun | ].
  pose proof (send_Ok _ _ _ _ _ _ _ _ Hrun) as (Hsent & Hs & _).
  split; [exact Hsent | split; [ | exact Hs]].
  cbn [released with_sock with_net net rx log_event].
  rewrite Hrx4, Hrx3. exact Hrx2.
Qed.

Lemma send_delivers_witness :
  exists st',
    send xor_block 5 block_00_07 (Some key_01_08) None
      (sample_state TARGET_NAOMI TARGET_VERSION_UNKNOWN true
         [RxData [x04; x00]; RxData [x00; x07; x01]; RxData [x00; x00; x00; x2a]]
         [])
    = Ok tt st' /\
    rx_stream (rx (net st')) = [x2a] /\
    sock (self st') = None.
Proof.
  destruct (send_delivers xor_block 5 block_00_07 (Some key_01_08) None
              (sample_state TARGET_NAOMI TARGET_VERSION_UNKNOWN true
                 [RxData [x04; x00]; RxData [x00; x07; x01];
                  RxData [x00; x00; x00; x2a]] [])
              x04 x00 x00 [x01; x00; x00; x00] [x2a])
    as (st' & E & _ & Hrx & Hs).
  - reflexivity.
  - constructor.
  - intros f Hf. discriminate.
  - repeat constructor; discriminate.
  - reflexivity.
  - reflexivity.
  - reflexivity.
  - right. exists key_01_08. split; [reflexivity | split; reflexivity].
  - vm_compute. reflexivity.
  - lia.
  - vm_compute. lia.
  - exists st'. split; [exact E | split; [exact Hrx | exact Hs]].
Defined.

(** ** A socket error while sending *)

Lemma send_packet_fails p st later :
  sock (self st) <> None ->
  tx (net st) = None :: later ->
  exists st',
    send_packet p st = Raise SocketError st' /\
    self st' = self st /\ sent st' = sent st /\ tx (net st') = later.
Proof.
  intros Hs Ht. unfold send_packet, bind, get_sock.
  destruct (sock (self st)) as [id | ]; [ | congruence].
  rewrite struct_pack_I_small by apply header_word_range.
  cbn [of_struct ret]. unfold socket_send. rewrite Ht.
  eexists. split; [reflexivity | ].
  cbn [with_net self net tx]. unfold sent. cbn [net with_net events].
  rewrite sent_bufs_app. cbn [sent_bufs]. rewrite app_nil_r. auto.
Qed.

Lemma send_packet_accepts p st k later :
  sock (self st) <> None ->
  tx (net st) = Some k :: later ->
  exists st', send_packet p st = Ok tt st'.
Proof.
  intros Hs Ht. unfold send_packet, bind, get_sock.
  destruct (sock (self st)) as [id | ]; [ | congruence].
  rewrite struct_pack_I_small by apply header_word_range.
  cbn [of_struct ret]. unfold socket_send. rewrite Ht. eauto.
Qed.

(** Packets sent in a row on a socket that fails at its [n]-th [send]: the
    first [n] go out, the error comes up, the rest is not tried. *)
Lemma send_packets_fail ps :
  forall pre st later,
    sock (self st) <> None ->
    tx (net st) = pre ++ None :: later ->
    Forall (fun o => o <> None) pre ->
    (length pre < length ps)%nat ->
    exists st',
      send_packets ps st = Raise SocketError st' /\
      self st' = self st /\
      sent st' = sent st ++ map frame (firstn (length pre) ps) /\
      tx (net st') = later.
Proof.
  induction ps as [ | p ps IH]; intros pre st later Hs Ht Hpre Hlen;
    [cbn in Hlen; lia | ].
  cbn [send_packets]. destruct pre as [ | [k | ] pre].
  - destruct (send_packet_fails p st later Hs Ht) as (st' & H & Hself & Hsent & Htx).
    exists st'. split; [apply bind_Raise_intro, H | ].
    cbn [length firstn map]. rewrite app_nil_r. auto.
  - destruct (send_packet_accepts p st k (pre ++ None :: later) Hs Ht)
      as (s1 & H1).
    pose proof (send_packet_Ok _ _ _ _ H1) as (Hself1 & Hsent1 & _ & Htx1).
    rewrite Ht in Htx1. cbn [length skipn app] in Htx1.
    inversion Hpre as [ | ? ? _ Hpre']; subst.
    destruct (IH pre s1 later) as (st' & H & Hself & Hsent & Htx).
    + rewrite Hself1. exact Hs.
    + exact Htx1.
    + exact Hpre'.
    + cbn [length] in Hlen. lia.
    + exists st'. split; [rewrite (bind_Ok_intro _ _ _ _ _ H1); exact H | ].
      split; [congruence | split; [ | exact Htx]].
      rewrite Hsent, Hsent1. cbn [length firstn map].
      rewrite <- app_assoc. reflexivity.
  - inversion Hpre as [ | ? ? Hk _]. congruence.
Qed.

Lemma bind_unit_ret (m : M unit) st : (m ;; ret tt) st = m st.
Proof. unfold bind, ret. destruct (m st) as [[] s1 | e s1 | ]; reflexivity. Qed.

Lemma host_poke4_send addr value st :
  0 <= addr < 2 ^ 32 -> 0 <= value < 2 ^ 32 ->
  host_poke4 addr value st = send_packet (poke_packet addr value) st.
Proof.
  intros Ha Hv. unfold host_poke4.
  rewrite struct_pack_III_small by (try assumption; lia). reflexivity.
Qed.

Lemma bind_ext {A B : Type} (m m' : M A) (f f' : A -> M B) st :
  (forall s, m s = m' s) -> (forall a s, f a s = f' a s) ->
  bind m f st = bind m' f' st.
Proof.
  intros Hm Hf. unfold bind. rewrite Hm.
  destruct (m' st) as [a s1 | e s1 | ]; [apply Hf | reflexivity | reflexivity].
Qed.

Ltac poke_range := vm_compute; split; [discriminate | reflexivity].

Lemma patch_boot_id_check_sends st :
  patch_boot_id_check st = send_packets (patch_pokes (version (self st))) st.
Proof.
  unfold patch_boot_id_check, patch_pokes.
  destruct (version (self st)); cbn [patch_addr TargetVersionEnum_eqb];
    try reflexivity;
    cbn [four_pokes send_packets];
    first
      [ rewrite bind_unit_ret; apply host_poke4_send; poke_range
      | do 3 (apply bind_ext;
              [intros ?; apply host_poke4_send; poke_range
               | intros _ ?; cbv beta]);
        rewrite bind_unit_ret; apply host_poke4_send; poke_range ].
Qed.

Lemma bind_ext_self {A B : Type} (m m' : M A) (f f' : A -> M B) st :
  m st = m' st ->
  keeps_socket m' ->
  (forall a s, self s = self st -> f a s = f' a s) ->
  bind m f st = bind m' f' st.
Proof.
  intros Hm Hk Hf. unfold bind. rewrite Hm. specialize (Hk st).
  destruct (m' st) as [a s1 | e s1 | ]; [ | reflexivity | reflexivity].
  apply Hf, Hk.
Qed.

(** What a reboot session runs is its packets sent in a row. *)
Lemma reboot_session_sends st :
  (startup ;;
   restart ;;
   set_time_limit 10 ;;
   fun s =>
     if TargetEnum_eqb (target (self s)) TARGET_TRIFORCE
     then patch_boot_id_check s
     else ret tt s) st
  = send_packets
      (startup_packet
         :: reboot_packets (target (self st)) (version (self st))) st.
Proof.
  unfold reboot_packets. cbn [app send_packets].
  apply bind_ext_self; [reflexivity | apply keeps_send_packet | ].
  intros _ s1 E1. cbv beta.
  apply bind_ext_self; [reflexivity | apply keeps_send_packet | ].
  intros _ s2 E2. cbv beta.
  apply bind_ext_self; [reflexivity | apply keeps_send_packet | ].
  intros _ s3 E3. cbv beta.
  assert (E : self s3 = self st) by congruence.
  rewrite E.
  destruct (TargetEnum_eqb (target (self st)) TARGET_TRIFORCE);
    [ | reflexivity].
  rewrite patch_boot_id_check_sends, E. reflexivity.
Qed.



(** ** A callback that raises *)

Lemma call_progress_raises (f : Callback) cur tot st :
  f cur tot = false ->
  call_progress f cur tot st
  = Raise CallbackError (with_net st (log_event (net st) (EvProgress cur tot))).
Proof. unfold call_progress. intros ->. reflexivity. Qed.

Lemma adds_progress st cur tot :
  adds st (with_net st (log_event (net st) (EvProgress cur tot))) [].
Proof.
  unfold adds, sent. cbn. rewrite sent_bufs_app. cbn. rewrite !app_nil_r. auto.
Qed.

(** A loop entered before chunk [k], with a callback that raises at chunk
    [j]: the chunks from [k] to [j - 1] go out and the exception comes up. *)
Lemma upload_loop_cancelled des_block des (f : Callback) data fuel j :
  forall (k : nat) crc addr sequence st,
    addr = Z.min (0x8000 * Z.of_nat k) (len data) ->
    sequence = Z.of_nat k + 1 ->
    ready st ->
    (forall i, (k <= i < j)%nat -> f (0x8000 * Z.of_nat i) (len data) = true) ->
    f (0x8000 * Z.of_nat j) (len data) = false ->
    (forall i, (i < nchunks (len data))%nat ->
       encrypt des_block des (chunk_at data i) <> None) ->
    len data < 2 ^ 32 ->
    (k <= j < nchunks (len data))%nat ->
    (j - k < fuel)%nat ->
    exists st',
      upload_loop des_block fuel data (len data) des (Some f) crc addr sequence st
      = Raise CallbackError st' /\
      adds st st'
        (map (upload_frame des_block des data (nchunks (len data)))
             (seq k (j - k))).
Proof.
  induction fuel as [ | fuel IH];
    intros k crc addr sequence st Ha Hq Hr Hok Hbad Henc Hbig Hk Hfuel; [lia | ].
  cbn [upload_loop].
  pose proof (len_nonneg data) as Hlen.
  assert (Hkn : (k < nchunks (len data))%nat) by lia.
  pose proof (proj1 (nchunks_lt (len data) k Hlen) Hkn) as Hlt.
  assert (Haddr : addr = 0x8000 * Z.of_nat k) by lia.
  assert (E : (addr <? len data) = true) by (apply Z.ltb_lt; lia).
  rewrite E.
  erewrite bind_Ok_intro; [ | reflexivity].
  destruct (Nat.eq_dec k j) as [-> | Nkj].
  - exists (with_net st (log_event (net st) (EvProgress addr (len data)))).
    split.
    + apply bind_Raise_intro, call_progress_raises. rewrite Haddr. exact Hbad.
    + rewrite Nat.sub_diag. apply adds_progress.
  - assert (H1 : call_progress f addr (len data) st
                 = Ok tt (with_net st (log_event (net st)
                                         (EvProgress addr (len data))))).
    { apply call_progress_total. rewrite Haddr. apply Hok. lia. }
    set (s1 := with_net st (log_event (net st) (EvProgress addr (len data)))) in *.
    pose proof (adds_progress st addr (len data)) as A1. fold s1 in A1.
    pose proof (ready_step _ _ _ A1 Hr) as Hr1.
    erewrite bind_Ok_intro; [ | exact H1].
    assert (Hchunk : slice data addr (addr + 0x8000) = chunk_at data k).
    { unfold chunk_at. rewrite Haddr. reflexivity. }
    rewrite Hchunk.
    assert (Hfull : (S k < nchunks (len data))%nat) by lia.
    pose proof (chunk_len_full data k Hfull) as Ec.
    pose proof (proj1 (nchunks_lt (len data) (S k) Hlen) Hfull) as Hlt'.
    destruct (encrypt des_block des (chunk_at data k)) as [ct | ] eqn:Hc;
      [ | exfalso; apply (Henc k Hkn); exact Hc].
    assert (Hct : ciphertext des_block des data k = ct).
    { unfold ciphertext. rewrite Hc. reflexivity. }
    erewrite bind_Ok_intro; [ | reflexivity].
    rewrite Ec.
    assert (Hflag : (addr + 32768 =? len data) = Nat.eqb (S k) (nchunks (len data))).
    { destruct (Nat.eqb_spec (S k) (nchunks (len data))); [lia | ].
      apply Z.eqb_neq. lia. }
    rewrite Hflag.
    destruct Hr1 as [Hs1 Ht1].
    destruct (upload_total sequence addr ct
                (Nat.eqb (S k) (nchunks (len data))) s1) as [s3 H3];
      [lia | lia | exact Hs1 | exact Ht1 | ].
    erewrite bind_Ok_intro; [ | exact H3].
    apply upload_Ok in H3. destruct H3 as (Hup & _ & _).
    pose proof (ready_step _ _ _ Hup (conj Hs1 Ht1)) as Hr3.
    destruct (IH (S k) (zlib_crc32 ct crc) (addr + 32768) (sequence + 1) s3)
      as (st' & Hrun & Hrest); try assumption; try lia.
    { intros i Hi. apply Hok. lia. }
    exists st'. split; [exact Hrun | ].
    replace (j - k)%nat with (S (j - S k)) by lia.
    cbn [seq map].
    change (upload_frame des_block des data (nchunks (len data)) k
              :: map (upload_frame des_block des data (nchunks (len data)))
                   (seq (S k) (j - S k)))
      with (([] ++ [upload_frame des_block des data (nchunks (len data)) k])
              ++ map (upload_frame des_block des data (nchunks (len data)))
                   (seq (S k) (j - S k))).
    eapply adds_trans; [ | exact Hrest].
    eapply adds_trans; [exact A1 | ].
    unfold upload_frame. rewrite Hct. rewrite Haddr, Hq in Hup. exact Hup.
Qed.

Lemma upload_file_cancelled des_block fuel data key (f : Callback) st j :
  ready st ->
  key_fits key data ->
  len data < 2 ^ 32 ->
  (j < nchunks (len data))%nat ->
  (forall i, (i < j)%nat -> f (0x8000 * Z.of_nat i) (len data) = true) ->
  f (0x8000 * Z.of_nat j) (len data) = false ->
  (j < fuel)%nat ->
  exists st',
    upload_file des_block fuel data key (Some f) st = Raise CallbackError st' /\
    adds st st'
      (map (upload_frame des_block (engine key) data (nchunks (len data)))
           (seq 0 j)).
Proof.
  intros Hr Hfit Hbig Hj Hok Hbad Hfuel.
  assert (Hd : match key with
               | Some k =>
                   if truthy key then
                     engine <- of_crypto (DES_new (rev k)) ;; ret (Some engine)
                   else ret None
               | None => ret None
               end st = Ok (engine key) st).
  { destruct Hfit as [Hf | (k & -> & Hk & _)].
    - rewrite (engine_falsy key Hf). destruct key as [k | ]; [ | reflexivity].
      rewrite Hf. reflexivity.
    - rewrite engine_8 by exact Hk.
      assert (Et : truthy (Some k) = true) by (destruct k; [discriminate | reflexivity]).
      rewrite Et. unfold DES_new. rewrite length_rev, Hk. reflexivity. }
  destruct (upload_loop_cancelled des_block (engine key) f data fuel j 0 0 0 1 st)
    as (st' & H & Hadds); try assumption; try reflexivity; try lia.
  { pose proof (len_nonneg data). lia. }
  { intros i Hi. apply Hok. lia. }
  { intros i Hi. apply key_fits_encrypts; assumption. }
  exists st'. rewrite Nat.sub_0_r in Hadds. split; [ | exact Hadds].
  unfold upload_file. erewrite bind_Ok_intro; [ | exact Hd].
  apply bind_Raise_intro. exact H.
Qed.





(** ** [info] from end to end *)

(** X25. On a device that accepts the connection, takes every buffer and
    answers get-info with a frame [0x18] of twelve bytes, however the frame
    is cut into segments, [info] returns the record decoded from the twelve
    bytes: it has sent the startup and get-info packets, has read that one
    frame and nothing after it, and has closed and dropped the socket. *)
Theorem info_returns fuel st fl u0 u1 v0 v1 g0 g1 d0 d1 c0 c1 c2 c3 more :
  connect_ok (net st) = true ->
  tx_ok st ->
  rx_clean (rx (net st)) ->
  rx_stream (rx (net st))
  = [x0c; x00; fl; x18]
      ++ [u0; u1; v0; v1; g0; g1; d0; d1; c0; c1; c2; c3] ++ more ->
  (12 < fuel)%nat ->
  exists st',
    info fuel st
    = Ok (mkNetDimmInfo
            (byte_val c0 + 256 * byte_val c1 + 65536 * byte_val c2
               + 16777216 * byte_val c3)
            (byte_val d0 + 256 * byte_val d1)
            (firmware_of_version (byte_val v0 + 256 * byte_val v1))
            ((byte_val g0 + 256 * byte_val g1) * 2 ^ 20)) st' /\
    sent st' = sent st ++ map frame [startup_packet; get_info_packet] /\
    rx_stream (rx (net st')) = more /\
    sock (self st') = None.
Proof.
  intros Hc Ht Hcl Hstream Hfuel.
  assert (R0 : ready (opened st true)) by (split; [discriminate | exact Ht]).
  destruct (send_packet_step startup_packet _ R0) as (s0 & H0 & Rs0).
  pose proof (send_packet_Ok _ _ _ _ H0) as (Hself0 & Hsent0 & Hrx0 & _).
  destruct (request_reply fuel s0 get_info_packet x0c x00 fl x18
              [u0; u1; v0; v1; g0; g1; d0; d1; c0; c1; c2; c3] more Rs0)
    as (s1 & s2 & H1 & H2 & _ & Hself2 & Hsent2 & _ & Hs2);
    try (rewrite Hrx0; assumption); [reflexivity | lia | cbn; lia | ].
  assert (Hid : sock (self s2) = Some (next_id (net st))).
  { rewrite Hself2, Hself0. reflexivity. }
  exists (released s2 (next_id (net st))).
  split; [ | split; [ | split; [exact Hs2 | reflexivity]]].
  - unfold info. eapply connection_total; [exact Hc | exact H0 | | exact Hid].
    unfold get_information. fold get_info_packet.
    rewrite (bind_Ok_intro _ _ _ _ _ H1), (bind_Ok_intro _ _ _ _ _ H2).
    unfold length_. cbn [pktid data].
    change (byte_val x18 =? 24) with true.
    change (len [u0; u1; v0; v1; g0; g1; d0; d1; c0; c1; c2; c3] =? 12) with true.
    cbn [negb]. rewrite unpack_HHHHI_bytes. cbn [of_struct].
    unfold bind, ret, firmware_of_version.
    rewrite Z.shiftl_mul_pow2 by lia. reflexivity.
  - rewrite sent_released, Hsent2, Hsent0, sent_opened.
    cbn [map]. rewrite <- app_assoc. reflexivity.
Qed.

Lemma info_returns_witness :
  exists st',
    info 13 (sample_state TARGET_NAOMI TARGET_VERSION_UNKNOWN true
               [RxData [x0c; x00; x00]; RxData [x18; x0c; x00; x0f; x02];
                RxData [x00; x02; x00; x04; x78; x56; x34; x12]] [])
    = Ok (mkNetDimmInfo 0x12345678 0x0400 TARGET_VERSION_2_15 0x20000000) st' /\
    sock (self st') = None.
Proof.
  destruct (info_returns 13
              (sample_state TARGET_NAOMI TARGET_VERSION_UNKNOWN true
                 [RxData [x0c; x00; x00]; RxData [x18; x0c; x00; x0f; x02];
                  RxData [x00; x02; x00; x04; x78; x56; x34; x12]] [])
              x00 x0c x00 x0f x02 x00 x02 x00 x04 x78 x56 x34 x12 [])
    as (st' & E & _ & _ & Hs).
  - reflexivity.
  - constructor.
  - repeat constructor; discriminate.
  - reflexivity.
  - lia.
  - exists st'. split; [exact E | exact Hs].
Defined.

(** * The argument checks of [send] *)

(** ** No set-info on the way *)

Lemma frame_id_frame p : frame_id (frame p) = pktid p mod 256.
Proof.
  rewrite frame_bytes. unfold frame_id. cbn [app nth]. apply byte_val_of.
Qed.

Lemma emits_nothing (P : Event -> Prop) st :
  exists evs, events (net st) = events (net st) ++ evs /\ Forall P evs.
Proof. exists []. split; [symmetry; apply app_nil_r | constructor]. Qed.

Lemma emits_one (P : Event -> Prop) (evs0 : list Event) e :
  P e -> exists evs, evs0 ++ [e] = evs0 ++ evs /\ Forall P evs.
Proof. intros H. exists [e]. split; [reflexivity | repeat constructor; exact H]. Qed.

Section Emits.

Variable P : Event -> Prop.

Hypothesis P_progress : forall cur tot, P (EvProgress cur tot).
Hypothesis P_recv : forall id n res, P (EvRecv id n res).
Hypothesis P_socket : forall id, P (EvSocket id).
Hypothesis P_connect : forall id ok, P (EvConnect id ok).
Hypothesis P_close : forall id, P (EvClose id).

Lemma emits_ret {A : Type} (a : A) : emits P (ret a).
Proof. intros st. apply emits_nothing. Qed.

Lemma emits_raise {A : Type} e : emits P (@raise A e).
Proof. intros st. apply emits_nothing. Qed.

Lemma emits_out_of_fuel {A : Type} : emits P (@out_of_fuel A).
Proof. intros st. exact I. Qed.

Lemma emits_trans st s1 s2 :
  (exists evs, events (net s1) = events (net st) ++ evs /\ Forall P evs) ->
  (exists evs, events (net s2) = events (net s1) ++ evs /\ Forall P evs) ->
  exists evs, events (net s2) = events (net st) ++ evs /\ Forall P evs.
Proof.
  intros (e1 & E1 & F1) (e2 & E2 & F2). exists (e1 ++ e2).
  split; [rewrite E2, E1; symmetry; apply app_assoc | ].
  apply Forall_app. auto.
Qed.

Lemma emits_bind {A B : Type} (m : M A) (f : A -> M B) :
  emits P m -> (forall a, emits P (f a)) -> emits P (bind m f).
Proof.
  intros Hm Hf st. unfold bind. specialize (Hm st).
  destruct (m st) as [a s1 | e s1 | ]; [ | exact Hm | exact I].
  specialize (Hf a s1).
  destruct (f a s1) as [b s2 | e s2 | ]; [ | | exact I];
    apply (emits_trans st s1 s2 Hm Hf).
Qed.

Lemma emits_try_except {A : Type} (m : M A) h :
  emits P m -> (forall e, emits P (h e)) -> emits P (try_except m h).
Proof.
  intros Hm Hh st. unfold try_except. specialize (Hm st).
  destruct (m st) as [a s1 | e s1 | ]; [exact Hm | | exact I].
  specialize (Hh e s1).
  destruct (h e s1) as [b s2 | e2 s2 | ]; [ | | exact I];
    apply (emits_trans st s1 s2 Hm Hh).
Qed.

Lemma emits_try_finally {A : Type} (m : M A) fin :
  emits P m -> emits P fin -> emits P (try_finally m fin).
Proof.
  intros Hm Hf st. unfold try_finally. specialize (Hm st).
  destruct (m st) as [a s1 | e s1 | ]; [ | | exact I];
    specialize (Hf s1);
    (destruct (fin s1) as [b s2 | e2 s2 | ]; [ | | exact I]);
    apply (emits_trans st s1 s2 Hm Hf).
Qed.

Lemma emits_of_struct {A : Type} (o : option A) : emits P (of_struct o).
Proof. destruct o; [apply emits_ret | apply emits_raise]. Qed.

Lemma emits_of_crypto {A : Type} (o : option A) : emits P (of_crypto o).
Proof. destruct o; [apply emits_ret | apply emits_raise]. Qed.

Lemma emits_get_sock : emits P get_sock.
Proof. intros st. apply emits_nothing. Qed.

Lemma emits_set_sock s : emits P (set_sock s).
Proof. intros st. exact (emits_nothing P st). Qed.

Lemma emits_socket_settimeout id seconds :
  emits P (socket_settimeout id seconds).
Proof. intros st. apply emits_nothing. Qed.

Lemma emits_socket_recv id n : emits P (socket_recv id n).
Proof.
  intros st. unfold socket_recv. cbv zeta.
  destruct (rx_recv (Z.to_nat n) (rx (net st))) as [[bs | ] later];
    cbn [with_net net events]; apply emits_one, P_recv.
Qed.

Lemma emits_call_progress cb cur tot : emits P (call_progress cb cur tot).
Proof.
  intros st. unfold call_progress. cbv zeta.
  destruct (cb cur tot); cbn [with_net net events log_event];
    apply emits_one, P_progress.
Qed.

Lemma emits_socket_socket : emits P socket_socket.
Proof.
  intros st. unfold socket_socket. cbv zeta. cbn [with_net net events].
  apply emits_one, P_socket.
Qed.

Lemma emits_socket_connect id : emits P (socket_connect id).
Proof.
  intros st. unfold socket_connect. cbv zeta.
  destruct (connect_ok (net st)); cbn [with_net net events log_event];
    apply emits_one, P_connect.
Qed.

Lemma emits_socket_close id : emits P (socket_close id).
Proof.
  intros st. unfold socket_close. cbn [with_net net events log_event].
  apply emits_one, P_close.
Qed.

(** A packet goes out as its frame, in one [send] call. *)
Lemma emits_send_packet p :
  (forall id k, P (EvSend id (frame p) k)) ->
  (forall id, P (EvSendFail id (frame p))) ->
  emits P (send_packet p).
Proof.
  intros Hs Hf st. unfold send_packet, bind, get_sock.
  destruct (sock (self st)) as [id | ]; [ | apply emits_nothing].
  rewrite struct_pack_I_small by apply header_word_range.
  cbn [of_struct ret]. fold (frame p). unfold socket_send.
  destruct (tx (net st)) as [ | [k | ] later];
    cbn [with_net net events log_event]; apply emits_one; auto.
Qed.

End Emits.

Lemma quiet_socket_recv id n : emits not_set_info (socket_recv id n).
Proof. apply emits_socket_recv. intros; exact I. Qed.

Lemma quiet_call_progress cb cur tot :
  emits not_set_info (call_progress cb cur tot).
Proof. apply emits_call_progress. intros; exact I. Qed.

Lemma quiet_socket_socket : emits not_set_info socket_socket.
Proof. apply emits_socket_socket. intros; exact I. Qed.

Lemma quiet_socket_connect id : emits not_set_info (socket_connect id).
Proof. apply emits_socket_connect. intros; exact I. Qed.

Lemma quiet_socket_close id : emits not_set_info (socket_close id).
Proof. apply emits_socket_close. intros; exact I. Qed.

(** Sending a packet of another id than [0x19] is no set-info. *)
Lemma quiet_send_packet p :
  pktid p mod 256 <> 0x19 -> emits not_set_info (send_packet p).
Proof.
  intros H. apply emits_send_packet; intros; cbn [not_set_info];
    rewrite frame_id_frame; exact H.
Qed.

Create HintDb quiet.

#[local] Hint Resolve emits_ret emits_raise emits_out_of_fuel emits_of_struct
  emits_of_crypto emits_get_sock emits_set_sock emits_socket_settimeout
  quiet_socket_recv quiet_call_progress quiet_socket_socket
  quiet_socket_connect quiet_socket_close : quiet.

#[local] Hint Extern 1 (emits not_set_info (send_packet _)) =>
  apply quiet_send_packet; cbn [pktid]; vm_compute; discriminate : quiet.

(** Takes a sequence of steps apart, down to the steps already known. *)
Ltac quiet :=
  repeat first
    [ solve [auto with quiet]
    | apply emits_bind; [ | intros ? ]
    | apply emits_try_except; [ | intros ? ]
    | apply emits_try_finally
    | match goal with
      | |- emits _ (if ?b then _ else _) => destruct b
      | |- emits _ (match ?x with _ => _ end) => destruct x
      | |- emits _ (let '(_, _) := ?x in _) => destruct x
      end ].

Lemma quiet_read_loop fuel id :
  forall left res, emits not_set_info (read_loop fuel id left res).
Proof.
  induction fuel as [ | fuel IH]; intros left res; cbn [read_loop]; quiet.
Qed.

#[local] Hint Resolve quiet_read_loop : quiet.

Lemma quiet_recv_packet fuel : emits not_set_info (recv_packet fuel).
Proof. unfold recv_packet, read. quiet. Qed.

#[local] Hint Resolve quiet_recv_packet : quiet.

Lemma quiet_exchange_host_mode fuel m s :
  emits not_set_info (exchange_host_mode fuel m s).
Proof. unfold exchange_host_mode. quiet. Qed.

Lemma quiet_set_key_code k : emits not_set_info (set_key_code k).
Proof. unfold set_key_code. quiet. Qed.

Lemma quiet_upload q a d l : emits not_set_info (upload q a d l).
Proof. unfold upload. quiet. Qed.

#[local] Hint Resolve quiet_exchange_host_mode quiet_set_key_code
  quiet_upload : quiet.

Lemma quiet_upload_loop des_block fuel data total des cb :
  forall crc addr sequence,
    emits not_set_info
      (upload_loop des_block fuel data total des cb crc addr sequence).
Proof.
  induction fuel as [ | fuel IH]; intros crc addr sequence; cbn [upload_loop].
  - apply emits_out_of_fuel.
  - unfold print_. quiet.
Qed.

Lemma quiet_connection {A : Type} (body : M A) :
  emits not_set_info body -> emits not_set_info (connection body).
Proof. intros Hb. unfold connection, startup. quiet. Qed.

(** ** A key that does not fit: the upload never gets to set-info *)

Lemma bind_OutOfFuel_intro {A B : Type} (m : M A) (f : A -> M B) st :
  m st = OutOfFuel -> bind m f st = OutOfFuel.
Proof. unfold bind. intros ->. reflexivity. Qed.

Lemma send_packet_ends p st : send_packet p st <> OutOfFuel.
Proof.
  unfold send_packet, bind, get_sock.
  destruct (sock (self st)) as [id | ]; [ | discriminate].
  rewrite struct_pack_I_small by apply header_word_range.
  cbn [of_struct ret]. unfold socket_send.
  destruct (tx (net st)) as [ | [k | ] later]; discriminate.
Qed.

Lemma upload_ends sequence addr chunk last st :
  upload sequence addr chunk last st <> OutOfFuel.
Proof.
  unfold upload.
  destruct (struct_pack_IIH sequence addr 0) as [prefix | ]; [ | discriminate].
  cbn [of_struct]. unfold bind at 1. cbn [ret]. apply send_packet_ends.
Qed.

Lemma set_key_code_ends keydata st : set_key_code keydata st <> OutOfFuel.
Proof.
  unfold set_key_code.
  destruct (negb (len keydata =? 8)); [discriminate | apply send_packet_ends].
Qed.

Lemma progress_step_ends (cb : option Callback) cur tot st :
  match cb with
  | Some f => call_progress f cur tot
  | None => ret tt
  end st <> OutOfFuel.
Proof.
  destruct cb as [f | ]; [ | discriminate].
  unfold call_progress. destruct (f cur tot); discriminate.
Qed.

(** With an engine, the last chunk of a payload that is no whole number of
    blocks is refused. *)
Lemma last_chunk_refused des_block e data k :
  len data mod 8 <> 0 ->
  S k = nchunks (len data) ->
  encrypt des_block (Some e) (chunk_at data k) = None.
Proof.
  intros Hodd Elast. destruct (chunk_len_last data k Elast) as [Ec _].
  rewrite encrypt_engine, Ec.
  replace (len data - 0x8000 * Z.of_nat k)
    with (len data + (- 4096 * Z.of_nat k) * 8) by lia.
  rewrite Z.mod_add by lia.
  destruct (len data mod 8 =? 0) eqn:E0; [lia | reflexivity].
Qed.

(** Such a loop never returns: it would have had to encrypt the last chunk. *)
Lemma upload_loop_never_returns des_block e cb data fuel crc st r st' :
  len data mod 8 <> 0 ->
  upload_loop des_block fuel data (len data) (Some e) cb crc 0 1 st
  <> Ok r st'.
Proof.
  intros Hodd H.
  apply (upload_loop_Ok des_block (Some e) cb data fuel 0) in H;
    [ | pose proof (len_nonneg data); lia | reflexivity].
  destruct H as (_ & Henc & _).
  destruct (engine_rejects_unaligned des_block e data Hodd) as (i & Hi & Hnone).
  apply (Henc i); [lia | exact Hnone].
Qed.

(** And with a round of fuel for each chunk it ends, by an exception. *)
Lemma upload_loop_ends des_block e cb data fuel :
  len data mod 8 <> 0 ->
  forall (k : nat) crc addr sequence st,
    addr = Z.min (0x8000 * Z.of_nat k) (len data) ->
    (k < nchunks (len data))%nat ->
    (nchunks (len data) - k <= fuel)%nat ->
    upload_loop des_block fuel data (len data) (Some e) cb crc addr sequence st
    <> OutOfFuel.
Proof.
  intros Hodd.
  induction fuel as [ | fuel IH]; intros k crc addr sequence st Ha Hk Hfuel;
    [lia | ].
  cbn [upload_loop].
  pose proof (len_nonneg data) as Hlen.
  pose proof (proj1 (nchunks_lt (len data) k Hlen) Hk) as Hlt.
  assert (Haddr : addr = 0x8000 * Z.of_nat k) by lia.
  assert (E : (addr <? len data) = true) by (apply Z.ltb_lt; lia).
  rewrite E.
  erewrite bind_Ok_intro; [ | reflexivity].
  destruct (match cb with
            | Some f => call_progress f addr (len data)
            | None => ret tt
            end st) as [[] s1 | e1 s1 | ] eqn:E1.
  - rewrite (bind_Ok_intro _ _ _ _ _ E1).
    assert (Hchunk : slice data addr (addr + 0x8000) = chunk_at data k).
    { unfold chunk_at. rewrite Haddr. reflexivity. }
    rewrite Hchunk.
    destruct (encrypt des_block (Some e) (chunk_at data k)) as [ct | ] eqn:Hc.
    + destruct (Nat.eq_dec (S k) (nchunks (len data))) as [Elast | Nlast].
      { rewrite (last_chunk_refused des_block e data k Hodd Elast) in Hc.
        discriminate Hc. }
      assert (Hfull : (S k < nchunks (len data))%nat) by lia.
      pose proof (chunk_len_full data k Hfull) as Ec.
      pose proof (proj1 (nchunks_lt (len data) (S k) Hlen) Hfull) as Hlt'.
      erewrite bind_Ok_intro; [ | reflexivity].
      destruct (upload sequence addr ct
                  (addr + len (chunk_at data k) =? len data) s1)
        as [[] s3 | e3 s3 | ] eqn:E3.
      * rewrite (bind_Ok_intro _ _ _ _ _ E3).
        apply (IH (S k)); [rewrite Ec; lia | exact Hfull | lia].
      * rewrite (bind_Raise_intro _ _ _ _ _ E3). discriminate.
      * exfalso. exact (upload_ends _ _ _ _ _ E3).
    + cbn [of_crypto]. discriminate.
  - rewrite (bind_Raise_intro _ _ _ _ _ E1). discriminate.
  - exfalso. exact (progress_step_ends cb _ _ _ E1).
Qed.

(** An upload under a key that is not empty and does not fit: it never
    returns; when it raises, no set-info was tried; and it runs out of fuel
    only when given less than a round for each chunk. *)
Lemma upload_file_bad_key des_block fuel data k cb st :
  k <> [] ->
  length k <> 8%nat \/ len data mod 8 <> 0 ->
  match upload_file des_block fuel data (Some k) cb st with
  | Ok _ _ => False
  | Raise _ st' =>
      exists evs,
        events (net st') = events (net st) ++ evs /\ Forall not_set_info evs
  | OutOfFuel => length k = 8%nat /\ (fuel < nchunks (len data))%nat
  end.
Proof.
  intros Hne Hbad.
  assert (Et : truthy (Some k) = true) by (destruct k; [congruence | reflexivity]).
  unfold upload_file. rewrite Et. unfold DES_new. rewrite length_rev.
  destruct (Nat.eqb_spec (length k) 8) as [H8 | H8].
  - assert (Hodd : len data mod 8 <> 0)
      by (destruct Hbad; [contradiction | assumption]).
    cbn [of_crypto]. unfold bind at 2. cbn [ret]. unfold bind at 1. cbn [ret].
    pose proof (quiet_upload_loop des_block fuel data (len data) (Some (rev k))
                  cb 0 0 1 st) as Hq.
    destruct (upload_loop des_block fuel data (len data) (Some (rev k)) cb
                0 0 1 st) as [r s1 | e s1 | ] eqn:EL.
    + exfalso. exact (upload_loop_never_returns _ _ _ _ _ _ _ _ _ Hodd EL).
    + rewrite (bind_Raise_intro _ _ _ _ _ EL). exact Hq.
    + rewrite (bind_OutOfFuel_intro _ _ _ EL). split; [exact H8 | ].
      destruct (Nat.lt_ge_cases fuel (nchunks (len data))) as [Hlt | Hge];
        [exact Hlt | exfalso].
      assert (Hpos : (0 < nchunks (len data))%nat).
      { apply nchunks_pos. intros ->. apply Hodd. reflexivity. }
      apply (upload_loop_ends des_block (rev k) cb data fuel Hodd 0 0 0 1 st);
        [pose proof (len_nonneg data); lia | exact Hpos | lia | exact EL].
  - cbn [of_crypto]. unfold bind, raise. apply emits_nothing.
Qed.

Lemma quiet_upload_file_bad_key des_block fuel data k cb :
  k <> [] ->
  length k <> 8%nat \/ len data mod 8 <> 0 ->
  emits not_set_info (upload_file des_block fuel data (Some k) cb).
Proof.
  intros Hne Hbad st.
  pose proof (upload_file_bad_key des_block fuel data k cb st Hne Hbad) as H.
  destruct (upload_file des_block fuel data (Some k) cb st) as [u s1 | e s1 | ];
    [contradiction | exact H | exact I].
Qed.

#[local] Hint Resolve quiet_upload_file_bad_key : quiet.

(** [send] under such a key: whatever the network and the callback do, no
    set-info is tried. *)
Lemma quiet_send_bad_key des_block fuel data k cb :
  k <> [] ->
  length k <> 8%nat \/ len data mod 8 <> 0 ->
  emits not_set_info (send des_block fuel data (Some k) cb).
Proof.
  intros Hne Hbad. unfold send, set_host_mode. apply quiet_connection. quiet.
Qed.

Lemma bind_OutOfFuel {A B : Type} (m : M A) (f : A -> M B) st :
  bind m f st = OutOfFuel ->
  m st = OutOfFuel \/ exists a s1, m st = Ok a s1 /\ f a s1 = OutOfFuel.
Proof.
  unfold bind. destruct (m st) as [a s1 | e s1 | ]; [ | discriminate | auto].
  intros H. right. exists a, s1. auto.
Qed.

Lemma try_finally_OutOfFuel {A : Type} (m : M A) fin st :
  (forall s, fin s <> OutOfFuel) ->
  try_finally m fin st = OutOfFuel -> m st = OutOfFuel.
Proof.
  intros Hfin. unfold try_finally.
  destruct (m st) as [a s1 | e s1 | ]; [ | | reflexivity];
    (destruct (fin s1) as [u s2 | e2 s2 | ] eqn:Ef; [discriminate | discriminate | ]);
    exfalso; exact (Hfin s1 Ef).
Qed.

Lemma finally_ends s :
  (o <- get_sock ;;
   match o with
   | None => raise AttributeError
   | Some id => socket_close id
   end ;;
   set_sock None) s <> OutOfFuel.
Proof.
  unfold bind, get_sock. destruct (sock (self s)); discriminate.
Qed.

(** [send] under such a key, with a round of fuel for each chunk: a run that
    does not end is one that does not get past the reply to host mode 1. *)
Lemma send_bad_key_stuck des_block fuel data k (cb : option Callback) st :
  k <> [] ->
  length k <> 8%nat \/ len data mod 8 <> 0 ->
  (nchunks (len data) <= fuel)%nat ->
  send des_block fuel data (Some k) cb st = OutOfFuel ->
  connection
    (match cb with
     | Some f => call_progress f 0 (len data)
     | None => ret tt
     end ;;
     set_host_mode fuel 1) st = OutOfFuel.
Proof.
  intros Hne Hbad Hfuel H. unfold send in H.
  destruct (connect_ok (net st)) eqn:Hc;
    [ | rewrite (connection_refused _ st Hc) in H; discriminate H].
  rewrite (connection_accepted _ st Hc) in H.
  rewrite (connection_accepted _ st Hc).
  apply try_finally_OutOfFuel in H; [ | exact finally_ends].
  unfold try_finally.
  apply bind_OutOfFuel in H.
  destruct H as [H | ([] & s0 & H0 & H)];
    [exfalso; exact (send_packet_ends _ _ H) | ].
  rewrite (bind_Ok_intro _ _ _ _ _ H0).
  apply bind_OutOfFuel in H.
  destruct H as [H | ([] & s1 & H1 & H)];
    [exfalso; exact (progress_step_ends cb _ _ _ H) | ].
  rewrite (bind_Ok_intro _ _ _ _ _ H1).
  apply bind_OutOfFuel in H.
  destruct H as [H | ([] & s2 & H2 & H)]; [rewrite H; reflexivity | exfalso].
  assert (Et : truthy (Some k) = true) by (destruct k; [congruence | reflexivity]).
  rewrite Et in H.
  apply bind_OutOfFuel in H.
  destruct H as [H | ([] & s3 & H3 & H)];
    [exact (set_key_code_ends _ _ H) | ].
  apply set_key_code_Ok in H3. destruct H3 as [_ H8].
  pose proof (upload_file_bad_key des_block fuel data k
                (Some (match cb with
                       | Some f => f
                       | None => fun _ _ => true
                       end)) s3 Hne Hbad) as Hup.
  rewrite H in Hup. lia.
Qed.

(** ** The reply that was read *)

Lemma read_stream_received fuel num st id bs st' :
  sock (self st) = Some id ->
  rx_clean (rx (net st)) ->
  0 <= num <= len (rx_stream (rx (net st))) ->
  (Z.to_nat num < fuel)%nat ->
  read fuel num st = Ok bs st' ->
  bs = firstn (Z.to_nat num) (rx_stream (rx (net st))) /\
  received (events (net st')) = received (events (net st)) ++ bs /\
  rx_stream (rx (net st')) = skipn (Z.to_nat num) (rx_stream (rx (net st))) /\
  rx_clean (rx (net st')) /\
  self st' = self st.
Proof.
  intros Hs Hc Hn Hfuel H.
  destruct (read_stream fuel num st id Hs Hc Hn Hfuel)
    as (s' & E & Hs' & Hc' & Hself & _).
  rewrite E in H. inversion H; subst bs st'. clear H.
  apply read_Ok in E; [ | lia]. destruct E as (_ & _ & _ & _ & Hrec). auto.
Qed.

Lemma recv_packet_stream_received fuel st id l0 l1 fl pid payload more p st' :
  sock (self st) = Some id ->
  rx_clean (rx (net st)) ->
  rx_stream (rx (net st)) = [l0; l1; fl; pid] ++ payload ++ more ->
  byte_val l0 + 256 * byte_val l1 = len payload ->
  (4 < fuel)%nat -> (length payload < fuel)%nat ->
  recv_packet fuel st = Ok p st' ->
  received (events (net st'))
  = received (events (net st)) ++ [l0; l1; fl; pid] ++ payload.
Proof.
  intros Hs Hc Hstream Hlen Hf4 Hfp H.
  destruct (header_fields l0 l1 fl pid) as (_ & _ & F3).
  unfold recv_packet in H. step_ok H as header s1 H1.
  apply (read_stream_received fuel 4 st id) in H1;
    [ | exact Hs | exact Hc
      | rewrite Hstream; unfold len; cbn [length app]; lia | cbn; lia].
  destruct H1 as (-> & Hrec1 & Hs1 & Hc1 & Hself1).
  rewrite Hstream in Hrec1, Hs1, H. change (Z.to_nat 4) with 4%nat in Hrec1, Hs1, H.
  cbn [firstn skipn app] in Hrec1, Hs1, H.
  rewrite (struct_unpack_I_4 [l0; l1; fl; pid] eq_refl) in H.
  cbn [of_struct] in H. unfold bind at 1 in H. cbn [ret] in H.
  cbv zeta in H. rewrite F3, Hlen in H.
  destruct (0 <? len payload) eqn:E.
  - step_ok H as d s2 H2. apply ret_Ok in H. destruct H as [_ ->].
    apply (read_stream_received fuel (len payload) s1 id) in H2;
      [ | rewrite Hself1; exact Hs | exact Hc1
        | rewrite Hs1; unfold len; rewrite length_app; lia | unfold len; lia].
    destruct H2 as (-> & Hrec2 & _).
    rewrite Hs1 in Hrec2. unfold len in Hrec2. rewrite Nat2Z.id in Hrec2.
    rewrite firstn_length_app in Hrec2.
    rewrite Hrec2, Hrec1, <- app_assoc. reflexivity.
  - apply ret_Ok in H. destruct H as [_ ->].
    assert (payload = []).
    { apply Z.ltb_ge in E. destruct payload; [reflexivity | ].
      unfold len in E. cbn [length] in E. lia. }
    subst payload. rewrite Hrec1. reflexivity.
Qed.

Lemma received_opened st ok :
  received (events (net (opened st ok))) = received (events (net st)).
Proof.
  unfold opened. cbn. rewrite !received_app. cbn. rewrite !app_nil_r.
  reflexivity.
Qed.

Lemma received_released st id :
  received (events (net (released st id))) = received (events (net st)).
Proof.
  unfold released. cbn. rewrite received_app. cbn. apply app_nil_r.
Qed.

Lemma silent_Raise {X A : Type} (view : list Event -> list X) (m : M A) st e st' :
  silent view m -> m st = Raise e st' ->
  view (events (net st')) = view (events (net st)).
Proof. intros Hm H. specialize (Hm st). rewrite H in Hm. exact Hm. Qed.

(** Past the gate of [send], what was received is the frame that answered
    host mode 1. *)
Lemma send_gate_received fuel (image : bytes) (cb : option Callback) st s0 s2
    l0 l1 fl pid payload more :
  rx_clean (rx (net st)) ->
  rx_stream (rx (net st)) = [l0; l1; fl; pid] ++ payload ++ more ->
  byte_val l0 + 256 * byte_val l1 = len payload ->
  (4 < fuel)%nat -> (length payload < fuel)%nat ->
  startup (opened st true) = Ok tt s0 ->
  (match cb with
   | Some f => call_progress f 0 (len image)
   | None => ret tt
   end ;;
   set_host_mode fuel 1) s0 = Ok tt s2 ->
  received (events (net s2))
  = received (events (net st)) ++ [l0; l1; fl; pid] ++ payload.
Proof.
  intros Hcl Hstream Hlen Hf4 Hfp H0 H2.
  pose proof (send_packet_received _ _ _ _ H0) as Hrec0.
  rewrite received_opened in Hrec0.
  apply send_packet_Ok in H0. destruct H0 as (Hself0 & _ & Hrx0 & _).
  step_ok H2 as u1 s1 H1.
  assert (B1 : self s1 = self s0 /\ rx (net s1) = rx (net s0) /\
               received (events (net s1)) = received (events (net s0))).
  { destruct cb as [f | ].
    - pose proof (call_progress_Ok _ _ _ _ _ _ H1) as (E1 & _ & E2 & _).
      split; [exact E1 | split; [exact E2 | ]].
      apply (silent_Ok received) in H1; [exact H1 | ].
      apply silent_call_progress; [apply received_app | reflexivity].
    - apply ret_Ok in H1. destruct H1 as [_ ->]. auto. }
  clear H1. destruct B1 as (Hself1 & Hrx1 & Hrec1).
  unfold set_host_mode in H2. step_ok H2 as v s3 H3.
  apply ret_Ok in H2. destruct H2 as [_ ->].
  unfold exchange_host_mode in H3.
  step_ok H3 as pl t0 Hp. apply of_struct_Ok in Hp. destruct Hp as [_ ->].
  step_ok H3 as u2 t1 Hsend.
  pose proof (send_packet_received _ _ _ _ Hsend) as Hrec2.
  apply send_packet_Ok in Hsend. destruct Hsend as (Hself2 & _ & Hrx2 & _).
  step_ok H3 as response t2 Hrecv.
  apply (recv_packet_stream_received fuel t1 (next_id (net st))
           l0 l1 fl pid payload more) in Hrecv;
    [ | rewrite Hself2, Hself1, Hself0; reflexivity
      | rewrite Hrx2, Hrx1, Hrx0; exact Hcl
      | rewrite Hrx2, Hrx1, Hrx0; exact Hstream
      | exact Hlen | exact Hf4 | exact Hfp].
  assert (Es : s3 = t2).
  { destruct (negb (pktid response =? 7)); [discriminate | ].
    destruct (negb (length_ response =? 4)); [discriminate | ].
    step_ok H3 as w t3 Hw. apply of_struct_Ok in Hw. destruct Hw as [_ ->].
    apply ret_Ok in H3. destruct H3 as [_ ->]. reflexivity. }
  rewrite Es, Hrecv, Hrec2, Hrec1, Hrec0. reflexivity.
Qed.

(** ** The claim *)

Lemma send_closes_once des_block fuel data key cb st :
  connect_ok (net st) = true ->
  match send des_block fuel data key cb st with
  | Ok _ st' | Raise _ st' =>
      sock (self st') = None /\
      closes (next_id (net st)) (events (net st'))
      = S (closes (next_id (net st)) (events (net st)))
  | OutOfFuel => True
  end.
Proof.
  intros Hc.
  exact (session_closes_once _ st Hc
           (keeps_send_body des_block fuel data key cb)).
Qed.

(** C7, as amended.  [send] checks nothing before it opens the connection.
    With a key that is not empty and either is not of 8 bytes or comes with a
    payload that is not a multiple of 8 bytes, whatever the network and the
    callback do: [send] never returns normally; when it ends, by whatever
    exception, it has made no attempt to send a set-info packet (a buffer
    with the id [0x19], as every set-info frame has); and a run that does not
    end is one that does not get past the reply to host mode 1, before the
    key code (the loop over the chunks, with a round of fuel for each, always
    ends).  When the connection is made, no send raises, the callback
    returns and the frame that answers host mode 1 comes in, cut into
    whatever segments: a key of another length makes set-key-code raise its
    NetDimmException once the startup and host-mode packets are sent and the
    eight bytes of the reply are read, and before any key code, chunk or
    set-info; a key of 8 bytes with a payload (below 4 GiB) that is not a
    multiple of 8 makes the DES engine raise ValueError at the last chunk,
    once the key code and every chunk before the last are sent, and before
    set-info.  Either way nothing but the reply was read, and the socket is
    closed, once, and dropped. *)
Theorem send_rejects_after_io des_block fuel data k cb st l0 l1 fl mode more :
  k <> [] ->
  length k <> 8%nat \/ len data mod 8 <> 0 ->
  (forall st', send des_block fuel data (Some k) cb st <> Ok tt st') /\
  (forall e st',
     send des_block fuel data (Some k) cb st = Raise e st' ->
     exists evs,
       events (net st') = events (net st) ++ evs /\ Forall not_set_info evs) /\
  (forall id c n taken,
     ~ not_set_info (EvSend id (frame (set_info_packet c n)) taken) /\
     ~ not_set_info (EvSendFail id (frame (set_info_packet c n)))) /\
  ((nchunks (len data) <= fuel)%nat ->
   send des_block fuel data (Some k) cb st = OutOfFuel ->
   connection
     (match cb with
      | Some f => call_progress f 0 (len data)
      | None => ret tt
      end ;;
      set_host_mode fuel 1) st = OutOfFuel) /\
  (connect_ok (net st) = true ->
   tx_ok st ->
   callback_ok cb ->
   rx_clean (rx (net st)) ->
   rx_stream (rx (net st)) = [l0; l1; fl; x07] ++ mode ++ more ->
   byte_val l0 + 256 * byte_val l1 = 4 ->
   length mode = 4%nat ->
   (4 < fuel)%nat ->
   (length k <> 8%nat ->
    exists st',
      send des_block fuel data (Some k) cb st
      = Raise (NetDimmException "Key code must by 8 bytes in length") st' /\
      sent st' = sent st ++ map frame [startup_packet; host_mode_packet 0 1] /\
      received (events (net st'))
      = received (events (net st)) ++ [l0; l1; fl; x07] ++ mode /\
      rx_stream (rx (net st')) = more /\
      sock (self st') = None /\
      closes (next_id (net st)) (events (net st'))
      = S (closes (next_id (net st)) (events (net st)))) /\
   (length k = 8%nat ->
    len data < 2 ^ 32 ->
    (nchunks (len data) <= fuel)%nat ->
    exists st',
      send des_block fuel data (Some k) cb st = Raise ValueError st' /\
      sent st' = sent st
        ++ map frame [startup_packet; host_mode_packet 0 1; key_code_packet k]
        ++ map (upload_frame des_block (Some (rev k)) data (nchunks (len data)))
             (seq 0 (nchunks (len data) - 1)) /\
      received (events (net st'))
      = received (events (net st)) ++ [l0; l1; fl; x07] ++ mode /\
      rx_stream (rx (net st')) = more /\
      sock (self st') = None /\
      closes (next_id (net st)) (events (net st'))
      = S (closes (next_id (net st)) (events (net st))))).
Proof.
  intros Hne Hbad.
  assert (Et : truthy (Some k) = true) by (destruct k; [congruence | reflexivity]).
  split; [ | split; [ | split; [ | split]]].
  - intros st' H. apply send_Ok in H. destruct H as (_ & _ & Hkey).
    destruct (Hkey k eq_refl Hne) as [H8 Hal]. destruct Hbad; contradiction.
  - intros e st' H.
    pose proof (quiet_send_bad_key des_block fuel data k cb Hne Hbad st) as Hq.
    rewrite H in Hq. exact Hq.
  - intros id c n taken. cbn [not_set_info]. rewrite frame_id_frame.
    cbn [set_info_packet pktid]. split; intros H; apply H; reflexivity.
  - apply send_bad_key_stuck; assumption.
  - intros Hc Ht Hcb Hcl Hstream Hlen Hm Hfuel.
    destruct (send_gate fuel data cb st l0 l1 fl x07 mode more)
      as (s0 & s2 & H0 & H2 & Rs2 & Hself2 & Hsent2 & _ & Hrx2);
      try assumption.
    { intros f E. apply (Hcb f E). }
    { unfold len. rewrite Hm. exact Hlen. }
    { lia. }
    change (byte_val x07 =? 7) with true in H2. cbn [negb] in H2.
    replace (len mode =? 4) with true in H2
      by (unfold len; rewrite Hm; reflexivity).
    cbn [negb] in H2.
    assert (Hrec2 : received (events (net s2))
                    = received (events (net st)) ++ [l0; l1; fl; x07] ++ mode).
    { apply (send_gate_received fuel data cb st s0 s2 l0 l1 fl x07 mode more);
        try assumption; [unfold len; rewrite Hm; exact Hlen | lia]. }
    assert (Hid : sock (self s2) = Some (next_id (net st))).
    { rewrite Hself2. reflexivity. }
    pose proof (send_closes_once des_block fuel data (Some k) cb st Hc) as Hclose.
    split.
    + intros H8.
      assert (Hrun : send des_block fuel data (Some k) cb st
                     = Raise (NetDimmException "Key code must by 8 bytes in length")
                         (released s2 (next_id (net st)))).
      { unfold send. eapply connection_raises; [exact Hc | exact H0 | | exact Hid].
        rewrite (bind_bind_Ok _ _ _ _ _ _ H2). rewrite Et.
        apply bind_Raise_intro. unfold set_key_code.
        assert (E8 : (len k =? 8) = false).
        { apply Z.eqb_neq. unfold len. lia. }
        rewrite E8. reflexivity. }
      rewrite Hrun in Hclose.
      exists (released s2 (next_id (net st))).
      split; [exact Hrun | ].
      split; [rewrite sent_released; exact Hsent2 | ].
      split; [rewrite received_released; exact Hrec2 | ].
      split; [exact Hrx2 | exact Hclose].
    + intros H8 Hbig Hfuel'.
      assert (Hodd : len data mod 8 <> 0)
        by (destruct Hbad; [contradiction | assumption]).
      destruct (send_packet_step (key_code_packet k) s2 Rs2) as (s3 & H3 & Rs3).
      pose proof (send_packet_received _ _ _ _ H3) as Hrec3.
      pose proof (send_packet_Ok _ _ _ _ H3) as (Hself3 & Hsent3 & Hrx3 & _).
      destruct (upload_file_unaligned des_block fuel data k
                  (Some (match cb with Some f => f | None => fun _ _ => true end))
                  s3 H8 Rs3 (callback_ok_default cb Hcb) Hbig Hodd Hfuel')
        as (s4 & H4 & (Hself4 & Hsent4 & Hrx4 & _)).
      assert (Hrec4 : received (events (net s4)) = received (events (net s3))).
      { apply (silent_Raise received) in H4; [exact H4 | ].
        apply silent_upload_file; try reflexivity. apply received_app. }
      assert (Hrun : send des_block fuel data (Some k) cb st
                     = Raise ValueError (released s4 (next_id (net st)))).
      { unfold send. eapply connection_raises; [exact Hc | exact H0 | | ].
        - rewrite (bind_bind_Ok _ _ _ _ _ _ H2). rewrite Et.
          unfold bind at 1. unfold set_key_code.
          assert (E8 : (len k =? 8) = true).
          { apply Z.eqb_eq. unfold len. lia. }
          rewrite E8. cbn [negb]. fold (key_code_packet k). rewrite H3.
          exact H4.
        - rewrite Hself4, Hself3. exact Hid. }
      rewrite Hrun in Hclose.
      exists (released s4 (next_id (net st))).
      split; [exact Hrun | ].
      split; [rewrite sent_released, Hsent4, Hsent3, Hsent2;
              cbn [map]; rewrite <- !app_assoc; reflexivity | ].
      split; [rewrite received_released, Hrec4, Hrec3; exact Hrec2 | ].
      split; [ | exact Hclose].
      cbn [released with_sock with_net net rx log_event].
      rewrite Hrx4, Hrx3. exact Hrx2.
Qed.

Lemma send_rejects_after_io_witness :
  exists st',
    send xor_block 5 [] (Some [x01]) None
      (sample_state TARGET_NAOMI TARGET_VERSION_UNKNOWN true
         [RxData [x04; x00; x00]; RxData [x07; x01; x00; x00; x00]] [])
    = Raise (NetDimmException "Key code must by 8 bytes in length") st' /\
    sent st' = map frame [startup_packet; host_mode_packet 0 1] /\
    received (events (net st')) = host_mode_reply.
Proof.
  destruct (send_rejects_after_io xor_block 5 [] [x01] None
              (sample_state TARGET_NAOMI TARGET_VERSION_UNKNOWN true
                 [RxData [x04; x00; x00]; RxData [x07; x01; x00; x00; x00]] [])
              x04 x00 x00 [x01; x00; x00; x00] []) as (_ & _ & _ & _ & Hrun).
  - discriminate.
  - left. discriminate.
  - destruct Hrun as [Hkey _].
    + reflexivity.
    + constructor.
    + intros f Hf. discriminate.
    + repeat constructor; discriminate.
    + reflexivity.
    + reflexivity.
    + reflexivity.
    + lia.
    + destruct Hkey as (st' & E & Hsent & Hrec & _); [discriminate | ].
      exists st'. split; [exact E | split; [exact Hsent | exact Hrec]].
Defined.
